(** * Serpent.AI command-line layer (serpent/serpent.py)

    A shallow embedding of the command dispatcher, the game commands
    (launch, play, record, capture), the training hand-off and the plugin
    scaffolding of [serpent/serpent.py], with the properties stated about
    them.

    Python values are modelled as follows: [str] as [string], [int] as [Z],
    a [dict] keyed by strings as a [gmap string _] or, for keyword
    arguments, as an association list. The conversions [int] and [repr] and
    the reading of a file are modelled for ASCII text: a statement that
    rests on what they do with a text assumes that the text is ASCII
    ([PyStr.is_ascii]), except where [int] reads the text as a number, which
    the model does for ASCII text only.
    Calls into collaborators that live outside this file (game plugins, the
    plugin registry, the object recognizer, the file system) are recorded as
    events of a trace; whether they raise is read from a [World]. *)

From Stdlib Require Import ZArith Ascii String.
From stdpp Require Import base option list gmap strings.

Local Open Scope Z_scope.

(** ** Python strings *)

Module PyStr.

Fixpoint drop (n : nat) (s : string) : string :=
  match n, s with
  | O, _ => s
  | S _, EmptyString => EmptyString
  | S k, String _ s' => drop k s'
  end.

Fixpoint take (n : nat) (s : string) : string :=
  match n, s with
  | O, _ => EmptyString
  | S _, EmptyString => EmptyString
  | S k, String c s' => String c (take k s')
  end.

(** [s.startswith(p)] *)
Fixpoint startswith (p s : string) : bool :=
  match p, s with
  | EmptyString, _ => true
  | String _ _, EmptyString => false
  | String a p', String b s' => Ascii.eqb a b && startswith p' s'
  end.

(** [p in s] for two strings: [p] occurs in [s] as a substring. *)
Fixpoint contains (p s : string) : bool :=
  startswith p s ||
  match s with
  | EmptyString => false
  | String _ s' => contains p s'
  end.

(** [x in xs] for a list of strings. *)
Definition mem (x : string) (xs : list string) : bool :=
  existsb (String.eqb x) xs.

(** The scan of [str.replace] for a non-empty [old]: left to right, each
    occurrence found is replaced and the scan resumes after it, so
    occurrences never overlap and the text put in is not scanned again.
    [skip] counts the characters of a matched occurrence still to pass. *)
Fixpoint replace_scan (old new : string) (skip : nat) (s : string) : string :=
  match s with
  | EmptyString => EmptyString
  | String c s' =>
      match skip with
      | S k => replace_scan old new k s'
      | O =>
          if startswith old s
          then new +:+ replace_scan old new (String.length old - 1) s'
          else String c (replace_scan old new O s')
      end
  end.

(** An empty [old] matches before every character and at the end. *)
Fixpoint replace_empty (new s : string) : string :=
  match s with
  | EmptyString => new
  | String c s' => new +:+ String c (replace_empty new s')
  end.

(** [s.replace(old, new)] *)
Definition replace (old new s : string) : string :=
  match old with
  | EmptyString => replace_empty new s
  | String _ _ => replace_scan old new O s
  end.

(** Number of line breaks of a text. *)
Fixpoint count_newlines (s : string) : nat :=
  match s with
  | EmptyString => O
  | String c s' =>
      ((if Ascii.eqb c "010" then 1 else 0) + count_newlines s')%nat
  end.

(** [s.split("\n")]: the lines of a text; [cur] is the line being read, in
    reverse. *)
Fixpoint split_lines_go (cur : string) (s : string) : list string :=
  match s with
  | EmptyString => [String.rev cur]
  | String c s' =>
      if Ascii.eqb c "010"
      then String.rev cur :: split_lines_go EmptyString s'
      else split_lines_go (String c cur) s'
  end.

Definition split_lines (s : string) : list string :=
  split_lines_go EmptyString s.

(** ["\n".join(ls)] *)
Fixpoint join_lines (ls : list string) : string :=
  match ls with
  | [] => EmptyString
  | [l] => l
  | l :: ls' => l +:+ String "010" (join_lines ls')
  end.

(** The text is ASCII: every character is below 128. *)
Fixpoint is_ascii (s : string) : bool :=
  match s with
  | EmptyString => true
  | String c s' => (nat_of_ascii c <? 128)%nat && is_ascii s'
  end.

(** White space as [int] strips it from ASCII text: the characters 9 to 13
    (tab, line feed, vertical tab, form feed, carriage return) and the
    space. *)
Definition is_space (c : ascii) : bool :=
  let n := nat_of_ascii c in
  ((9 <=? n)%nat && (n <=? 13)%nat) || (n =? 32)%nat.

Fixpoint lstrip (s : string) : string :=
  match s with
  | EmptyString => EmptyString
  | String c s' => if is_space c then lstrip s' else s
  end.

Fixpoint rstrip (s : string) : string :=
  match s with
  | EmptyString => EmptyString
  | String c s' =>
      match rstrip s' with
      | EmptyString => if is_space c then EmptyString else String c EmptyString
      | r => String c r
      end
  end.

Definition digit_value (c : ascii) : option Z :=
  let n := nat_of_ascii c in
  if (48 <=? n)%nat && (n <=? 57)%nat then Some (Z.of_nat (n - 48)) else None.

(** Decimal digits, single underscores allowed between two digits only. *)
Fixpoint digits_value (acc : Z) (after_digit : bool) (s : string) : option Z :=
  match s with
  | EmptyString => if after_digit then Some acc else None
  | String c s' =>
      match digit_value c with
      | Some d => digits_value (10 * acc + d) true s'
      | None =>
          if Ascii.eqb c "_" && after_digit
          then digits_value acc false s'
          else None
      end
  end.

(** [int(s)] for an ASCII string, base 10: surrounding white space, an
    optional sign, then digits; the bound that recent interpreters put
    on the number of digits is not modelled. [None] is the
    [ValueError]. *)
Definition int_of_str (s : string) : option Z :=
  match rstrip (lstrip s) with
  | String "+" r => digits_value 0 false r
  | String "-" r => Z.opp <$> digits_value 0 false r
  | t => digits_value 0 false t
  end.

Definition dquote : ascii := "034"%char.

(** A literal of the source that holds double quotes is written here with
    single quotes in their place and passed through [dq]. *)
Fixpoint dq (s : string) : string :=
  match s with
  | EmptyString => EmptyString
  | String c s' => String (if Ascii.eqb c "'" then dquote else c) (dq s')
  end.

Definition hex_digit (n : nat) : ascii :=
  ascii_of_nat (if (n <? 10)%nat then 48 + n else 87 + n).

(** One character of [repr(s)] inside the quote [q]. *)
Definition repr_char (q c : ascii) : string :=
  let n := nat_of_ascii c in
  if Ascii.eqb c q || Ascii.eqb c "\" then String "\" (String c EmptyString)
  else if Ascii.eqb c "009" then "\t"
  else if Ascii.eqb c "010" then "\n"
  else if Ascii.eqb c "013" then "\r"
  else if (n <? 32)%nat || (n =? 127)%nat
  then String "\" (String "x" (String (hex_digit (n / 16))
                                 (String (hex_digit (n mod 16)) EmptyString)))
  else String c EmptyString.

Fixpoint repr_body (q : ascii) (s : string) : string :=
  match s with
  | EmptyString => EmptyString
  | String c s' => repr_char q c +:+ repr_body q s'
  end.

(** [repr(s)] for an ASCII string: single quotes, unless the text has a
    single quote and no double quote. *)
Definition repr (s : string) : string :=
  let q : ascii :=
    if contains "'" s && negb (contains (String dquote EmptyString) s)
    then dquote else "'"%char in
  String q (repr_body q s +:+ String q EmptyString).

(** The text as a file opened for reading in text mode gives it: each
    carriage return with the line feed that follows it, and each lone
    carriage return, is read as one line feed. *)
Fixpoint universal_newlines (s : string) : string :=
  match s with
  | EmptyString => EmptyString
  | String c s' =>
      if Ascii.eqb c "013"
      then String "010"
             match s' with
             | EmptyString => EmptyString
             | String c' s'' =>
                 if Ascii.eqb c' "010" then universal_newlines s''
                 else universal_newlines s'
             end
      else String c (universal_newlines s')
  end.

End PyStr.

(** ** Python values, exceptions and conversions *)

(** A [float] is kept as the literal it was converted from. *)
Inductive PyFloat : Type :=
| FloatOfInt (z : Z)
| FloatOfStr (s : string).

(** The values a command parameter holds: a command-line string, or the
    parameter's default ([None], a boolean or an integer). *)
Inductive PyVal : Type :=
| VNone
| VBool (b : bool)
| VInt (z : Z)
| VStr (s : string).

(** A keyword argument of a call into a collaborator. *)
Inductive KwVal : Type :=
| KwV (v : PyVal)
| KwFloat (x : PyFloat).

Definition kwargs : Type := list (string * KwVal).

Inductive PyExc : Type :=
| Exception (msg : string)
| ValueError (msg : string)
| TypeError (msg : string)
| KeyError (key : string)
(** the [TypeError] of a call whose positional arguments do not fit the
    signature of [fn] *)
| ArityError (fn : string) (given : nat)
| FileExistsError (path : string)
| FileNotFoundError (path : string)
| IsADirectoryError (path : string)
| NotADirectoryError (path : string)
| ShutilError (msg : string)
(** an exception raised inside a collaborator *)
| Raised (tag : string).

(** [str(e)] for the exceptions whose message serpent.py or a builtin
    conversion builds. *)
Definition exc_message (e : PyExc) : option string :=
  match e with
  | Exception m | ValueError m | TypeError m => Some m
  | _ => None
  end.

(** [a == b] on parameter values; a boolean equals the integer 0 or 1. *)
Definition py_eq (a b : PyVal) : bool :=
  match a, b with
  | VNone, VNone => true
  | VBool x, VBool y => Bool.eqb x y
  | VInt x, VInt y => Z.eqb x y
  | VBool x, VInt y | VInt y, VBool x => Z.eqb (if x then 1 else 0) y
  | VStr x, VStr y => String.eqb x y
  | _, _ => false
  end.

(** [x in xs] *)
Definition py_in (x : PyVal) (xs : list PyVal) : bool := existsb (py_eq x) xs.

(** [int(v)] *)
Definition py_int (v : PyVal) : PyExc + Z :=
  match v with
  | VInt z => inr z
  | VBool b => inr (if b then 1 else 0)
  | VStr s =>
      match PyStr.int_of_str s with
      | Some z => inr z
      | None =>
          inl (ValueError ("invalid literal for int() with base 10: "
                             +:+ PyStr.take 200 (PyStr.repr s)))
      end
  | VNone =>
      inl (TypeError "int() argument must be a string, a bytes-like object or a number, not 'NoneType'")
  end.

(** ** The world outside serpent.py *)

(** A game plugin class, as far as the commands can observe it: whether
    constructing it, launching it and playing it raise. *)
Record GamePlugin : Type := {
  init_raises : option PyExc;
  launch_raises : bool -> option PyExc;
  play_raises : kwargs -> option PyExc
}.

Record World : Type := {
  (** [offshoot.discover("Game")] *)
  game_classes : gmap string GamePlugin;
  (** the names [offshoot.discover("GameAgent", selection=n)] can return *)
  game_agent_classes : gset string;
  (** whether [float(s)] accepts the string [s] *)
  float_accepts : string -> bool;
  (** [ObjectRecognizer(name, ...)] and its [train()] *)
  recognizer_init_raises : string -> option PyExc;
  recognizer_train_raises : string -> option PyExc;
  (** [ContextClassifier.executable_train(...)] *)
  executable_train_raises : option PyExc
}.

(** [float(v)] *)
Definition py_float (w : World) (v : PyVal) : PyExc + PyFloat :=
  match v with
  | VInt z => inr (FloatOfInt z)
  | VBool b => inr (FloatOfInt (if b then 1 else 0))
  | VStr s =>
      if float_accepts w s then inr (FloatOfStr s)
      else inl (ValueError ("could not convert string to float: " +:+ PyStr.repr s))
  | VNone =>
      inl (TypeError "float() argument must be a string or a number, not 'NoneType'")
  end.

Inductive Callback : Type :=
| on_interrupt_of (recognizer : string).

(** What a command does to its collaborators, in order. The game instance of
    an invocation is named by the class it was built from. *)
Inductive Event : Type :=
| EConstruct (game_class : string)
| ELaunch (game : string) (dry_run : option bool)
| EPlay (game : string) (args : kwargs)
(** the release call of the lifecycle contract *)
| ETerminate (game : string)
| ENewRecognizer (name algorithm : string) (classes : list string)
| ESignal (signum : string) (handler : Callback)
| ETrain (recognizer : string)
| EExecutableTrain (epochs : Z) (validate autosave : bool)
| EHelp
(** a command whose body is outside this model *)
| ERun (command : string) (args : list string).

(** A computation: the events made, then an exception or a result. *)
Definition M (A : Type) : Type := list Event * (PyExc + A).

#[export] Instance M_ret : MRet M := fun A a => ([], inr a).

#[export] Instance M_bind : MBind M := fun A B k m =>
  match m with
  | (t, inl e) => (t, inl e)
  | (t, inr a) => let '(t', r) := k a in (t ++ t', r)
  end.

Definition raise {A : Type} (e : PyExc) : M A := ([], inl e).

(** A call into a collaborator: recorded, then it raises or returns. *)
Definition call (ev : Event) (raises : option PyExc) : M unit :=
  ([ev], match raises with Some e => inl e | None => inr tt end).

(** A builtin conversion: no event. *)
Definition lift {A : Type} (r : PyExc + A) : M A := ([], r).

Definition trace {A : Type} (m : M A) : list Event := fst m.
Definition outcome {A : Type} (m : M A) : PyExc + A := snd m.

(** ** The commands of serpent.py *)

Definition VERSION : string := "2018.1.2".

Definition valid_commands : list string :=
  [ "setup"; "update"; "modules"; "grab_frames"; "launch"; "play"; "record";
    "generate"; "activate"; "deactivate"; "plugins"; "train"; "capture";
    "visual_debugger"; "window_name"; "record_inputs"; "dashboard";
    "object_recognition" ].

(** A constructed game: the class name it was looked up under, and the
    plugin behind it. *)
Record Game : Type := {
  game_id : string;
  game_plugin : GamePlugin
}.

(** Modelled from the spec: the [Game] base class is not part of
    serpent.py; a launch that is not given [dry_run] is a live
    (non-dry-run) launch. *)
Definition Game_launch_dry_run_default : bool := false.

(** [game.launch()] and [game.launch(dry_run=True)] *)
Definition Game_launch (game : Game) (dry_run : option bool) : M unit :=
  call (ELaunch (game_id game) dry_run)
       (launch_raises (game_plugin game)
          (default Game_launch_dry_run_default dry_run)).

(** [game.play] called with the keyword arguments [args] *)
Definition Game_play (game : Game) (args : kwargs) : M unit :=
  call (EPlay (game_id game) args) (play_raises (game_plugin game) args).

Definition initialize_game (w : World) (game_name : string) : M Game :=
  let game_class_name := "Serpent" +:+ game_name +:+ "Game" in
  let game_class_mapping := game_classes w in
  match game_class_mapping !! game_class_name with
  | None =>
      raise (Exception ("Game '" +:+ game_name
                          +:+ "' wasn't found. Make sure the plugin is installed."))
  | Some game_class =>
      _ ← call (EConstruct game_class_name) (init_raises game_class);
      mret {| game_id := game_class_name; game_plugin := game_class |}
  end.

Definition launch (w : World) (game_name : string) : M unit :=
  game ← initialize_game w game_name;
  Game_launch game None.

Definition play (w : World) (game_name game_agent_name : string)
    (frame_handler : PyVal) : M unit :=
  game ← initialize_game w game_name;
  _ ← Game_launch game (Some true);
  if bool_decide (game_agent_name ∈ game_agent_classes w)
  then Game_play game
         [ ("game_agent_class_name", KwV (VStr game_agent_name));
           ("frame_handler", KwV frame_handler) ]
  else raise (Exception ("Game Agent '" +:+ game_agent_name
                           +:+ "' wasn't found. Make sure the plugin is installed.")).

Definition record (w : World) (game_name game_agent_name : string)
    (frame_count frame_spacing : PyVal) : M unit :=
  game ← initialize_game w game_name;
  _ ← Game_launch game (Some true);
  frame_count' ← lift (py_int frame_count);
  frame_spacing' ← lift (py_int frame_spacing);
  Game_play game
    [ ("game_agent_class_name", KwV (VStr game_agent_name));
      ("frame_handler", KwV (VStr "RECORD"));
      ("frame_count", KwV (VInt frame_count'));
      ("frame_spacing", KwV (VInt frame_spacing')) ].

Definition capture (w : World) (capture_type game_name : string)
    (interval extra extra_2 : PyVal) : M unit :=
  game ← initialize_game w game_name;
  _ ← Game_launch game (Some true);
  if negb (PyStr.mem capture_type ["frame"; "context"; "region"])
  then raise (Exception "Invalid capture command.")
  else if String.eqb capture_type "frame" then
    interval' ← lift (py_float w interval);
    Game_play game
      [ ("frame_handler", KwV (VStr "COLLECT_FRAMES"));
        ("interval", KwFloat interval') ]
  else if String.eqb capture_type "context" then
    interval' ← lift (py_float w interval);
    Game_play game
      [ ("frame_handler", KwV (VStr "COLLECT_FRAMES_FOR_CONTEXT"));
        ("interval", KwFloat interval');
        ("context", KwV extra);
        ("screen_region", KwV extra_2) ]
  else if String.eqb capture_type "region" then
    interval' ← lift (py_float w interval);
    Game_play game
      [ ("frame_handler", KwV (VStr "COLLECT_FRAME_REGIONS"));
        ("interval", KwFloat interval');
        ("region", KwV extra) ]
  else mret tt.

Definition argv_is_true (arg : PyVal) : bool :=
  py_in arg [VBool true; VStr "True"].

Definition train_context (w : World) (epochs validate autosave : PyVal) : M unit :=
  if negb (py_in validate [VBool true; VStr "True"; VBool false; VStr "False"])
  then raise (ValueError "'validate' should be True or False")
  else if negb (py_in autosave [VBool true; VStr "True"; VBool false; VStr "False"])
  then raise (ValueError "'autosave' should be True or False")
  else
    epochs' ← lift (py_int epochs);
    call (EExecutableTrain epochs' (argv_is_true validate) (argv_is_true autosave))
         (executable_train_raises w).

Definition train_object (w : World) (name algorithm : string)
    (classes : list string) : M unit :=
  _ ← call (ENewRecognizer name algorithm classes) (recognizer_init_raises w name);
  _ ← call (ESignal "SIGINT" (on_interrupt_of name)) None;
  call (ETrain name) (recognizer_train_raises w name).

(** ** Binding the command line to a command's parameters

    The handler is called with the items of [sys.argv] after the command as
    its positional arguments: every argument given is a string; a parameter left
    out takes its default; too few or too many arguments raise. *)

Definition optional (d : PyVal) (given : option string) : PyVal :=
  default d (VStr <$> given).

Definition launch_args (w : World) (args : list string) : M unit :=
  match args with
  | [game_name] => launch w game_name
  | _ => raise (ArityError "launch" (length args))
  end.

Definition play_args (w : World) (args : list string) : M unit :=
  match args with
  | game_name :: game_agent_name :: rest =>
      match rest with
      | [] => play w game_name game_agent_name VNone
      | [fh] => play w game_name game_agent_name (VStr fh)
      | _ => raise (ArityError "play" (length args))
      end
  | _ => raise (ArityError "play" (length args))
  end.

Definition record_args (w : World) (args : list string) : M unit :=
  match args with
  | game_name :: game_agent_name :: rest =>
      match rest with
      | [] => record w game_name game_agent_name (VInt 4) (VInt 4)
      | [fc] => record w game_name game_agent_name (VStr fc) (VInt 4)
      | [fc; fs] => record w game_name game_agent_name (VStr fc) (VStr fs)
      | _ => raise (ArityError "record" (length args))
      end
  | _ => raise (ArityError "record" (length args))
  end.

Definition capture_args (w : World) (args : list string) : M unit :=
  match args with
  | capture_type :: game_name :: rest =>
      match rest with
      | [] => capture w capture_type game_name (VInt 1) VNone VNone
      | [i] => capture w capture_type game_name (VStr i) VNone VNone
      | [i; e] => capture w capture_type game_name (VStr i) (VStr e) VNone
      | [i; e; e2] => capture w capture_type game_name (VStr i) (VStr e) (VStr e2)
      | _ => raise (ArityError "capture" (length args))
      end
  | _ => raise (ArityError "capture" (length args))
  end.

Definition train_context_args (w : World) (args : list string) : M unit :=
  match args with
  | [] => train_context w (VInt 3) (VBool true) (VBool false)
  | [e] => train_context w (VStr e) (VBool true) (VBool false)
  | [e; v] => train_context w (VStr e) (VStr v) (VBool false)
  | [e; v; a] => train_context w (VStr e) (VStr v) (VStr a)
  | _ => raise (ArityError "train_context" (length args))
  end.

Definition train_object_args (w : World) (args : list string) : M unit :=
  match args with
  | name :: algorithm :: classes => train_object w name algorithm classes
  | _ => raise (ArityError "train_object" (length args))
  end.

Definition train (w : World) (training_type : string) (args : list string) : M unit :=
  if String.eqb training_type "context" then train_context_args w args
  else if String.eqb training_type "object" then train_object_args w args
  else mret tt.

Definition train_args (w : World) (args : list string) : M unit :=
  match args with
  | training_type :: rest => train w training_type rest
  | [] => raise (ArityError "train" 0)
  end.

(** A command whose body is not modelled here (installation, dashboards,
    the interactive generator, ...): one event carrying its arguments. *)
Definition outside (command : string) (w : World) (args : list string) : M unit :=
  call (ERun command args) None.

Definition command_function_mapping :
    list (string * (World -> list string -> M unit)) :=
  [ ("setup", outside "setup");
    ("update", outside "update");
    ("modules", outside "modules");
    ("grab_frames", outside "grab_frames");
    ("activate", outside "activate");
    ("deactivate", outside "deactivate");
    ("plugins", outside "plugins");
    ("launch", launch_args);
    ("play", play_args);
    ("record", record_args);
    ("generate", outside "generate");
    ("train", train_args);
    ("capture", capture_args);
    ("visual_debugger", outside "visual_debugger");
    ("window_name", outside "window_name");
    ("record_inputs", outside "record_inputs");
    ("dashboard", outside "dashboard");
    ("object_recognition", outside "object_recognition") ].

(** [d[k]] on an association list standing for a dict literal. *)
Fixpoint dict_get {V : Type} (d : list (string * V)) (k : string) : option V :=
  match d with
  | [] => None
  | (k', v) :: d' => if String.eqb k k' then Some v else dict_get d' k
  end.

Definition executable_help : M unit := call EHelp None.

(** [execute()], with [sys.argv] as its argument. *)
Definition execute (w : World) (argv : list string) : M unit :=
  match argv with
  | [] => mret tt
  | [_] => executable_help
  | _ :: command :: args =>
      if String.eqb command "-h" || String.eqb command "--help"
      then executable_help
      else if negb (PyStr.mem command valid_commands)
      then raise (Exception ("'" +:+ command +:+ "' is not a valid Serpent command."))
      else
        match dict_get command_function_mapping command with
        | Some f => f w args
        | None => raise (KeyError command)
        end
  end.

(** ** The file system

    A finite map from paths, compared as written, to nodes. A computation on
    it keeps what it has written when it raises. *)

Inductive Node : Type :=
| File (contents : string)
| Dir.

Abbreviation FS := (gmap string Node).

Definition FsM (A : Type) : Type := FS -> FS * (PyExc + A).

#[export] Instance FsM_ret : MRet FsM := fun A a fs => (fs, inr a).

#[export] Instance FsM_bind : MBind FsM := fun A B k m fs =>
  match m fs with
  | (fs', inl e) => (fs', inl e)
  | (fs', inr a) => k a fs'
  end.

Definition os_sep : string := "/".

(** The directory part of a path that has a separator: what stands before
    the last one. *)
Fixpoint dirname_opt (p : string) : option string :=
  match p with
  | EmptyString => None
  | String c p' =>
      match dirname_opt p' with
      | Some d => Some (String c d)
      | None => if Ascii.eqb c "/" then Some EmptyString else None
      end
  end.

(** [os.path.basename(p)] *)
Definition basename (p : string) : string :=
  match dirname_opt p with
  | Some d => PyStr.drop (S (String.length d)) p
  | None => p
  end.

(** [os.path.join(a, b)] *)
Definition os_path_join (a b : string) : string :=
  if PyStr.startswith "/" b then b
  else
    match a with
    | EmptyString => b
    | _ =>
        if String.eqb (PyStr.drop (String.length a - 1) a) "/"
        then a +:+ b else a +:+ "/" +:+ b
    end.

(** The proper ancestors of a path, outermost first; [seen] is the part of
    the path already read, in reverse. *)
Fixpoint ancestors_go (seen : string) (p : string) : list string :=
  match p with
  | EmptyString => []
  | String c p' =>
      (if Ascii.eqb c "/" && negb (String.eqb seen EmptyString)
       then [String.rev seen] else [])
      ++ ancestors_go (String c seen) p'
  end.

Definition ancestors (p : string) : list string := ancestors_go EmptyString p.

(** [os.path.isdir(p)] and [os.path.exists(p)] *)
Definition isdir (fs : FS) (p : string) : bool :=
  match fs !! p with Some Dir => true | _ => false end.

Definition path_exists (fs : FS) (p : string) : bool :=
  match fs !! p with Some _ => true | None => false end.

(** The parent directory is there: the path has none written (it is in the
    working directory or under the root), or the map holds it as a
    directory. *)
Definition parent_is_dir (fs : FS) (p : string) : bool :=
  match dirname_opt p with
  | None | Some EmptyString => true
  | Some d => isdir fs d
  end.

(** [open(p, "r").read()]: the contents, with the line ends as text mode
    reads them. *)
Definition read_file (p : string) : FsM string := fun fs =>
  match fs !! p with
  | Some (File c) => (fs, inr (PyStr.universal_newlines c))
  | Some Dir => (fs, inl (IsADirectoryError p))
  | None => (fs, inl (FileNotFoundError p))
  end.

(** [open(p, "w").write(c)] *)
Definition write_file (p c : string) : FsM unit := fun fs =>
  match fs !! p with
  | Some Dir => (fs, inl (IsADirectoryError p))
  | _ =>
      if parent_is_dir fs p then (<[p := File c]> fs, inr tt)
      else (fs, inl (FileNotFoundError p))
  end.

(** Make each directory of the list, a path and the paths below it in
    turn, that is not there yet. Below a file nothing can be made: the
    error names the path that was to be made there. *)
Fixpoint mkdir_all (ps : list string) : FsM unit := fun fs =>
  match ps with
  | [] => (fs, inr tt)
  | p :: ps' =>
      match fs !! p with
      | None => mkdir_all ps' (<[p := Dir]> fs)
      | Some Dir => mkdir_all ps' fs
      | Some (File _) =>
          (fs, inl match ps' with
                   | q :: _ => NotADirectoryError q
                   | [] => FileExistsError p
                   end)
      end
  end.

(** [os.makedirs(p)]: [p] must be new; its missing ancestors are made. When
    [p] is there so are its ancestors, and nothing is made before the
    failure. *)
Definition makedirs (p : string) : FsM unit := fun fs =>
  match fs !! p with
  | Some _ => (fs, inl (FileExistsError p))
  | None => mkdir_all (ancestors p ++ [p]) fs
  end.

(** [p] lies below the directory [d]. *)
Definition below (d p : string) : bool := PyStr.startswith (d +:+ "/") p.

(** What lies below [src], at the same place below [dst]. *)
Definition reroot (src dst : string) (fs : FS) : FS :=
  list_to_map
    (omap (fun kn : string * Node =>
             if below src kn.1
             then Some (dst +:+ PyStr.drop (String.length src) kn.1, kn.2)
             else None)
          (map_to_list fs)).

(** [shutil.copytree(src, dst)]: [src] is listed, [dst] is made (it must be
    new), then what lies below [src] is copied. *)
Definition copytree (src dst : string) : FsM unit := fun fs =>
  match fs !! src with
  | None => (fs, inl (FileNotFoundError src))
  | Some (File _) => (fs, inl (NotADirectoryError src))
  | Some Dir =>
      match makedirs dst fs with
      | (fs1, inl e) => (fs1, inl e)
      | (fs1, inr _) => (fs1 ∪ reroot src dst fs, inr tt)
      end
  end.

(** [shutil.move(src, dst)]: into [dst] when [dst] is a directory, a rename
    otherwise; a directory moves with what lies below it, and never into
    itself. *)
Definition move (src dst : string) : FsM unit := fun fs =>
  match fs !! src with
  | None => (fs, inl (FileNotFoundError src))
  | Some n =>
      let dst_is_dir := isdir fs dst in
      if dst_is_dir && String.eqb src dst then (fs, inr tt)
      else
        let real_dst :=
          if dst_is_dir then os_path_join dst (basename src) else dst in
        if dst_is_dir && path_exists fs real_dst
        then (fs, inl (ShutilError ("Destination path '" +:+ real_dst
                                      +:+ "' already exists")))
        else if negb (parent_is_dir fs real_dst)
        then (fs, inl (FileNotFoundError real_dst))
        else
          match n with
          | File c =>
              match fs !! real_dst with
              | Some Dir => (fs, inl (IsADirectoryError real_dst))
              | _ => (<[real_dst := File c]> (delete src fs), inr tt)
              end
          | Dir =>
              if below src dst
              then (fs, inl (ShutilError ("Cannot move a directory '" +:+ src
                                            +:+ "' into itself '" +:+ dst +:+ "'.")))
              else
                match fs !! real_dst with
                | Some (File _) => (fs, inl (NotADirectoryError real_dst))
                | _ =>
                    (<[real_dst := Dir]>
                       (filter (fun kn : string * Node => below src kn.1 = false)
                               (delete src fs)
                          ∪ reroot src real_dst fs), inr tt)
                end
          end
  end.

(** ** Plugin scaffolding *)

(** Where things are installed: [offshoot.config['file_paths']['plugins']]
    and [os.path.dirname(__file__)]. *)
Record Install : Type := {
  plugins_path : string;
  package_dir : string
}.

(** The literal source lines of the game template that serve one way of
    launching only. *)
Definition line_import_web_browser : string :=
  "from serpent.game_launchers.web_browser_game_launcher import WebBrowser".
Definition line_app_id : string := PyStr.dq "kwargs['app_id'] = 'APP_ID'".
Definition line_app_args : string := PyStr.dq "kwargs['app_args'] = None".
Definition line_executable_path : string :=
  PyStr.dq "kwargs['executable_path'] = 'EXECUTABLE_PATH'".
Definition line_url : string := PyStr.dq "kwargs['url'] = 'URL'".
Definition line_browser : string :=
  PyStr.dq "kwargs['browser'] = WebBrowser.DEFAULT".

(** The platform branch of [prepare_game_plugin], on the contents of the
    game file. *)
Definition rewrite_platform (game_platform contents : string) : string :=
  if String.eqb game_platform "steam" then
    let contents := PyStr.replace "PLATFORM" "steam" contents in
    let contents := PyStr.replace line_import_web_browser EmptyString contents in
    let contents := PyStr.replace line_executable_path EmptyString contents in
    let contents := PyStr.replace line_url EmptyString contents in
    let contents := PyStr.replace line_browser EmptyString contents in
    contents
  else if String.eqb game_platform "executable" then
    let contents := PyStr.replace "PLATFORM" "executable" contents in
    let contents := PyStr.replace line_import_web_browser EmptyString contents in
    let contents := PyStr.replace line_app_id EmptyString contents in
    let contents := PyStr.replace line_app_args EmptyString contents in
    let contents := PyStr.replace line_url EmptyString contents in
    let contents := PyStr.replace line_browser EmptyString contents in
    contents
  else if String.eqb game_platform "web_browser" then
    let contents := PyStr.replace "PLATFORM" "web_browser" contents in
    let contents := PyStr.replace line_app_id EmptyString contents in
    let contents := PyStr.replace line_app_args EmptyString contents in
    let contents := PyStr.replace line_executable_path EmptyString contents in
    contents
  else contents.

(** What [prepare_game_plugin] writes back to the game file, from what it
    read there. *)
Definition rewrite_game_file (game_name game_platform contents : string) : string :=
  let contents := PyStr.replace "SerpentGame" ("Serpent" +:+ game_name +:+ "Game") contents in
  let contents := PyStr.replace "MyGameAPI" (game_name +:+ "API") contents in
  rewrite_platform game_platform contents.

Definition game_plugin_destination (i : Install) (game_name : string) : string :=
  PyStr.replace "/" os_sep
    (plugins_path i +:+ "/Serpent" +:+ game_name +:+ "GamePlugin").

Definition game_plugin_template (i : Install) : string :=
  os_path_join (package_dir i)
    (PyStr.replace "/" os_sep "templates/SerpentGamePlugin").

Definition prepare_game_plugin (i : Install) (game_name game_platform : string)
    : FsM unit :=
  let plugin_destination_path := game_plugin_destination i game_name in
  _ ← copytree (game_plugin_template i) plugin_destination_path;
  (* Plugin Definition *)
  let plugin_py :=
    PyStr.replace "/" os_sep (plugin_destination_path +:+ "/plugin.py") in
  contents ← read_file plugin_py;
  let contents :=
    PyStr.replace "SerpentGamePlugin" ("Serpent" +:+ game_name +:+ "GamePlugin") contents in
  let contents :=
    PyStr.replace "serpent_game.py" ("serpent_" +:+ game_name +:+ "_game.py") contents in
  _ ← write_file plugin_py contents;
  let game_py :=
    PyStr.replace "/" os_sep
      (plugin_destination_path +:+ "/files/serpent_" +:+ game_name +:+ "_game.py") in
  _ ← move (PyStr.replace "/" os_sep
              (plugin_destination_path +:+ "/files/serpent_game.py"))
           game_py;
  (* Game *)
  contents ← read_file game_py;
  _ ← write_file game_py (rewrite_game_file game_name game_platform contents);
  (* Game API *)
  let api_py :=
    PyStr.replace "/" os_sep (plugin_destination_path +:+ "/files/api/api.py") in
  contents ← read_file api_py;
  write_file api_py (PyStr.replace "MyGameAPI" (game_name +:+ "API") contents).

(** [generate_game_plugin], with the two answers typed at its prompts, up
    to the return of [prepare_game_plugin]. The line that follows in the
    source, which splits and runs the command "serpent activate ..." as
    another program, is not part of this model: nothing is stated here
    about a generation past that point. *)
Definition generate_game_plugin (i : Install) (game_name game_platform : string)
    : FsM unit :=
  if PyStr.mem game_name [EmptyString]
  then fun fs => (fs, inl (Exception "Invalid game name."))
  else if negb (PyStr.mem game_platform ["steam"; "executable"; "web_browser"])
  then fun fs => (fs, inl (Exception "Invalid game platform."))
  else prepare_game_plugin i game_name game_platform.

(** The stripping as the specification words it: every line that belongs to
    another platform is deleted, and the placeholder is rewritten. *)
Definition other_platform_lines (game_platform : string) : list string :=
  if String.eqb game_platform "steam"
  then [line_import_web_browser; line_executable_path; line_url; line_browser]
  else if String.eqb game_platform "executable"
  then [line_import_web_browser; line_app_id; line_app_args; line_url; line_browser]
  else if String.eqb game_platform "web_browser"
  then [line_app_id; line_app_args; line_executable_path]
  else [].

Definition belongs_to_other_platform (game_platform line : string) : bool :=
  existsb (fun l => PyStr.contains l line) (other_platform_lines game_platform).

Definition spec_strip_platform (game_platform contents : string) : string :=
  PyStr.join_lines
    (List.map (PyStr.replace "PLATFORM" game_platform)
       (List.filter (fun line => negb (belongs_to_other_platform game_platform line))
          (PyStr.split_lines contents))).

(** ** Concrete situations used in the examples below *)

(** A game plugin whose calls all return. *)
Definition quiet_plugin : GamePlugin :=
  {| init_raises := None;
     launch_raises := fun _ => None;
     play_raises := fun _ => None |}.

(** One game plugin, [SerpentFooGame], and one agent are installed. *)
Definition foo_world : World :=
  {| game_classes := {[ "SerpentFooGame" := quiet_plugin ]};
     game_agent_classes := {[ "SerpentFooGameAgent" ]};
     float_accepts := fun s => String.eqb s "0.5";
     recognizer_init_raises := fun _ => None;
     recognizer_train_raises := fun _ => None;
     executable_train_raises := None |}.

Definition newline : string := String "010" EmptyString.

(** A game template made of the lines [prepare_game_plugin] looks for. *)
Definition foo_game_template : string :=
  "from .api.api import MyGameAPI" +:+ newline +:+
  line_import_web_browser +:+ newline +:+
  "class SerpentGame(Game):" +:+ newline +:+
  "        " +:+ PyStr.dq "kwargs['platform'] = 'PLATFORM'" +:+ newline +:+
  "        " +:+ line_app_id +:+ newline +:+
  "        " +:+ line_app_args +:+ newline +:+
  "        " +:+ line_executable_path +:+ newline +:+
  "        " +:+ line_url +:+ newline +:+
  "        " +:+ line_browser +:+ newline.

Definition foo_install : Install :=
  {| plugins_path := "plugins"; package_dir := "/opt/serpent" |}.

(** The package with its game plugin template, and no plugin yet. *)
Definition foo_fs : FS :=
  list_to_map
    [ ("/opt/serpent/templates/SerpentGamePlugin", Dir);
      ("/opt/serpent/templates/SerpentGamePlugin/plugin.py",
       File "class SerpentGamePlugin: files = ['serpent_game.py']");
      ("/opt/serpent/templates/SerpentGamePlugin/files", Dir);
      ("/opt/serpent/templates/SerpentGamePlugin/files/serpent_game.py",
       File foo_game_template);
      ("/opt/serpent/templates/SerpentGamePlugin/files/api", Dir);
      ("/opt/serpent/templates/SerpentGamePlugin/files/api/api.py",
       File "class MyGameAPI:") ].

(** ** Vocabulary of the statements *)

Definition game_class_name_of (game_name : string) : string :=
  "Serpent" +:+ game_name +:+ "Game".

Definition not_found_message (game_name : string) : string :=
  "Game '" +:+ game_name +:+ "' wasn't found. Make sure the plugin is installed.".

(** The common start of play, record and capture. *)
Definition after_dry_run_launch (w : World) (game_name : string)
    (k : Game -> M unit) : M unit :=
  game ← initialize_game w game_name;
  _ ← Game_launch game (Some true);
  k game.

(** The four ways the common start can go. *)
Inductive prelude_case (w : World) (game_name : string) (k : Game -> M unit)
    : M unit -> Prop :=
| PreludeNotFound :
    game_classes w !! game_class_name_of game_name = None ->
    prelude_case w game_name k
      ([], inl (Exception (not_found_message game_name)))
| PreludeInitRaises p e :
    game_classes w !! game_class_name_of game_name = Some p ->
    init_raises p = Some e ->
    prelude_case w game_name k
      ([EConstruct (game_class_name_of game_name)], inl e)
| PreludeLaunchRaises p e :
    game_classes w !! game_class_name_of game_name = Some p ->
    init_raises p = None ->
    launch_raises p true = Some e ->
    prelude_case w game_name k
      ([EConstruct (game_class_name_of game_name);
        ELaunch (game_class_name_of game_name) (Some true)], inl e)
| PreludeLaunched p :
    game_classes w !! game_class_name_of game_name = Some p ->
    init_raises p = None ->
    launch_raises p true = None ->
    prelude_case w game_name k
      (EConstruct (game_class_name_of game_name)
         :: ELaunch (game_class_name_of game_name) (Some true)
         :: trace (k {| game_id := game_class_name_of game_name; game_plugin := p |}),
       outcome (k {| game_id := game_class_name_of game_name; game_plugin := p |})).

(** [p] occurs in [s]. *)
Definition occurs_in (p s : string) : Prop :=
  exists pre post, s = pre +:+ p +:+ post.

(** A call on the game instance that the commands make. *)
Definition is_lifecycle_call (ev : Event) : Prop :=
  match ev with
  | EConstruct _ | ELaunch _ _ | EPlay _ _ => True
  | _ => False
  end.

(** The keyword arguments of the play call of record. *)
Definition record_play_args (a : string) (frame_count frame_spacing : Z) : kwargs :=
  [ ("game_agent_class_name", KwV (VStr a));
    ("frame_handler", KwV (VStr "RECORD"));
    ("frame_count", KwV (VInt frame_count));
    ("frame_spacing", KwV (VInt frame_spacing)) ].

(** The error of [int] on a string it does not read. *)
Definition invalid_literal (s : string) : PyExc :=
  ValueError ("invalid literal for int() with base 10: "
                +:+ PyStr.take 200 (PyStr.repr s)).

(** What a mode command does once the game is launched: at most the one
    play call, on that game. *)
Definition at_most_one_play (k : Game -> M unit) : Prop :=
  forall game,
    trace (k game) = [] \/ exists args, trace (k game) = [EPlay (game_id game) args].

(** A play call found in the trace of [m] was made on the game resolved
    from [game_name], after that game was constructed and its dry-run
    launch returned; these three calls are the whole trace. *)
Definition played_after_dry_run_launch (w : World) (game_name : string)
    (m : M unit) : Prop :=
  forall id args,
    EPlay id args ∈ trace m ->
    id = game_class_name_of game_name
    /\ (exists p,
          game_classes w !! id = Some p
          /\ init_raises p = None
          /\ launch_raises p true = None)
    /\ trace m = [EConstruct id; ELaunch id (Some true); EPlay id args].

(** What capture does once the game is launched. *)
Definition capture_body (w : World) (capture_type : string)
    (interval extra extra_2 : PyVal) (game : Game) : M unit :=
  if negb (PyStr.mem capture_type ["frame"; "context"; "region"])
  then raise (Exception "Invalid capture command.")
  else if String.eqb capture_type "frame" then
    interval' ← lift (py_float w interval);
    Game_play game
      [ ("frame_handler", KwV (VStr "COLLECT_FRAMES"));
        ("interval", KwFloat interval') ]
  else if String.eqb capture_type "context" then
    interval' ← lift (py_float w interval);
    Game_play game
      [ ("frame_handler", KwV (VStr "COLLECT_FRAMES_FOR_CONTEXT"));
        ("interval", KwFloat interval');
        ("context", KwV extra);
        ("screen_region", KwV extra_2) ]
  else if String.eqb capture_type "region" then
    interval' ← lift (py_float w interval);
    Game_play game
      [ ("frame_handler", KwV (VStr "COLLECT_FRAME_REGIONS"));
        ("interval", KwFloat interval');
        ("region", KwV extra) ]
  else mret tt.

(** The message of the exception [execute] raises for an unknown command. *)
Definition unknown_command_message (command : string) : string :=
  "'" +:+ command +:+ "' is not a valid Serpent command.".

(** Every directory of [fs] is a directory of [fs']. *)
Definition keeps_dirs (fs fs' : FS) : Prop :=
  forall k, fs !! k = Some Dir -> fs' !! k = Some Dir.

(** What the first generation leaves in [foo_fs]. *)
Definition foo_fs_generated : FS :=
  (prepare_game_plugin foo_install "Foo" "steam" foo_fs).1.

(** A template whose game file holds nothing the generator looks for. *)
Definition plain_fs : FS :=
  list_to_map
    [ ("/opt/serpent/templates/SerpentGamePlugin", Dir);
      ("/opt/serpent/templates/SerpentGamePlugin/plugin.py",
       File "class SerpentGamePlugin: files = ['serpent_game.py']");
      ("/opt/serpent/templates/SerpentGamePlugin/files", Dir);
      ("/opt/serpent/templates/SerpentGamePlugin/files/serpent_game.py",
       File "import os");
      ("/opt/serpent/templates/SerpentGamePlugin/files/api", Dir);
      ("/opt/serpent/templates/SerpentGamePlugin/files/api/api.py",
       File "class MyGameAPI:") ].

Definition plain_fs_generated : FS :=
  (prepare_game_plugin foo_install "Foo" "steam" plain_fs).1.

(** The text is made of spaces only. *)
Fixpoint only_spaces (s : string) : bool :=
  match s with
  | EmptyString => true
  | String c s' => Ascii.eqb c " " && only_spaces s'
  end.

(** The placeholder line of the game template, once rewritten for steam. *)
Definition platform_steam_line : string :=
  PyStr.dq "kwargs['platform'] = 'steam'".

(** ** More of serpent.py: help, update, plugins, game agent plugins *)

Definition command_description_mapping : list (string * string) :=
  [ ("setup", "Perform first time setup for the framework");
    ("update", "Update the framework to the latest version");
    ("modules", "List the install status of the framework's optional modules");
    ("grab_frames", "Start the frame grabber");
    ("activate", "Activate a plugin");
    ("deactivate", "Deactivate a plugin");
    ("plugins", "List all locally-available plugins");
    ("launch", "Launch a game through a plugin");
    ("play", "Play a game with a game agent through plugins");
    ("record", "Record player input from a game");
    ("generate", "Generate code for game and game agent plugins");
    ("train", "Train a context classifier with collected context frames");
    ("capture", "Capture frames, screen regions and contexts from a game");
    ("visual_debugger", "Launch the visual debugger");
    ("window_name", "Launch a utility to find a game's window name");
    ("record_inputs", "Start the input recorder");
    ("dashboard", "Launch the dashboard");
    ("object_recognition", "Perform object recognition on collected frames") ].

Fixpoint spaces (n : nat) : string :=
  match n with
  | O => EmptyString
  | S k => String " " (spaces k)
  end.

(** [s.rjust(width)] *)
Definition rjust (width : nat) (s : string) : string :=
  spaces (width - String.length s) +:+ s.

(** What [executable_help] prints, one item for each call of print. *)
Definition help_lines : list string :=
  [ newline +:+ "Serpent.AI v" +:+ VERSION;
    "Available Commands:" +:+ newline ]
  ++ List.map (fun cd : string * string => rjust 16 cd.1 +:+ ": " +:+ cd.2)
       command_description_mapping
  ++ [ EmptyString ].

(** The merge of the configuration in [update]: each key of the packaged
    configuration that the user's configuration lacks is added to it; the
    boolean is [config_changed]. *)
Definition update_config {V : Type} (serpent_config user_config : gmap string V)
    : gmap string V * bool :=
  map_fold
    (fun key value (acc : gmap string V * bool) =>
       match acc.1 !! key with
       | None => (<[key := value]> acc.1, true)
       | Some _ => acc
       end)
    (user_config, false) serpent_config.

(** The directories that [os.walk(top)] lists at its first step: when
    [top] is a directory, the names right under it that are directories;
    nothing when it is not. *)
Definition subdirectories (fs : FS) (top : string) : gset string :=
  if isdir fs top then
    list_to_set
      (omap (fun kn : string * Node =>
               match kn.2 with
               | Dir =>
                   let name := PyStr.drop (S (String.length top)) kn.1 in
                   if below top kn.1 && negb (PyStr.contains "/" name)
                      && negb (String.eqb name EmptyString)
                   then Some name else None
               | File _ => None
               end)
            (map_to_list fs))
  else ∅.

(** [plugins]: the active and the inactive plugin names, from the plugin
    directory and the names of the manifest. *)
Definition plugins (fs : FS) (plugins_dir : string) (manifest_plugin_names : gset string)
    : gset string * gset string :=
  let plugin_names := subdirectories fs plugins_dir in
  (plugin_names ∩ manifest_plugin_names, plugin_names ∖ manifest_plugin_names).

Definition game_agent_plugin_destination (i : Install) (game_agent_name : string)
    : string :=
  PyStr.replace "/" os_sep
    (plugins_path i +:+ "/Serpent" +:+ game_agent_name +:+ "GameAgentPlugin").

Definition game_agent_plugin_template (i : Install) : string :=
  os_path_join (package_dir i)
    (PyStr.replace "/" os_sep "templates/SerpentGameAgentPlugin").

Definition prepare_game_agent_plugin (i : Install) (game_agent_name : string)
    : FsM unit :=
  let plugin_destination_path := game_agent_plugin_destination i game_agent_name in
  _ ← copytree (game_agent_plugin_template i) plugin_destination_path;
  contents ← read_file (plugin_destination_path +:+ "/plugin.py");
  let contents :=
    PyStr.replace "SerpentGameAgentPlugin"
      ("Serpent" +:+ game_agent_name +:+ "GameAgentPlugin") contents in
  let contents :=
    PyStr.replace "serpent_game_agent.py"
      ("serpent_" +:+ game_agent_name +:+ "_game_agent.py") contents in
  _ ← write_file (plugin_destination_path +:+ "/plugin.py") contents;
  _ ← move (plugin_destination_path +:+ "/files/serpent_game_agent.py")
           (plugin_destination_path +:+ "/files/serpent_" +:+ game_agent_name
              +:+ "_game_agent.py");
  contents ← read_file (plugin_destination_path +:+ "/files/serpent_"
                          +:+ game_agent_name +:+ "_game_agent.py");
  write_file (plugin_destination_path +:+ "/files/serpent_" +:+ game_agent_name
                +:+ "_game_agent.py")
    (PyStr.replace "SerpentGameAgent" ("Serpent" +:+ game_agent_name +:+ "GameAgent")
       contents).

(** [generate_game_agent_plugin], with the answer typed at its prompt, up
    to the return of [prepare_game_agent_plugin]; the activation line that
    follows in the source is not part of this model. *)
Definition generate_game_agent_plugin (i : Install) (game_agent_name : string)
    : FsM unit :=
  if PyStr.mem game_agent_name [EmptyString]
  then fun fs => (fs, inl (Exception "Invalid game agent name."))
  else prepare_game_agent_plugin i game_agent_name.

(** [generate(plugin_type)], with the answers typed at the prompts that
    follow: the name, and for a game the platform. *)
Definition generate (i : Install) (plugin_type name game_platform : string)
    : FsM unit :=
  if String.eqb plugin_type "game" then generate_game_plugin i name game_platform
  else if String.eqb plugin_type "game_agent" then generate_game_agent_plugin i name
  else fun fs =>
    (fs, inl (Exception ("'" +:+ plugin_type +:+ "' is not a valid plugin type..."))).

(** The lines of the game template, of every way of launching. *)
Definition platform_lines : list string :=
  [ line_import_web_browser; line_app_id; line_app_args;
    line_executable_path; line_url; line_browser ].

(** The tokens that [prepare_game_plugin] looks for in the game file. *)
Definition game_file_tokens : list string :=
  [ "SerpentGame"; "MyGameAPI"; "PLATFORM" ] ++ platform_lines.

(** The package with its game agent plugin template. *)
Definition agent_fs : FS :=
  list_to_map
    [ ("/opt/serpent/templates/SerpentGameAgentPlugin", Dir);
      ("/opt/serpent/templates/SerpentGameAgentPlugin/plugin.py",
       File "class SerpentGameAgentPlugin: files = ['serpent_game_agent.py']");
      ("/opt/serpent/templates/SerpentGameAgentPlugin/files", Dir);
      ("/opt/serpent/templates/SerpentGameAgentPlugin/files/serpent_game_agent.py",
       File "class SerpentGameAgent(GameAgent):") ].

Definition agent_fs_generated : FS :=
  (prepare_game_agent_plugin foo_install "Bot" agent_fs).1.

(** A game plugin whose launch raises, and a world that has only it. *)
Definition broken_plugin : GamePlugin :=
  {| init_raises := None;
     launch_raises := fun _ => Some (Raised "window not found");
     play_raises := fun _ => None |}.

Definition broken_world : World :=
  {| game_classes := {[ "SerpentFooGame" := broken_plugin ]};
     game_agent_classes := ∅;
     float_accepts := fun _ => false;
     recognizer_init_raises := fun _ => Some (Raised "no backend");
     recognizer_train_raises := fun _ => None;
     executable_train_raises := None |}.

(** A package whose game plugin template is an empty directory, and what
    a generation from it leaves. *)
Definition bare_fs : FS :=
  {[ "/opt/serpent/templates/SerpentGamePlugin" := Dir ]}.

Definition bare_fs_copied : FS :=
  (copytree (game_plugin_template foo_install)
     (game_plugin_destination foo_install "Foo") bare_fs).1.

Definition bare_fs_failed : FS :=
  (prepare_game_plugin foo_install "Foo" "steam" bare_fs).1.

(** * Properties *)

(** ** Running a command: what the trace can be *)

Ltac unfold_M :=
  unfold mbind, M_bind, mret, M_ret, raise, call, lift, trace, outcome in *;
  simpl in *.

Section Prelude.
Context (w : World) (game_name : string) (k : Game -> M unit).

Local Abbreviation id := (game_class_name_of game_name).

Lemma prelude_not_found :
  game_classes w !! id = None ->
  after_dry_run_launch w game_name k
  = ([], inl (Exception (not_found_message game_name))).
Proof.
  intros H. unfold after_dry_run_launch, initialize_game.
  fold (game_class_name_of game_name). rewrite H. reflexivity.
Qed.

Lemma prelude_init_raises p e :
  game_classes w !! id = Some p -> init_raises p = Some e ->
  after_dry_run_launch w game_name k = ([EConstruct id], inl e).
Proof.
  intros H Hi. unfold after_dry_run_launch, initialize_game.
  fold (game_class_name_of game_name). rewrite H.
  unfold_M. rewrite Hi. reflexivity.
Qed.

Lemma prelude_launch_raises p e :
  game_classes w !! id = Some p -> init_raises p = None ->
  launch_raises p true = Some e ->
  after_dry_run_launch w game_name k
  = ([EConstruct id; ELaunch id (Some true)], inl e).
Proof.
  intros H Hi Hl. unfold after_dry_run_launch, initialize_game, Game_launch.
  fold (game_class_name_of game_name). rewrite H.
  unfold_M. rewrite Hi. simpl. rewrite Hl. reflexivity.
Qed.

Lemma prelude_launched p :
  game_classes w !! id = Some p -> init_raises p = None ->
  launch_raises p true = None ->
  after_dry_run_launch w game_name k
  = (EConstruct id :: ELaunch id (Some true)
       :: trace (k {| game_id := id; game_plugin := p |}),
     outcome (k {| game_id := id; game_plugin := p |})).
Proof.
  intros H Hi Hl. unfold after_dry_run_launch, initialize_game, Game_launch.
  fold (game_class_name_of game_name). rewrite H.
  unfold_M. rewrite Hi. simpl. rewrite Hl. simpl.
  destruct (k _) as [t r]. reflexivity.
Qed.

Lemma prelude_cases :
  prelude_case w game_name k (after_dry_run_launch w game_name k).
Proof.
  destruct (game_classes w !! id) as [p|] eqn:H.
  - destruct (init_raises p) as [e|] eqn:Hi.
    + rewrite (prelude_init_raises p e H Hi). eapply PreludeInitRaises; eauto.
    + destruct (launch_raises p true) as [e|] eqn:Hl.
      * rewrite (prelude_launch_raises p e H Hi Hl).
        eapply PreludeLaunchRaises; eauto.
      * rewrite (prelude_launched p H Hi Hl). eapply PreludeLaunched; eauto.
  - rewrite (prelude_not_found H). apply PreludeNotFound; auto.
Qed.
End Prelude.

Lemma play_prelude w g a fh :
  play w g a fh
  = after_dry_run_launch w g (fun game =>
      if bool_decide (a ∈ game_agent_classes w)
      then Game_play game
             [ ("game_agent_class_name", KwV (VStr a));
               ("frame_handler", KwV fh) ]
      else raise (Exception ("Game Agent '" +:+ a
                               +:+ "' wasn't found. Make sure the plugin is installed."))).
Proof. reflexivity. Qed.

Lemma record_prelude w g a fc fs :
  record w g a fc fs
  = after_dry_run_launch w g (fun game =>
      frame_count' ← lift (py_int fc);
      frame_spacing' ← lift (py_int fs);
      Game_play game
        [ ("game_agent_class_name", KwV (VStr a));
          ("frame_handler", KwV (VStr "RECORD"));
          ("frame_count", KwV (VInt frame_count'));
          ("frame_spacing", KwV (VInt frame_spacing')) ]).
Proof. reflexivity. Qed.

Lemma capture_invalid_prelude w ct g i e e2 :
  PyStr.mem ct ["frame"; "context"; "region"] = false ->
  capture w ct g i e e2
  = after_dry_run_launch w g (fun _ => raise (Exception "Invalid capture command.")).
Proof.
  intros H. unfold capture, after_dry_run_launch. rewrite H. reflexivity.
Qed.

(** Events of a list that are not play calls. *)
Lemma no_play_in_start id d id' args :
  EPlay id' args ∉ [EConstruct id; ELaunch id d].
Proof.
  intros H. apply elem_of_cons in H as [H|H]; [discriminate|].
  apply elem_of_cons in H as [H|H]; [discriminate|].
  by apply elem_of_nil in H.
Qed.

(** ** Game not installed *)

(** C6: when the class name derived from the game name,
    ["Serpent" + game_name + "Game"], is not in the plugin registry,
    [initialize_game] raises an exception whose message carries the game
    name and says the plugin is not installed; nothing is constructed and
    nothing is launched: the trace of every game command is empty. *)
Theorem game_not_found (w : World) (game_name : string) :
  game_classes w !! ("Serpent" +:+ game_name +:+ "Game") = None ->
  initialize_game w game_name
  = ([], inl (Exception ("Game '" +:+ game_name
                           +:+ "' wasn't found. Make sure the plugin is installed.")))
  /\ occurs_in game_name (not_found_message game_name)
  /\ launch w game_name = ([], inl (Exception (not_found_message game_name)))
  /\ (forall a fh,
        play w game_name a fh
        = ([], inl (Exception (not_found_message game_name))))
  /\ (forall a fc fs,
        record w game_name a fc fs
        = ([], inl (Exception (not_found_message game_name))))
  /\ (forall ct i e e2,
        capture w ct game_name i e e2
        = ([], inl (Exception (not_found_message game_name)))).
Proof.
  intros H.
  assert (Hi : initialize_game w game_name
               = ([], inl (Exception (not_found_message game_name)))).
  { unfold initialize_game. rewrite H. reflexivity. }
  split; [exact Hi|]. split.
  { exists "Game '", "' wasn't found. Make sure the plugin is installed.".
    reflexivity. }
  split.
  { unfold launch. rewrite Hi. reflexivity. }
  split; [|split].
  - intros a fh. unfold play. rewrite Hi. reflexivity.
  - intros a fc fs. unfold record. rewrite Hi. reflexivity.
  - intros ct i e e2. unfold capture. rewrite Hi. reflexivity.
Qed.

Lemma game_not_found_witness :
  initialize_game foo_world "Bar"
  = ([], inl (Exception "Game 'Bar' wasn't found. Make sure the plugin is installed."))
  /\ capture foo_world "frame" "Bar" (VInt 1) VNone VNone
     = ([], inl (Exception "Game 'Bar' wasn't found. Make sure the plugin is installed.")).
Proof.
  assert (H : game_classes foo_world !! ("Serpent" +:+ "Bar" +:+ "Game") = None)
    by (vm_compute; reflexivity).
  destruct (game_not_found foo_world "Bar" H) as (Hi & _ & _ & _ & _ & Hc).
  split; [exact Hi | exact (Hc "frame" (VInt 1) VNone VNone)].
Defined.

(** ** Capture with an invalid capture type *)

(** C10: for a capture type outside frame, context and region, capture is
    the resolution of the game, its construction and its dry-run launch
    followed by the raise of "Invalid capture command.": when these three
    succeed, the trace holds the construction and the launch, and then the
    command fails; in no case is a play call made. *)
Theorem capture_invalid_type_after_launch
    (w : World) (capture_type game_name : string) (interval extra extra_2 : PyVal) :
  PyStr.mem capture_type ["frame"; "context"; "region"] = false ->
  capture w capture_type game_name interval extra extra_2
  = (game ← initialize_game w game_name;
     _ ← Game_launch game (Some true);
     raise (Exception "Invalid capture command."))
  /\ (forall p,
        game_classes w !! game_class_name_of game_name = Some p ->
        init_raises p = None -> launch_raises p true = None ->
        capture w capture_type game_name interval extra extra_2
        = ([EConstruct (game_class_name_of game_name);
            ELaunch (game_class_name_of game_name) (Some true)],
           inl (Exception "Invalid capture command.")))
  /\ (forall id args,
        EPlay id args ∉ trace (capture w capture_type game_name interval extra extra_2))
  /\ (exists e,
        outcome (capture w capture_type game_name interval extra extra_2) = inl e).
Proof.
  intros H. pose proof (capture_invalid_prelude w _ game_name interval extra extra_2 H) as Hc.
  split; [exact Hc|]. rewrite Hc. split; [|split].
  - intros p Hp Hi Hl. rewrite (prelude_launched _ _ _ p Hp Hi Hl). reflexivity.
  - intros id args.
    destruct (prelude_cases w game_name
                (fun _ => raise (Exception "Invalid capture command.")));
      unfold trace; simpl.
    + apply not_elem_of_nil.
    + intros Hin. apply list_elem_of_singleton in Hin. discriminate.
    + apply no_play_in_start.
    + apply no_play_in_start.
  - destruct (prelude_cases w game_name
                (fun _ => raise (Exception "Invalid capture command.")));
      unfold outcome; simpl; eauto.
Qed.

Lemma capture_invalid_type_witness :
  capture foo_world "bogus" "Foo" (VInt 1) VNone VNone
  = ([EConstruct "SerpentFooGame"; ELaunch "SerpentFooGame" (Some true)],
     inl (Exception "Invalid capture command.")).
Proof.
  assert (H : PyStr.mem "bogus" ["frame"; "context"; "region"] = false)
    by reflexivity.
  destruct (capture_invalid_type_after_launch foo_world "bogus" "Foo"
              (VInt 1) VNone VNone H) as (_ & Hp & _).
  apply (Hp quiet_plugin); vm_compute; reflexivity.
Defined.

(** ** Record: frame_count and frame_spacing *)

Lemma record_launched w g a fc fs p x y :
  game_classes w !! game_class_name_of g = Some p ->
  init_raises p = None -> launch_raises p true = None ->
  py_int fc = inr x -> py_int fs = inr y ->
  record w g a fc fs
  = ([EConstruct (game_class_name_of g);
      ELaunch (game_class_name_of g) (Some true);
      EPlay (game_class_name_of g) (record_play_args a x y)],
     match play_raises p (record_play_args a x y) with
     | Some e => inl e
     | None => inr tt
     end).
Proof.
  intros Hp Hi Hl Hx Hy. rewrite record_prelude.
  rewrite (prelude_launched _ _ _ p Hp Hi Hl).
  rewrite Hx, Hy. reflexivity.
Qed.

Lemma py_int_str s x : PyStr.int_of_str s = Some x -> py_int (VStr s) = inr x.
Proof. intros H. unfold py_int. rewrite H. reflexivity. Qed.

(** A text that [int_of_str] reads as an integer is ASCII: white space,
    a sign, digits and underscores. *)
Lemma digits_value_ascii s : forall acc b x,
  PyStr.digits_value acc b s = Some x -> PyStr.is_ascii s = true.
Proof.
  induction s as [|c s IH]; intros acc b x H; [reflexivity|].
  simpl in H. simpl PyStr.is_ascii. unfold PyStr.digit_value in H.
  destruct ((48 <=? nat_of_ascii c)%nat && (nat_of_ascii c <=? 57)%nat) eqn:Hd.
  - apply andb_true_iff in Hd as [_ Hd]. apply Nat.leb_le in Hd.
    rewrite (IH _ _ _ H), andb_true_r. apply Nat.ltb_lt. lia.
  - destruct (Ascii.eqb_spec c "_") as [->|_]; [|discriminate].
    destruct b; [|discriminate]. simpl in H. rewrite (IH _ _ _ H). reflexivity.
Qed.

Lemma is_space_ascii c : PyStr.is_space c = true -> (nat_of_ascii c <? 128)%nat = true.
Proof.
  unfold PyStr.is_space. intros H. apply Nat.ltb_lt.
  apply orb_true_iff in H as [H|H].
  - apply andb_true_iff in H as [_ H]. apply Nat.leb_le in H. lia.
  - apply Nat.eqb_eq in H. lia.
Qed.

Lemma lstrip_ascii s : PyStr.is_ascii (PyStr.lstrip s) = true -> PyStr.is_ascii s = true.
Proof.
  induction s as [|c s IH]; [reflexivity|]. simpl.
  destruct (PyStr.is_space c) eqn:Hc; [|auto].
  intros H. rewrite (is_space_ascii _ Hc), (IH H). reflexivity.
Qed.

Lemma rstrip_ascii s : PyStr.is_ascii (PyStr.rstrip s) = true -> PyStr.is_ascii s = true.
Proof.
  induction s as [|c s IH]; [reflexivity|]. simpl.
  destruct (PyStr.rstrip s) as [|c' r] eqn:Hr.
  - destruct (PyStr.is_space c) eqn:Hc.
    + intros _. rewrite (is_space_ascii _ Hc), (IH eq_refl). reflexivity.
    + simpl. rewrite andb_true_r. intros ->. rewrite (IH eq_refl). reflexivity.
  - change (PyStr.is_ascii (String c (String c' r)))
      with ((nat_of_ascii c <? 128)%nat && PyStr.is_ascii (String c' r)).
    intros H. apply andb_true_iff in H as [Hc H]. rewrite Hc, (IH H). reflexivity.
Qed.

Lemma int_of_str_ascii s x : PyStr.int_of_str s = Some x -> PyStr.is_ascii s = true.
Proof.
  unfold PyStr.int_of_str. intros H. apply lstrip_ascii, rstrip_ascii.
  destruct (PyStr.rstrip (PyStr.lstrip s)) as [|c t] eqn:Ht; [reflexivity|].
  assert (Hd : forall y, PyStr.digits_value 0 false (String c t) = Some y ->
                 PyStr.is_ascii (String c t) = true)
    by (intros y; apply digits_value_ascii).
  assert (Hs : forall y, (nat_of_ascii c <? 128)%nat = true ->
                 PyStr.digits_value 0 false t = Some y ->
                 PyStr.is_ascii (String c t) = true).
  { intros y Hc Hy. simpl. rewrite Hc. apply (digits_value_ascii _ _ _ _ Hy). }
  destruct c as [[] [] [] [] [] [] [] []]; try (apply (Hd _ H)).
  - apply (Hs x eq_refl H).
  - destruct (PyStr.digits_value 0 false t) as [y|] eqn:Hy; [|discriminate].
    apply (Hs y eq_refl eq_refl).
Qed.

(** C9: once the game is resolved, constructed and dry-run launched, the
    record command given no frame_count and no frame_spacing calls play with
    frame_count=4 and frame_spacing=4; given two strings that read as the
    integers x and y (ASCII strings, as [int_of_str_ascii] shows) it calls
    play with frame_count=x and frame_spacing=y, and "10" and "2" read as
    10 and 2. *)
Theorem record_frame_arguments (w : World) (game_name a : string) (p : GamePlugin) :
  game_classes w !! game_class_name_of game_name = Some p ->
  init_raises p = None ->
  launch_raises p true = None ->
  trace (record_args w [game_name; a])
  = [EConstruct (game_class_name_of game_name);
     ELaunch (game_class_name_of game_name) (Some true);
     EPlay (game_class_name_of game_name)
       [ ("game_agent_class_name", KwV (VStr a));
         ("frame_handler", KwV (VStr "RECORD"));
         ("frame_count", KwV (VInt 4));
         ("frame_spacing", KwV (VInt 4)) ]]
  /\ (forall fc fs x y,
        PyStr.int_of_str fc = Some x -> PyStr.int_of_str fs = Some y ->
        trace (record_args w [game_name; a; fc; fs])
        = [EConstruct (game_class_name_of game_name);
           ELaunch (game_class_name_of game_name) (Some true);
           EPlay (game_class_name_of game_name)
             [ ("game_agent_class_name", KwV (VStr a));
               ("frame_handler", KwV (VStr "RECORD"));
               ("frame_count", KwV (VInt x));
               ("frame_spacing", KwV (VInt y)) ]])
  /\ PyStr.int_of_str "10" = Some 10
  /\ PyStr.int_of_str "2" = Some 2.
Proof.
  intros Hp Hi Hl. split; [|split; [|split; reflexivity]].
  - unfold record_args.
    rewrite (record_launched w game_name a (VInt 4) (VInt 4) p 4 4 Hp Hi Hl
               eq_refl eq_refl).
    reflexivity.
  - intros fc fs x y Hx Hy. unfold record_args.
    rewrite (record_launched w game_name a (VStr fc) (VStr fs) p x y Hp Hi Hl
               (py_int_str _ _ Hx) (py_int_str _ _ Hy)).
    reflexivity.
Qed.

Lemma record_frame_arguments_witness :
  trace (record_args foo_world ["Foo"; "SerpentFooGameAgent"; "10"; "2"])
  = [EConstruct "SerpentFooGame";
     ELaunch "SerpentFooGame" (Some true);
     EPlay "SerpentFooGame"
       [ ("game_agent_class_name", KwV (VStr "SerpentFooGameAgent"));
         ("frame_handler", KwV (VStr "RECORD"));
         ("frame_count", KwV (VInt 10));
         ("frame_spacing", KwV (VInt 2)) ]].
Proof.
  assert (Hp : game_classes foo_world !! game_class_name_of "Foo" = Some quiet_plugin)
    by (vm_compute; reflexivity).
  destruct (record_frame_arguments foo_world "Foo" "SerpentFooGameAgent"
              quiet_plugin Hp eq_refl eq_refl) as (_ & H & _).
  exact (H "10" "2" 10 2 eq_refl eq_refl).
Defined.

(** C4, as the code has it not: with the game installed and launched,
    record given frame_count="abc" fails with the ValueError that int
    raises, whose message names the literal and not the field. *)
Lemma record_bad_frame_count_counterexample :
  record_args foo_world ["Foo"; "SerpentFooGameAgent"; "abc"]
  = ([EConstruct "SerpentFooGame"; ELaunch "SerpentFooGame" (Some true)],
     inl (ValueError "invalid literal for int() with base 10: 'abc'"))
  /\ ~ (exists e msg,
          outcome (record_args foo_world ["Foo"; "SerpentFooGameAgent"; "abc"]) = inl e
          /\ exc_message e = Some msg
          /\ PyStr.contains "frame_count" msg = true).
Proof.
  split; [vm_compute; reflexivity|].
  intros (e & msg & He & Hm & Hc).
  vm_compute in He. injection He as <-. simpl in Hm. injection Hm as <-.
  vm_compute in Hc. discriminate.
Qed.

Lemma py_int_bad s : PyStr.int_of_str s = None -> py_int (VStr s) = inl (invalid_literal s).
Proof. intros H. unfold py_int. rewrite H. reflexivity. Qed.

Lemma record_conversion_fails w g a fc fs e :
  (py_int fc = inl e \/ (exists x, py_int fc = inr x) /\ py_int fs = inl e) ->
  (forall p,
     game_classes w !! game_class_name_of g = Some p ->
     init_raises p = None -> launch_raises p true = None ->
     record w g a fc fs
     = ([EConstruct (game_class_name_of g);
         ELaunch (game_class_name_of g) (Some true)], inl e))
  /\ (forall id args, EPlay id args ∉ trace (record w g a fc fs))
  /\ (exists e', outcome (record w g a fc fs) = inl e').
Proof.
  intros H. rewrite record_prelude.
  set (k := fun game : Game => _).
  assert (Hk : forall game, k game = ([], inl e)).
  { intros game. unfold k.
    destruct H as [H|[[x Hx] H]].
    - rewrite H. reflexivity.
    - rewrite Hx, H. reflexivity. }
  split; [|split].
  - intros p Hp Hi Hl. rewrite (prelude_launched _ _ _ p Hp Hi Hl).
    rewrite Hk. reflexivity.
  - intros id args. destruct (prelude_cases w g k); unfold trace; simpl.
    + apply not_elem_of_nil.
    + intros Hin. apply list_elem_of_singleton in Hin. discriminate.
    + apply no_play_in_start.
    + rewrite Hk. simpl. apply no_play_in_start.
  - destruct (prelude_cases w g k); unfold outcome; simpl; eauto.
    rewrite Hk. simpl. eauto.
Qed.

(** C4, amended: when frame_count or frame_spacing is an ASCII string
    that does not read as an integer, record fails and makes no play call;
    once the game is resolved, constructed and dry-run launched, the
    failure is the ValueError of the conversion itself, "invalid literal for
    int() with base 10: " followed by the literal, for frame_count first
    and for frame_spacing when frame_count converts. *)
Theorem record_bad_integer (w : World) (game_name a : string) (fc fs : PyVal)
    (bad : string) :
  PyStr.is_ascii bad = true ->
  (fc = VStr bad /\ PyStr.int_of_str bad = None)
  \/ ((exists x, py_int fc = inr x) /\ fs = VStr bad /\ PyStr.int_of_str bad = None) ->
  (forall p,
     game_classes w !! game_class_name_of game_name = Some p ->
     init_raises p = None -> launch_raises p true = None ->
     record w game_name a fc fs
     = ([EConstruct (game_class_name_of game_name);
         ELaunch (game_class_name_of game_name) (Some true)],
        inl (ValueError ("invalid literal for int() with base 10: "
                           +:+ PyStr.take 200 (PyStr.repr bad)))))
  /\ (forall id args, EPlay id args ∉ trace (record w game_name a fc fs))
  /\ (exists e, outcome (record w game_name a fc fs) = inl e).
Proof.
  intros _ H. apply record_conversion_fails.
  destruct H as [[-> Hb]|[Hx [-> Hb]]].
  - left. apply py_int_bad, Hb.
  - right. split; [exact Hx|]. apply py_int_bad, Hb.
Qed.

Lemma record_bad_integer_witness :
  record foo_world "Foo" "SerpentFooGameAgent" (VStr "abc") (VInt 4)
  = ([EConstruct "SerpentFooGame"; ELaunch "SerpentFooGame" (Some true)],
     inl (ValueError "invalid literal for int() with base 10: 'abc'")).
Proof.
  assert (H : (VStr "abc" = VStr "abc" /\ PyStr.int_of_str "abc" = None)
              \/ ((exists x, py_int (VStr "abc") = inr x)
                  /\ VInt 4 = VStr "abc" /\ PyStr.int_of_str "abc" = None))
    by (left; split; reflexivity).
  destruct (record_bad_integer foo_world "Foo" "SerpentFooGameAgent"
              (VStr "abc") (VInt 4) "abc" eq_refl H) as (Hp & _).
  apply (Hp quiet_plugin); vm_compute; reflexivity.
Defined.

(** ** The play call and the launch before it *)

Lemma capture_prelude w ct g i e e2 :
  capture w ct g i e e2 = after_dry_run_launch w g (capture_body w ct i e e2).
Proof. reflexivity. Qed.

Lemma play_body_one_play w a fh :
  at_most_one_play (fun game =>
    if bool_decide (a ∈ game_agent_classes w)
    then Game_play game
           [ ("game_agent_class_name", KwV (VStr a));
             ("frame_handler", KwV fh) ]
    else raise (Exception ("Game Agent '" +:+ a
                             +:+ "' wasn't found. Make sure the plugin is installed."))).
Proof.
  intros game. case_bool_decide.
  - right. eexists. reflexivity.
  - left. reflexivity.
Qed.

Lemma record_body_one_play a fc fs :
  at_most_one_play (fun game =>
    frame_count' ← lift (py_int fc);
    frame_spacing' ← lift (py_int fs);
    Game_play game
      [ ("game_agent_class_name", KwV (VStr a));
        ("frame_handler", KwV (VStr "RECORD"));
        ("frame_count", KwV (VInt frame_count'));
        ("frame_spacing", KwV (VInt frame_spacing')) ]).
Proof.
  intros game. destruct (py_int fc) as [e|x]; [left; reflexivity|].
  destruct (py_int fs) as [e|y]; [left; reflexivity|].
  right. eexists. reflexivity.
Qed.

Lemma capture_body_one_play w ct i e e2 :
  at_most_one_play (capture_body w ct i e e2).
Proof.
  intros game. unfold capture_body.
  destruct (negb _); [left; reflexivity|].
  destruct (String.eqb ct "frame").
  { destruct (py_float w i); [left; reflexivity | right; eexists; reflexivity]. }
  destruct (String.eqb ct "context").
  { destruct (py_float w i); [left; reflexivity | right; eexists; reflexivity]. }
  destruct (String.eqb ct "region").
  { destruct (py_float w i); [left; reflexivity | right; eexists; reflexivity]. }
  left. reflexivity.
Qed.

Lemma prelude_played w g k :
  at_most_one_play k ->
  played_after_dry_run_launch w g (after_dry_run_launch w g k).
Proof.
  intros Hk id args Hin.
  destruct (prelude_cases w g k) as [H|p e H Hi|p e H Hi Hl|p H Hi Hl];
    unfold trace at 1 in Hin; simpl in Hin.
  - by apply elem_of_nil in Hin.
  - apply list_elem_of_singleton in Hin. discriminate.
  - by apply no_play_in_start in Hin.
  - destruct (Hk {| game_id := game_class_name_of g; game_plugin := p |})
      as [Ht|[args' Ht]]; rewrite Ht in Hin.
    + by apply no_play_in_start in Hin.
    + apply elem_of_cons in Hin as [Hin|Hin]; [discriminate|].
      apply elem_of_cons in Hin as [Hin|Hin]; [discriminate|].
      apply list_elem_of_singleton in Hin. simpl in Hin.
      injection Hin as -> ->.
      split; [reflexivity|]. split; [eauto|].
      unfold trace at 1. simpl. rewrite Ht. reflexivity.
Qed.

Lemma prelude_lifecycle w g k :
  at_most_one_play k ->
  Forall is_lifecycle_call (trace (after_dry_run_launch w g k)).
Proof.
  intros Hk.
  destruct (prelude_cases w g k) as [H|p e H Hi|p e H Hi Hl|p H Hi Hl];
    unfold trace at 1; simpl.
  - constructor.
  - repeat constructor.
  - repeat constructor.
  - destruct (Hk {| game_id := game_class_name_of g; game_plugin := p |})
      as [Ht|[args' Ht]]; rewrite Ht; repeat constructor.
Qed.

(** The three ways the plain launch can go. *)
Lemma launch_cases w g :
  (game_classes w !! game_class_name_of g = None
   /\ launch w g = ([], inl (Exception (not_found_message g))))
  \/ (exists p e,
        game_classes w !! game_class_name_of g = Some p
        /\ init_raises p = Some e
        /\ launch w g = ([EConstruct (game_class_name_of g)], inl e))
  \/ (exists p,
        game_classes w !! game_class_name_of g = Some p
        /\ init_raises p = None
        /\ launch w g
           = ([EConstruct (game_class_name_of g);
               ELaunch (game_class_name_of g) None],
              match launch_raises p false with
              | Some e => inl e
              | None => inr tt
              end)).
Proof.
  unfold launch, initialize_game. fold (game_class_name_of g).
  destruct (game_classes w !! game_class_name_of g) as [p|] eqn:H.
  - destruct (init_raises p) as [e|] eqn:Hi.
    + right; left. exists p, e. unfold_M. rewrite Hi. auto.
    + right; right. exists p. unfold Game_launch. unfold_M. rewrite Hi.
      simpl. auto.
  - left. auto.
Qed.

(** C2: in play, record and every capture, a play call is made only on the
    game that was resolved and constructed and whose launch with
    dry_run=True returned before it; the plain launch command makes no play
    call, and its one launch is given no dry_run, which the game class takes
    as a live launch. *)
Theorem play_call_follows_dry_run_launch (w : World) (game_name : string) :
  (forall a fh,
     played_after_dry_run_launch w game_name (play w game_name a fh))
  /\ (forall a fc fs,
        played_after_dry_run_launch w game_name (record w game_name a fc fs))
  /\ (forall ct i e e2,
        played_after_dry_run_launch w game_name (capture w ct game_name i e e2))
  /\ (forall id args, EPlay id args ∉ trace (launch w game_name))
  /\ (forall id d, ELaunch id d ∈ trace (launch w game_name) ->
        d = None /\ default Game_launch_dry_run_default d = false)
  /\ (forall p,
        game_classes w !! game_class_name_of game_name = Some p ->
        init_raises p = None ->
        trace (launch w game_name)
        = [EConstruct (game_class_name_of game_name);
           ELaunch (game_class_name_of game_name) None]).
Proof.
  split; [|split; [|split; [|split; [|split]]]].
  - intros a fh. rewrite play_prelude. apply prelude_played, play_body_one_play.
  - intros a fc fs. rewrite record_prelude.
    apply prelude_played, record_body_one_play.
  - intros ct i e e2. rewrite capture_prelude.
    apply prelude_played, capture_body_one_play.
  - intros id args Hin.
    destruct (launch_cases w game_name)
      as [[_ H]|[(p & e & _ & _ & H)|(p & _ & _ & H)]];
      rewrite H in Hin; unfold trace in Hin; simpl in Hin.
    + by apply elem_of_nil in Hin.
    + apply list_elem_of_singleton in Hin. discriminate.
    + by apply no_play_in_start in Hin.
  - intros id d Hin.
    destruct (launch_cases w game_name)
      as [[_ H]|[(p & e & _ & _ & H)|(p & _ & _ & H)]];
      rewrite H in Hin; unfold trace in Hin; simpl in Hin.
    + by apply elem_of_nil in Hin.
    + apply list_elem_of_singleton in Hin. discriminate.
    + apply elem_of_cons in Hin as [Hin|Hin]; [discriminate|].
      apply list_elem_of_singleton in Hin. injection Hin as _ ->.
      split; reflexivity.
  - intros p Hp Hi.
    destruct (launch_cases w game_name)
      as [[H' _]|[(p' & e & H' & Hi' & _)|(p' & _ & _ & H)]].
    + congruence.
    + rewrite Hp in H'. injection H' as <-. congruence.
    + rewrite H. reflexivity.
Qed.

Lemma play_call_follows_dry_run_launch_witness :
  (EPlay "SerpentFooGame"
     [ ("game_agent_class_name", KwV (VStr "SerpentFooGameAgent"));
       ("frame_handler", KwV VNone) ]
     ∈ trace (play foo_world "Foo" "SerpentFooGameAgent" VNone))
  /\ trace (play foo_world "Foo" "SerpentFooGameAgent" VNone)
     = [EConstruct "SerpentFooGame";
        ELaunch "SerpentFooGame" (Some true);
        EPlay "SerpentFooGame"
          [ ("game_agent_class_name", KwV (VStr "SerpentFooGameAgent"));
            ("frame_handler", KwV VNone) ]].
Proof.
  assert (Hin : EPlay "SerpentFooGame"
                  [ ("game_agent_class_name", KwV (VStr "SerpentFooGameAgent"));
                    ("frame_handler", KwV VNone) ]
                  ∈ trace (play foo_world "Foo" "SerpentFooGameAgent" VNone)).
  { vm_compute. do 2 apply list_elem_of_further. apply list_elem_of_here. }
  split; [exact Hin|].
  destruct (play_call_follows_dry_run_launch foo_world "Foo") as (Hplay & _).
  destruct (Hplay "SerpentFooGameAgent" VNone _ _ Hin) as (_ & _ & Ht).
  exact Ht.
Defined.

(** ** Release of the game *)

(** C1, as the code has it not: play with the game installed and launched
    and the agent missing fails, and no terminate call was made on the
    game. *)
Lemma no_terminate_on_failure_counterexample :
  play foo_world "Foo" "Missing" VNone
  = ([EConstruct "SerpentFooGame"; ELaunch "SerpentFooGame" (Some true)],
     inl (Exception "Game Agent 'Missing' wasn't found. Make sure the plugin is installed."))
  /\ ETerminate "SerpentFooGame" ∉ trace (play foo_world "Foo" "Missing" VNone).
Proof.
  split; [vm_compute; reflexivity|].
  vm_compute. intros H.
  apply elem_of_cons in H as [H|H]; [discriminate|].
  apply list_elem_of_singleton in H. discriminate.
Qed.

(** C1, amended: launch, play, record and capture make no call on the game
    other than its construction, its launch and its play call; none of them
    makes a terminate call, whether the command completes or fails. *)
Theorem commands_never_terminate (w : World) (game_name : string) :
  Forall is_lifecycle_call (trace (launch w game_name))
  /\ (forall a fh, Forall is_lifecycle_call (trace (play w game_name a fh)))
  /\ (forall a fc fs, Forall is_lifecycle_call (trace (record w game_name a fc fs)))
  /\ (forall ct i e e2,
        Forall is_lifecycle_call (trace (capture w ct game_name i e e2)))
  /\ (forall id,
        (ETerminate id ∉ trace (launch w game_name))
        /\ (forall a fh, ETerminate id ∉ trace (play w game_name a fh))
        /\ (forall a fc fs, ETerminate id ∉ trace (record w game_name a fc fs))
        /\ (forall ct i e e2,
              ETerminate id ∉ trace (capture w ct game_name i e e2))).
Proof.
  assert (Hl : Forall is_lifecycle_call (trace (launch w game_name))).
  { destruct (launch_cases w game_name)
      as [[_ H]|[(p & e & _ & _ & H)|(p & _ & _ & H)]];
      rewrite H; unfold trace; simpl; repeat constructor. }
  assert (Hp : forall a fh, Forall is_lifecycle_call (trace (play w game_name a fh))).
  { intros. rewrite play_prelude. apply prelude_lifecycle, play_body_one_play. }
  assert (Hr : forall a fc fs,
             Forall is_lifecycle_call (trace (record w game_name a fc fs))).
  { intros. rewrite record_prelude. apply prelude_lifecycle, record_body_one_play. }
  assert (Hc : forall ct i e e2,
             Forall is_lifecycle_call (trace (capture w ct game_name i e e2))).
  { intros. rewrite capture_prelude. apply prelude_lifecycle, capture_body_one_play. }
  assert (Hno : forall id t, Forall is_lifecycle_call t -> ETerminate id ∉ t).
  { intros id t Ht Hin. rewrite Forall_forall in Ht. exact (Ht _ Hin). }
  repeat split; auto.
Qed.

(** ** Dispatch of the command line *)

(** C7, as the code has it not: the token -h is not in the table of valid
    commands, and the program given it shows the help and does not fail. *)
Lemma unknown_token_counterexample :
  PyStr.mem "-h" valid_commands = false
  /\ execute foo_world ["serpent"; "-h"] = ([EHelp], inr tt).
Proof. split; vm_compute; reflexivity. Qed.

(** C7, amended: a command token that is not in the table of valid commands
    and is neither -h nor --help makes execute raise at once an exception
    whose message names the token, with no event at all: no handler runs.
    With no argument, and with -h or --help in the place of the command,
    execute shows the help and does not fail. *)
Theorem unknown_command_rejected
    (w : World) (prog command : string) (args : list string) :
  PyStr.mem command valid_commands = false ->
  command <> "-h" ->
  command <> "--help" ->
  execute w (prog :: command :: args)
  = ([], inl (Exception ("'" +:+ command +:+ "' is not a valid Serpent command.")))
  /\ occurs_in command (unknown_command_message command)
  /\ execute w [prog] = ([EHelp], inr tt)
  /\ execute w (prog :: "-h" :: args) = ([EHelp], inr tt)
  /\ execute w (prog :: "--help" :: args) = ([EHelp], inr tt).
Proof.
  intros Hm Hh Hhelp. split; [|split; [|repeat split]].
  - unfold execute.
    apply String.eqb_neq in Hh, Hhelp. rewrite Hh, Hhelp, Hm. reflexivity.
  - exists "'", "' is not a valid Serpent command.". reflexivity.
Qed.

Lemma unknown_command_rejected_witness :
  execute foo_world ["serpent"; "bogus"; "Foo"]
  = ([], inl (Exception "'bogus' is not a valid Serpent command.")).
Proof.
  assert (Hm : PyStr.mem "bogus" valid_commands = false) by reflexivity.
  assert (Hh : "bogus" <> "-h") by discriminate.
  assert (Hhelp : "bogus" <> "--help") by discriminate.
  destruct (unknown_command_rejected foo_world "serpent" "bogus" ["Foo"]
              Hm Hh Hhelp) as (H & _).
  exact H.
Defined.

(** Every valid command has its handler in the table. *)
Lemma valid_commands_have_handlers :
  Forall (fun c => is_Some (dict_get command_function_mapping c)) valid_commands.
Proof. repeat constructor; eexists; reflexivity. Qed.

(** ** Training hand-off *)

(** C8, as the code has it not: context training hands off to the
    classifier with no interrupt handler installed. *)
Lemma context_training_counterexample :
  train foo_world "context" [] = ([EExecutableTrain 3 true false], inr tt)
  /\ (forall signum handler,
        ESignal signum handler ∉ trace (train foo_world "context" [])).
Proof.
  split; [vm_compute; reflexivity|].
  intros signum handler H. vm_compute in H.
  apply list_elem_of_singleton in H. discriminate.
Qed.

(** C8, amended: in object training, the train call of the recognizer is
    made only after the SIGINT handler has been set to that recognizer's
    own on_interrupt; context training is one call of the classifier's
    executable_train, for which serpent.py installs no handler. *)
Theorem object_training_installs_interrupt_handler (w : World) :
  (forall name algorithm classes r,
     ETrain r ∈ trace (train_object w name algorithm classes) ->
     r = name
     /\ trace (train_object w name algorithm classes)
        = [ENewRecognizer name algorithm classes;
           ESignal "SIGINT" (on_interrupt_of name);
           ETrain name])
  /\ (forall name algorithm classes,
        train w "object" (name :: algorithm :: classes)
        = train_object w name algorithm classes)
  /\ (forall epochs validate autosave,
        trace (train_context w epochs validate autosave) = []
        \/ exists n,
             trace (train_context w epochs validate autosave)
             = [EExecutableTrain n (argv_is_true validate) (argv_is_true autosave)])
  /\ (forall epochs validate autosave signum handler,
        ESignal signum handler ∉ trace (train_context w epochs validate autosave)).
Proof.
  assert (Hctx : forall epochs validate autosave,
             trace (train_context w epochs validate autosave) = []
             \/ exists n,
                  trace (train_context w epochs validate autosave)
                  = [EExecutableTrain n (argv_is_true validate) (argv_is_true autosave)]).
  { intros epochs validate autosave. unfold train_context.
    destruct (negb (py_in validate _)); [left; reflexivity|].
    destruct (negb (py_in autosave _)); [left; reflexivity|].
    destruct (py_int epochs) as [e|n]; [left; reflexivity|].
    right. exists n. reflexivity. }
  split; [|split; [|split]].
  - intros name algorithm classes r Hin. unfold train_object in *.
    unfold_M. destruct (recognizer_init_raises w name); simpl in *.
    + apply list_elem_of_singleton in Hin. discriminate.
    + apply elem_of_cons in Hin as [Hin|Hin]; [discriminate|].
      apply elem_of_cons in Hin as [Hin|Hin]; [discriminate|].
      apply list_elem_of_singleton in Hin. injection Hin as ->. auto.
  - reflexivity.
  - exact Hctx.
  - intros epochs validate autosave signum handler Hin.
    destruct (Hctx epochs validate autosave) as [H|[n H]]; rewrite H in Hin.
    + by apply elem_of_nil in Hin.
    + apply list_elem_of_singleton in Hin. discriminate.
Qed.

Lemma object_training_installs_interrupt_handler_witness :
  trace (train_object foo_world "sprites" "ssd" ["coin"])
  = [ENewRecognizer "sprites" "ssd" ["coin"];
     ESignal "SIGINT" (on_interrupt_of "sprites");
     ETrain "sprites"].
Proof.
  assert (Hin : ETrain "sprites"
                ∈ trace (train_object foo_world "sprites" "ssd" ["coin"])).
  { vm_compute. do 2 apply list_elem_of_further. apply list_elem_of_here. }
  destruct (object_training_installs_interrupt_handler foo_world) as (H & _).
  destruct (H "sprites" "ssd" ["coin"] "sprites" Hin) as (_ & Ht).
  exact Ht.
Defined.

(** ** The file system: what a step keeps *)

Section FileSystem.
Implicit Types (fs : FS) (p src dst : string).

Lemma keeps_dirs_refl fs : keeps_dirs fs fs.
Proof. intros k H. exact H. Qed.

Lemma keeps_dirs_trans fs1 fs2 fs3 :
  keeps_dirs fs1 fs2 -> keeps_dirs fs2 fs3 -> keeps_dirs fs1 fs3.
Proof. intros H12 H23 k H. apply H23, H12, H. Qed.

Lemma read_file_ok p fs fs' c :
  read_file p fs = (fs', inr c) ->
  fs' = fs
  /\ exists c0, fs !! p = Some (File c0) /\ c = PyStr.universal_newlines c0.
Proof.
  unfold read_file. destruct (fs !! p) as [[c'|]|]; intros H; inversion H.
  eauto.
Qed.

Lemma write_file_ok p c fs fs' :
  write_file p c fs = (fs', inr tt) -> keeps_dirs fs fs'.
Proof.
  unfold write_file. intros H k Hk.
  assert (Hne : fs !! p <> Some Dir -> parent_is_dir fs p = true ->
                fs' = <[p := File c]> fs -> fs' !! k = Some Dir).
  { intros Hp _ ->. rewrite lookup_insert_ne; [exact Hk|].
    intros ->. contradiction. }
  destruct (fs !! p) as [[c'|]|] eqn:Hp; try discriminate;
    destruct (parent_is_dir fs p); try discriminate;
    inversion H; subst; apply Hne; auto; discriminate.
Qed.

Lemma mkdir_all_keeps ps : forall fs fs' r k n,
  mkdir_all ps fs = (fs', r) -> fs !! k = Some n -> fs' !! k = Some n.
Proof.
  induction ps as [|p ps IH]; intros fs fs' r k n H Hk; simpl in H.
  - inversion H; subst. exact Hk.
  - destruct (fs !! p) as [[c|]|] eqn:Hp.
    + inversion H; subst. exact Hk.
    + eapply IH; eauto.
    + eapply IH; [exact H|]. rewrite lookup_insert_ne; [exact Hk|].
      intros ->. congruence.
Qed.

Lemma mkdir_all_made ps : forall fs fs',
  mkdir_all ps fs = (fs', inr tt) -> forall p, p ∈ ps -> fs' !! p = Some Dir.
Proof.
  induction ps as [|q ps IH]; intros fs fs' H p Hin; simpl in H.
  - by apply elem_of_nil in Hin.
  - apply elem_of_cons in Hin as [->|Hin].
    + destruct (fs !! q) as [[c|]|] eqn:Hq.
      * discriminate.
      * eapply mkdir_all_keeps; eauto.
      * eapply mkdir_all_keeps; [exact H|]. apply lookup_insert_eq.
    + destruct (fs !! q) as [[c|]|] eqn:Hq.
      * discriminate.
      * eapply IH; eauto.
      * eapply IH; eauto.
Qed.

Lemma copytree_ok src dst fs fs' :
  copytree src dst fs = (fs', inr tt) ->
  fs' !! src = Some Dir /\ fs' !! dst = Some Dir.
Proof.
  unfold copytree, makedirs.
  destruct (fs !! src) as [[c|]|] eqn:Hs; try discriminate.
  destruct (fs !! dst) as [n|] eqn:Hd; [discriminate|].
  destruct (mkdir_all (ancestors dst ++ [dst]) fs) as [fs1 [e|[]]] eqn:Hm;
    [discriminate|].
  intros H. inversion H; subst. split.
  - apply lookup_union_Some_l. eapply mkdir_all_keeps; eauto.
  - apply lookup_union_Some_l. eapply mkdir_all_made; [exact Hm|].
    apply elem_of_app. right. apply list_elem_of_here.
Qed.

Lemma copytree_exists src dst fs n :
  fs !! src = Some Dir -> fs !! dst = Some n ->
  copytree src dst fs = (fs, inl (FileExistsError dst)).
Proof.
  intros Hs Hd. unfold copytree, makedirs. rewrite Hs, Hd. reflexivity.
Qed.

Lemma isdir_true fs p : isdir fs p = true <-> fs !! p = Some Dir.
Proof.
  unfold isdir. destruct (fs !! p) as [[c|]|]; split; intros H;
    try discriminate; auto.
Qed.

Lemma isdir_false fs p : isdir fs p = false <-> fs !! p <> Some Dir.
Proof.
  unfold isdir. destruct (fs !! p) as [[c|]|]; split; intros H;
    try discriminate; auto. contradiction.
Qed.

(** A move whose target is then read as a file moved a file, and took no
    directory away. *)
Lemma move_then_read src dst fs fs' fs'' c :
  move src dst fs = (fs', inr tt) ->
  read_file dst fs' = (fs'', inr c) ->
  keeps_dirs fs fs'.
Proof.
  intros Hm Hr. apply read_file_ok in Hr as [_ (cr & Hr & _)].
  unfold move in Hm.
  destruct (fs !! src) as [n|] eqn:Hs; [|discriminate].
  destruct (isdir fs dst) eqn:Hdd; simpl in Hm.
  - (* the target is a directory *)
    apply isdir_true in Hdd.
    destruct (String.eqb src dst) eqn:Heq.
    { inversion Hm; subst. apply keeps_dirs_refl. }
    apply String.eqb_neq in Heq.
    set (real := os_path_join dst (basename src)) in *.
    destruct (path_exists fs real) eqn:Hex; [discriminate|].
    assert (Hreal : fs !! real = None).
    { unfold path_exists in Hex. destruct (fs !! real); [discriminate|auto]. }
    assert (Hne : real <> dst) by (intros E; rewrite E in Hreal; congruence).
    destruct (negb (parent_is_dir fs real)); [discriminate|].
    destruct n as [c0|].
    + rewrite Hreal in Hm. inversion Hm; subst.
      rewrite lookup_insert_ne in Hr by exact Hne.
      rewrite lookup_delete_ne in Hr by exact Heq. congruence.
    + destruct (below src dst) eqn:Hb; [discriminate|].
      rewrite Hreal in Hm. inversion Hm; subst.
      rewrite lookup_insert_ne in Hr by exact Hne.
      match type of Hr with
      | ?l = _ => assert (Hl : l = Some Dir)
      end.
      { apply lookup_union_Some_l, map_lookup_filter_Some.
        split; [|exact Hb].
        rewrite lookup_delete_ne by exact Heq. exact Hdd. }
      congruence.
  - (* the target is not a directory *)
    apply isdir_false in Hdd.
    destruct (negb (parent_is_dir fs dst)); [discriminate|].
    destruct n as [c0|].
    + assert (Hfs : fs' = <[dst := File c0]> (delete src fs)).
      { destruct (fs !! dst) as [[c1|]|]; inversion Hm; subst; auto. }
      subst fs'. intros k Hk.
      rewrite lookup_insert_ne by (intros ->; contradiction).
      rewrite lookup_delete_ne by (intros ->; congruence).
      exact Hk.
    + destruct (below src dst); [discriminate|].
      assert (Hfs : fs' !! dst = Some Dir).
      { destruct (fs !! dst) as [[c1|]|]; inversion Hm; subst;
          try apply lookup_insert_eq. }
      congruence.
Qed.
End FileSystem.

(** ** Generating a game plugin twice *)

Lemma replace_sep s : PyStr.replace "/" os_sep s = s.
Proof.
  unfold PyStr.replace, os_sep. induction s as [|c s IH]; [reflexivity|].
  change (PyStr.replace_scan "/" "/" 0 (String c s))
    with (if Ascii.eqb "/" c && true
          then String "/" (PyStr.replace_scan "/" "/" 0 s)
          else String c (PyStr.replace_scan "/" "/" 0 s)).
  rewrite IH. destruct (Ascii.eqb_spec "/" c) as [<-|_]; reflexivity.
Qed.

Lemma prepare_game_plugin_ok i game_name game_platform fs fs' :
  prepare_game_plugin i game_name game_platform fs = (fs', inr tt) ->
  fs' !! game_plugin_template i = Some Dir
  /\ fs' !! game_plugin_destination i game_name = Some Dir.
Proof.
  unfold prepare_game_plugin, mbind, FsM_bind.
  set (dst := game_plugin_destination i game_name).
  set (src := game_plugin_template i).
  destruct (copytree src dst fs) as [fs1 [e|[]]] eqn:H1; [discriminate|].
  apply copytree_ok in H1 as [Hsrc Hdst].
  match goal with
  | |- context [read_file ?p fs1] =>
      destruct (read_file p fs1) as [fs1' [e|c1]] eqn:H2; [discriminate|]
  end.
  apply read_file_ok in H2 as [-> _].
  match goal with
  | |- context [write_file ?p ?c fs1] =>
      destruct (write_file p c fs1) as [fs2 [e|[]]] eqn:H3; [discriminate|]
  end.
  apply write_file_ok in H3.
  match goal with
  | |- context [move ?a ?b fs2] =>
      destruct (move a b fs2) as [fs3 [e|[]]] eqn:H4; [discriminate|]
  end.
  match goal with
  | |- context [read_file ?p fs3] =>
      destruct (read_file p fs3) as [fs3' [e|c2]] eqn:H5; [discriminate|]
  end.
  pose proof (move_then_read _ _ _ _ _ _ H4 H5) as H45.
  apply read_file_ok in H5 as [-> _].
  match goal with
  | |- context [write_file ?p ?c fs3] =>
      destruct (write_file p c fs3) as [fs4 [e|[]]] eqn:H6; [discriminate|]
  end.
  apply write_file_ok in H6.
  match goal with
  | |- context [read_file ?p fs4] =>
      destruct (read_file p fs4) as [fs4' [e|c3]] eqn:H7; [discriminate|]
  end.
  apply read_file_ok in H7 as [-> _].
  intros H8. apply write_file_ok in H8.
  split; apply H8, H6, H45, H3; assumption.
Qed.

(** C5: the destination of a generated game plugin is the directory
    Serpent<game_name>GamePlugin under the plugin directory; after a
    generation that succeeded, generating again under the same name fails
    with FileExistsError for that destination, raised by the copy of the
    template before anything is written: the file system is left as the
    first generation made it. *)
Theorem generate_game_plugin_twice
    (i : Install) (game_name game_platform game_platform' : string) (fs fs' : FS) :
  prepare_game_plugin i game_name game_platform fs = (fs', inr tt) ->
  game_plugin_destination i game_name
  = plugins_path i +:+ "/Serpent" +:+ game_name +:+ "GamePlugin"
  /\ fs' !! game_plugin_destination i game_name = Some Dir
  /\ prepare_game_plugin i game_name game_platform' fs'
     = (fs', inl (FileExistsError (game_plugin_destination i game_name)))
  /\ (game_name <> EmptyString ->
      PyStr.mem game_platform' ["steam"; "executable"; "web_browser"] = true ->
      generate_game_plugin i game_name game_platform' fs'
      = (fs', inl (FileExistsError
                     (plugins_path i +:+ "/Serpent" +:+ game_name +:+ "GamePlugin")))).
Proof.
  intros H. apply prepare_game_plugin_ok in H as [Hsrc Hdst].
  assert (Hd : game_plugin_destination i game_name
               = plugins_path i +:+ "/Serpent" +:+ game_name +:+ "GamePlugin")
    by apply replace_sep.
  assert (H2 : prepare_game_plugin i game_name game_platform' fs'
               = (fs', inl (FileExistsError (game_plugin_destination i game_name)))).
  { unfold prepare_game_plugin, mbind, FsM_bind.
    rewrite (copytree_exists _ _ _ Dir Hsrc Hdst). reflexivity. }
  split; [exact Hd|]. split; [exact Hdst|]. split; [exact H2|].
  intros Hn Hp. unfold generate_game_plugin.
  assert (Hm : PyStr.mem game_name [EmptyString] = false).
  { unfold PyStr.mem. simpl. destruct game_name; [contradiction|reflexivity]. }
  rewrite Hm, Hp. simpl. rewrite H2, Hd. reflexivity.
Qed.

Lemma generate_game_plugin_twice_witness :
  prepare_game_plugin foo_install "Foo" "steam" foo_fs = (foo_fs_generated, inr tt)
  /\ prepare_game_plugin foo_install "Foo" "steam" foo_fs_generated
     = (foo_fs_generated, inl (FileExistsError "plugins/SerpentFooGamePlugin")).
Proof.
  assert (H : prepare_game_plugin foo_install "Foo" "steam" foo_fs
              = (foo_fs_generated, inr tt)).
  { unfold foo_fs_generated.
    assert (Hr : (prepare_game_plugin foo_install "Foo" "steam" foo_fs).2 = inr tt)
      by (vm_compute; reflexivity).
    destruct (prepare_game_plugin foo_install "Foo" "steam" foo_fs) as [f r].
    simpl in *. rewrite Hr. reflexivity. }
  split; [exact H|].
  destruct (generate_game_plugin_twice foo_install "Foo" "steam" "steam"
              foo_fs foo_fs_generated H) as (_ & _ & H2 & _).
  exact H2.
Defined.

(** ** Text replacement, line by line *)

Section Replace.
#[local] Arguments String.append : simpl nomatch.

Lemma app_assoc_str a b c : (a +:+ b) +:+ c = a +:+ (b +:+ c).
Proof. induction a as [|x a IH]; simpl; [reflexivity|]. by rewrite IH. Qed.

Lemma app_empty_r a : a +:+ EmptyString = a.
Proof. induction a as [|x a IH]; simpl; [reflexivity|]. by rewrite IH. Qed.

Lemma count_newlines_app a b :
  PyStr.count_newlines (a +:+ b)
  = (PyStr.count_newlines a + PyStr.count_newlines b)%nat.
Proof. induction a as [|x a IH]; simpl; [reflexivity|]. rewrite IH. lia. Qed.

Lemma drop_length_le k : forall s,
  (String.length (PyStr.drop k s) <= String.length s)%nat.
Proof.
  induction k as [|k IH]; intros [|c s]; simpl; try lia.
  specialize (IH s). lia.
Qed.

Lemma replace_scan_drop old new : forall s k,
  PyStr.replace_scan old new k s = PyStr.replace_scan old new O (PyStr.drop k s).
Proof.
  induction s as [|c s IH]; intros [|k]; try reflexivity.
  simpl PyStr.drop. rewrite <- IH. reflexivity.
Qed.

(** The scan, one step at a time. *)
Lemma replace_scan_step old new c s :
  PyStr.replace_scan old new O (String c s)
  = if PyStr.startswith old (String c s)
    then new +:+ PyStr.replace_scan old new O
                   (PyStr.drop (String.length old - 1) s)
    else String c (PyStr.replace_scan old new O s).
Proof.
  change (PyStr.replace_scan old new O (String c s))
    with (if PyStr.startswith old (String c s)
          then new +:+ PyStr.replace_scan old new (String.length old - 1) s
          else String c (PyStr.replace_scan old new O s)).
  rewrite <- replace_scan_drop. reflexivity.
Qed.

Lemma startswith_split old : forall s,
  PyStr.startswith old s = true ->
  s = old +:+ PyStr.drop (String.length old) s.
Proof.
  induction old as [|c old IH]; intros s H; [reflexivity|].
  destruct s as [|x s]; [discriminate|]. simpl in H.
  apply andb_true_iff in H as [Hc Hs]. apply Ascii.eqb_eq in Hc. subst x.
  simpl. f_equal. apply IH, Hs.
Qed.

Lemma startswith_before_newline old : forall a b,
  PyStr.count_newlines old = O ->
  PyStr.startswith old (a +:+ String "010" b) = PyStr.startswith old a.
Proof.
  induction old as [|c old IH]; intros a b H; [destruct a; reflexivity|].
  simpl in H. destruct (Ascii.eqb c "010") eqn:Hc; [discriminate|].
  destruct a as [|x a]; simpl.
  - rewrite Hc. reflexivity.
  - rewrite IH by exact H. reflexivity.
Qed.

Lemma drop_app old : forall a t,
  PyStr.startswith old a = true ->
  PyStr.drop (String.length old) (a +:+ t)
  = PyStr.drop (String.length old) a +:+ t.
Proof.
  induction old as [|c old IH]; intros a t H; [reflexivity|].
  destruct a as [|x a]; [discriminate|]. simpl in H.
  apply andb_true_iff in H as [_ H]. simpl. apply IH, H.
Qed.

Lemma replace_scan_newline c old new b :
  PyStr.count_newlines (String c old) = O ->
  forall n a, (String.length a <= n)%nat ->
    PyStr.replace_scan (String c old) new O (a +:+ String "010" b)
    = PyStr.replace_scan (String c old) new O a
        +:+ String "010" (PyStr.replace_scan (String c old) new O b).
Proof.
  intros Hold. induction n as [|n IH]; intros a Hn.
  - destruct a; [|simpl in Hn; lia].
    change (EmptyString +:+ String "010" b) with (String "010" b).
    rewrite replace_scan_step.
    pose proof (startswith_before_newline (String c old) EmptyString b Hold) as Hs.
    change (EmptyString +:+ String "010" b) with (String "010" b) in Hs.
    rewrite Hs. reflexivity.
  - destruct a as [|x a].
    { apply (IH EmptyString). simpl. lia. }
    change (String x a +:+ String "010" b)
      with (String x (a +:+ String "010" b)).
    rewrite !replace_scan_step.
    pose proof (startswith_before_newline (String c old) (String x a) b Hold) as Hs.
    change (String x a +:+ String "010" b)
      with (String x (a +:+ String "010" b)) in Hs.
    rewrite Hs.
    destruct (PyStr.startswith (String c old) (String x a)) eqn:Hsw.
    + simpl in Hsw. apply andb_true_iff in Hsw as [_ Hsw].
      change (String.length (String c old) - 1)%nat
        with (String.length old - 0)%nat.
      rewrite Nat.sub_0_r.
      rewrite (drop_app old a _ Hsw).
      rewrite IH.
      * rewrite app_assoc_str. reflexivity.
      * pose proof (drop_length_le (String.length old) a).
        simpl in Hn. lia.
    + simpl. rewrite IH by (simpl in Hn; lia). reflexivity.
Qed.

(** A replacement whose [old] holds no line break works line by line. *)
Lemma replace_newline old new a b :
  old <> EmptyString ->
  PyStr.count_newlines old = O ->
  PyStr.replace old new (a +:+ String "010" b)
  = PyStr.replace old new a +:+ String "010" (PyStr.replace old new b).
Proof.
  intros Hne Hold. destruct old as [|c old]; [contradiction|].
  unfold PyStr.replace.
  apply (replace_scan_newline c old new b Hold (String.length a) a). lia.
Qed.

Lemma replace_scan_count c old new :
  PyStr.count_newlines (String c old) = O ->
  PyStr.count_newlines new = O ->
  forall n s, (String.length s <= n)%nat ->
    PyStr.count_newlines (PyStr.replace_scan (String c old) new O s)
    = PyStr.count_newlines s.
Proof.
  intros Hold Hnew. induction n as [|n IH]; intros s Hn.
  - destruct s; [reflexivity|simpl in Hn; lia].
  - destruct s as [|x s]; [reflexivity|].
    rewrite replace_scan_step.
    destruct (PyStr.startswith (String c old) (String x s)) eqn:Hsw.
    + rewrite count_newlines_app, Hnew.
      pose proof (startswith_split _ _ Hsw) as Hsplit.
      change (String.length (String c old) - 1)%nat
        with (String.length old - 0)%nat.
      rewrite Nat.sub_0_r.
      replace (PyStr.count_newlines (String x s))
        with (PyStr.count_newlines
                (String c old +:+ PyStr.drop (String.length old) s))
        by (rewrite Hsplit at 1; reflexivity).
      rewrite count_newlines_app, Hold.
      apply IH. pose proof (drop_length_le (String.length old) s).
      simpl in Hn. lia.
    + simpl. rewrite IH by (simpl in Hn; lia). reflexivity.
Qed.

(** A replacement of text without line breaks by text without line
    breaks keeps every line break. *)
Lemma replace_count_newlines old new s :
  old <> EmptyString ->
  PyStr.count_newlines old = O ->
  PyStr.count_newlines new = O ->
  PyStr.count_newlines (PyStr.replace old new s) = PyStr.count_newlines s.
Proof.
  intros Hne Hold Hnew. destruct old as [|c old]; [contradiction|].
  unfold PyStr.replace.
  apply (replace_scan_count c old new Hold Hnew (String.length s) s). lia.
Qed.

(** A replacement whose [old] does not start with a space passes over
    leading spaces. *)
Lemma replace_indent old new indent s :
  old <> EmptyString ->
  PyStr.startswith " " old = false ->
  only_spaces indent = true ->
  PyStr.replace old new (indent +:+ s) = indent +:+ PyStr.replace old new s.
Proof.
  intros Hne Hc. destruct old as [|c old]; [contradiction|].
  simpl in Hc. rewrite andb_true_r in Hc.
  assert (Hc' : Ascii.eqb c " " = false).
  { destruct (Ascii.eqb_spec c " ") as [->|]; [discriminate|reflexivity]. }
  unfold PyStr.replace.
  induction indent as [|x indent IH]; intros Hi; [reflexivity|].
  simpl in Hi. apply andb_true_iff in Hi as [Hx Hi].
  apply Ascii.eqb_eq in Hx. subst x.
  change (String " " indent +:+ s) with (String " " (indent +:+ s)).
  rewrite replace_scan_step. simpl PyStr.startswith. rewrite Hc'. simpl.
  rewrite IH by exact Hi. reflexivity.
Qed.
End Replace.

(** ** The game file of a steam plugin *)

Ltac solve_old :=
  solve [ let H := fresh in intros H; vm_compute in H; discriminate
        | vm_compute; reflexivity
        | assumption ].

Lemma rewrite_game_file_steam game_name contents :
  rewrite_game_file game_name "steam" contents
  = PyStr.replace line_browser EmptyString
      (PyStr.replace line_url EmptyString
         (PyStr.replace line_executable_path EmptyString
            (PyStr.replace line_import_web_browser EmptyString
               (PyStr.replace "PLATFORM" "steam"
                  (PyStr.replace "MyGameAPI" (game_name +:+ "API")
                     (PyStr.replace "SerpentGame"
                        ("Serpent" +:+ game_name +:+ "Game") contents)))))).
Proof. reflexivity. Qed.

Lemma steam_newline game_name a b :
  rewrite_game_file game_name "steam" (a +:+ String "010" b)
  = rewrite_game_file game_name "steam" a
      +:+ String "010" (rewrite_game_file game_name "steam" b).
Proof.
  rewrite !rewrite_game_file_steam.
  repeat (rewrite replace_newline; [|solve_old|solve_old]).
  reflexivity.
Qed.

Lemma steam_indent game_name indent s :
  only_spaces indent = true ->
  rewrite_game_file game_name "steam" (indent +:+ s)
  = indent +:+ rewrite_game_file game_name "steam" s.
Proof.
  intros Hi. rewrite !rewrite_game_file_steam.
  repeat (rewrite replace_indent; [|solve_old|solve_old|solve_old]).
  reflexivity.
Qed.

Lemma steam_count_newlines game_name contents :
  PyStr.count_newlines game_name = O ->
  PyStr.count_newlines (rewrite_game_file game_name "steam" contents)
  = PyStr.count_newlines contents.
Proof.
  intros Hn. rewrite rewrite_game_file_steam.
  assert (H1 : PyStr.count_newlines ("Serpent" +:+ game_name +:+ "Game") = O).
  { rewrite !count_newlines_app, Hn. reflexivity. }
  assert (H2 : PyStr.count_newlines (game_name +:+ "API") = O).
  { rewrite count_newlines_app, Hn. reflexivity. }
  repeat (rewrite replace_count_newlines; [|solve_old|solve_old|solve_old]).
  reflexivity.
Qed.

Lemma steam_other_line game_name line :
  line ∈ other_platform_lines "steam" ->
  rewrite_game_file game_name "steam" line = EmptyString.
Proof.
  intros H. change (other_platform_lines "steam")
    with [line_import_web_browser; line_executable_path; line_url; line_browser] in H.
  repeat (apply elem_of_cons in H as [->|H]; [vm_compute; reflexivity|]).
  by apply elem_of_nil in H.
Qed.

(** C3, as the code has it not: the steam game file made from a template
    of ten lines has ten lines; the lines of the other platforms are still
    there, holding their indentation or nothing, where deleting them would
    leave six. *)
Lemma steam_lines_not_deleted_counterexample :
  PyStr.split_lines (rewrite_game_file "Foo" "steam" foo_game_template)
  = [ "from .api.api import FooAPI";
      EmptyString;
      "class SerpentFooGame(Game):";
      "        " +:+ platform_steam_line;
      "        " +:+ line_app_id;
      "        " +:+ line_app_args;
      "        ";
      "        ";
      "        ";
      EmptyString ]
  /\ PyStr.split_lines
       (spec_strip_platform "steam"
          (PyStr.replace "MyGameAPI" "FooAPI"
             (PyStr.replace "SerpentGame" "SerpentFooGame" foo_game_template)))
     = [ "from .api.api import FooAPI";
         "class SerpentFooGame(Game):";
         "        " +:+ platform_steam_line;
         "        " +:+ line_app_id;
         "        " +:+ line_app_args;
         EmptyString ]
  /\ rewrite_game_file "Foo" "steam" foo_game_template
     <> spec_strip_platform "steam"
          (PyStr.replace "MyGameAPI" "FooAPI"
             (PyStr.replace "SerpentGame" "SerpentFooGame" foo_game_template)).
Proof.
  split; [vm_compute; reflexivity|]. split; [vm_compute; reflexivity|].
  intros H. vm_compute in H. discriminate.
Qed.

(** C3, amended: for a game plugin generated with platform steam the game
    file is rewritten line by line and keeps every line: the text of each
    line of the executable and web_browser branches is replaced by nothing,
    so that such a line, written after its indentation, is left holding the
    indentation alone, and the PLATFORM placeholder line becomes the same
    line with steam in its place. With a game name that has no line break
    the file has as many line breaks as the template. *)
Theorem steam_game_file_lines (game_name : string) :
  (forall a b,
     rewrite_game_file game_name "steam" (a +:+ newline +:+ b)
     = rewrite_game_file game_name "steam" a
         +:+ newline +:+ rewrite_game_file game_name "steam" b)
  /\ (forall indent line,
        only_spaces indent = true ->
        line ∈ other_platform_lines "steam" ->
        rewrite_game_file game_name "steam" (indent +:+ line) = indent)
  /\ (forall indent,
        only_spaces indent = true ->
        rewrite_game_file game_name "steam"
          (indent +:+ PyStr.dq "kwargs['platform'] = 'PLATFORM'")
        = indent +:+ PyStr.dq "kwargs['platform'] = 'steam'")
  /\ (PyStr.count_newlines game_name = O ->
      forall contents,
        PyStr.count_newlines (rewrite_game_file game_name "steam" contents)
        = PyStr.count_newlines contents).
Proof.
  split; [|split; [|split]].
  - intros a b. apply steam_newline.
  - intros indent line Hi Hl.
    rewrite (steam_indent _ _ _ Hi), (steam_other_line _ _ Hl).
    apply app_empty_r.
  - intros indent Hi. rewrite (steam_indent _ _ _ Hi). f_equal.
  - intros Hn contents. apply steam_count_newlines, Hn.
Qed.

Lemma steam_game_file_lines_witness :
  rewrite_game_file "Foo" "steam" ("        " +:+ line_url) = "        "
  /\ PyStr.count_newlines (rewrite_game_file "Foo" "steam" foo_game_template)
     = PyStr.count_newlines foo_game_template.
Proof.
  destruct (steam_game_file_lines "Foo") as (_ & Hline & _ & Hcount).
  split.
  - apply (Hline "        " line_url).
    + reflexivity.
    + vm_compute. do 2 apply list_elem_of_further. apply list_elem_of_here.
  - apply Hcount. reflexivity.
Defined.

(** * Further properties of the commands *)

(** ** Play: the lookup of the game agent *)

(** X1: once the game is resolved, constructed and dry-run launched, play
    with an agent name that is not among the game agent plugins fails with
    an exception naming the agent, after the launch and with no play call;
    with an agent that is installed it makes the play call with the agent
    name and the frame handler as given, and ends as that call ends. *)
Theorem play_agent_lookup
    (w : World) (game_name a : string) (fh : PyVal) (p : GamePlugin) :
  game_classes w !! game_class_name_of game_name = Some p ->
  init_raises p = None ->
  launch_raises p true = None ->
  (a ∉ game_agent_classes w ->
   play w game_name a fh
   = ([EConstruct (game_class_name_of game_name);
       ELaunch (game_class_name_of game_name) (Some true)],
      inl (Exception ("Game Agent '" +:+ a
                        +:+ "' wasn't found. Make sure the plugin is installed."))))
  /\ (a ∈ game_agent_classes w ->
      play w game_name a fh
      = ([EConstruct (game_class_name_of game_name);
          ELaunch (game_class_name_of game_name) (Some true);
          EPlay (game_class_name_of game_name)
            [ ("game_agent_class_name", KwV (VStr a));
              ("frame_handler", KwV fh) ]],
         match play_raises p [ ("game_agent_class_name", KwV (VStr a));
                               ("frame_handler", KwV fh) ] with
         | Some e => inl e
         | None => inr tt
         end)).
Proof.
  intros Hp Hi Hl. rewrite play_prelude.
  rewrite (prelude_launched _ _ _ p Hp Hi Hl).
  split; intros Ha.
  - rewrite bool_decide_eq_false_2 by exact Ha. reflexivity.
  - rewrite bool_decide_eq_true_2 by exact Ha. reflexivity.
Qed.

Lemma play_agent_lookup_witness :
  play foo_world "Foo" "Missing" (VStr "RECORD")
  = ([EConstruct "SerpentFooGame"; ELaunch "SerpentFooGame" (Some true)],
     inl (Exception "Game Agent 'Missing' wasn't found. Make sure the plugin is installed.")).
Proof.
  assert (Hp : game_classes foo_world !! game_class_name_of "Foo" = Some quiet_plugin)
    by (vm_compute; reflexivity).
  destruct (play_agent_lookup foo_world "Foo" "Missing" (VStr "RECORD")
              quiet_plugin Hp eq_refl eq_refl) as (H & _).
  apply H. unfold foo_world. simpl. intros Hin.
  apply elem_of_singleton in Hin. discriminate.
Defined.

(** ** Capture: what the play call is given *)

Lemma capture_launched w ct g i e e2 p :
  game_classes w !! game_class_name_of g = Some p ->
  init_raises p = None -> launch_raises p true = None ->
  capture w ct g i e e2
  = (EConstruct (game_class_name_of g) :: ELaunch (game_class_name_of g) (Some true)
       :: trace (capture_body w ct i e e2
                   {| game_id := game_class_name_of g; game_plugin := p |}),
     outcome (capture_body w ct i e e2
                {| game_id := game_class_name_of g; game_plugin := p |})).
Proof.
  intros Hp Hi Hl. rewrite capture_prelude.
  apply (prelude_launched _ _ _ p Hp Hi Hl).
Qed.

(** X2: once the game is resolved, constructed and dry-run launched and
    the interval converts to a float x, capture makes one play call: for
    frame with COLLECT_FRAMES and the interval only (the two extra
    arguments are not passed on), for context with
    COLLECT_FRAMES_FOR_CONTEXT, the interval, and the two extra arguments
    as context and screen_region, for region with COLLECT_FRAME_REGIONS,
    the interval and the first extra argument as region. Without an
    interval on the command line the interval is float(1). *)
Theorem capture_play_arguments
    (w : World) (game_name : string) (interval extra extra_2 : PyVal)
    (x : PyFloat) (p : GamePlugin) :
  game_classes w !! game_class_name_of game_name = Some p ->
  init_raises p = None ->
  launch_raises p true = None ->
  py_float w interval = inr x ->
  trace (capture w "frame" game_name interval extra extra_2)
  = [EConstruct (game_class_name_of game_name);
     ELaunch (game_class_name_of game_name) (Some true);
     EPlay (game_class_name_of game_name)
       [ ("frame_handler", KwV (VStr "COLLECT_FRAMES"));
         ("interval", KwFloat x) ]]
  /\ trace (capture w "context" game_name interval extra extra_2)
     = [EConstruct (game_class_name_of game_name);
        ELaunch (game_class_name_of game_name) (Some true);
        EPlay (game_class_name_of game_name)
          [ ("frame_handler", KwV (VStr "COLLECT_FRAMES_FOR_CONTEXT"));
            ("interval", KwFloat x);
            ("context", KwV extra);
            ("screen_region", KwV extra_2) ]]
  /\ trace (capture w "region" game_name interval extra extra_2)
     = [EConstruct (game_class_name_of game_name);
        ELaunch (game_class_name_of game_name) (Some true);
        EPlay (game_class_name_of game_name)
          [ ("frame_handler", KwV (VStr "COLLECT_FRAME_REGIONS"));
            ("interval", KwFloat x);
            ("region", KwV extra) ]]
  /\ trace (capture_args w ["frame"; game_name])
     = [EConstruct (game_class_name_of game_name);
        ELaunch (game_class_name_of game_name) (Some true);
        EPlay (game_class_name_of game_name)
          [ ("frame_handler", KwV (VStr "COLLECT_FRAMES"));
            ("interval", KwFloat (FloatOfInt 1)) ]].
Proof.
  intros Hp Hi Hl Hx.
  repeat split; unfold capture_args;
    rewrite (capture_launched _ _ _ _ _ _ p Hp Hi Hl);
    unfold capture_body; simpl; try rewrite Hx; reflexivity.
Qed.

Lemma capture_play_arguments_witness :
  trace (capture foo_world "context" "Foo" (VStr "0.5") (VStr "ctx1") (VStr "region1"))
  = [EConstruct "SerpentFooGame";
     ELaunch "SerpentFooGame" (Some true);
     EPlay "SerpentFooGame"
       [ ("frame_handler", KwV (VStr "COLLECT_FRAMES_FOR_CONTEXT"));
         ("interval", KwFloat (FloatOfStr "0.5"));
         ("context", KwV (VStr "ctx1"));
         ("screen_region", KwV (VStr "region1")) ]].
Proof.
  assert (Hp : game_classes foo_world !! game_class_name_of "Foo" = Some quiet_plugin)
    by (vm_compute; reflexivity).
  destruct (capture_play_arguments foo_world "Foo" (VStr "0.5") (VStr "ctx1")
              (VStr "region1") (FloatOfStr "0.5") quiet_plugin Hp eq_refl eq_refl
              eq_refl) as (_ & H & _).
  exact H.
Defined.

(** X3: capture of a valid type with an ASCII interval string that float
    does not accept makes no play call and fails; once the game is
    resolved, constructed and dry-run launched, the failure is the
    ValueError of float, "could not convert string to float: " followed by
    the literal. *)
Theorem capture_bad_interval
    (w : World) (capture_type game_name s : string) (extra extra_2 : PyVal) :
  PyStr.mem capture_type ["frame"; "context"; "region"] = true ->
  PyStr.is_ascii s = true ->
  float_accepts w s = false ->
  (forall p,
     game_classes w !! game_class_name_of game_name = Some p ->
     init_raises p = None -> launch_raises p true = None ->
     capture w capture_type game_name (VStr s) extra extra_2
     = ([EConstruct (game_class_name_of game_name);
         ELaunch (game_class_name_of game_name) (Some true)],
        inl (ValueError ("could not convert string to float: " +:+ PyStr.repr s))))
  /\ (forall id args,
        EPlay id args ∉ trace (capture w capture_type game_name (VStr s) extra extra_2))
  /\ (exists e,
        outcome (capture w capture_type game_name (VStr s) extra extra_2) = inl e).
Proof.
  intros Hm _ Hf.
  assert (Hk : forall game,
             capture_body w capture_type (VStr s) extra extra_2 game
             = ([], inl (ValueError ("could not convert string to float: "
                                       +:+ PyStr.repr s)))).
  { intros game. unfold capture_body, py_float. rewrite Hm, Hf. simpl.
    unfold PyStr.mem in Hm. simpl in Hm.
    destruct (String.eqb capture_type "frame"); [reflexivity|].
    destruct (String.eqb capture_type "context"); [reflexivity|].
    destruct (String.eqb capture_type "region"); [reflexivity|].
    discriminate. }
  rewrite capture_prelude. split; [|split].
  - intros p Hp Hi Hl. rewrite (prelude_launched _ _ _ p Hp Hi Hl).
    rewrite Hk. reflexivity.
  - intros id args.
    destruct (prelude_cases w game_name
                (capture_body w capture_type (VStr s) extra extra_2));
      unfold trace at 1; simpl.
    + apply not_elem_of_nil.
    + intros Hin. apply list_elem_of_singleton in Hin. discriminate.
    + apply no_play_in_start.
    + rewrite Hk. apply no_play_in_start.
  - destruct (prelude_cases w game_name
                (capture_body w capture_type (VStr s) extra extra_2));
      unfold outcome at 1; simpl; eauto.
    rewrite Hk. simpl. eauto.
Qed.

Lemma capture_bad_interval_witness :
  capture foo_world "frame" "Foo" (VStr "fast") VNone VNone
  = ([EConstruct "SerpentFooGame"; ELaunch "SerpentFooGame" (Some true)],
     inl (ValueError "could not convert string to float: 'fast'")).
Proof.
  assert (Hm : PyStr.mem "frame" ["frame"; "context"; "region"] = true)
    by reflexivity.
  assert (Hf : float_accepts foo_world "fast" = false) by reflexivity.
  destruct (capture_bad_interval foo_world "frame" "Foo" "fast" VNone VNone Hm
              eq_refl Hf) as (H & _).
  apply (H quiet_plugin); vm_compute; reflexivity.
Defined.

(** ** A game plugin that raises *)

(** X4: an exception raised by the game plugin ends the command with that
    exception at the call that raised it: when the constructor raises, no
    launch is attempted by launch, play, record or capture; when the
    dry-run launch raises, play, record and capture go no further; when the
    live launch raises, launch ends with that exception. *)
Theorem plugin_failure_stops_command
    (w : World) (game_name : string) (p : GamePlugin) (e : PyExc) :
  game_classes w !! game_class_name_of game_name = Some p ->
  (init_raises p = Some e ->
   launch w game_name = ([EConstruct (game_class_name_of game_name)], inl e)
   /\ (forall a fh,
         play w game_name a fh
         = ([EConstruct (game_class_name_of game_name)], inl e))
   /\ (forall a fc fs,
         record w game_name a fc fs
         = ([EConstruct (game_class_name_of game_name)], inl e))
   /\ (forall ct i x x2,
         capture w ct game_name i x x2
         = ([EConstruct (game_class_name_of game_name)], inl e)))
  /\ (init_raises p = None -> launch_raises p true = Some e ->
      (forall a fh,
         play w game_name a fh
         = ([EConstruct (game_class_name_of game_name);
             ELaunch (game_class_name_of game_name) (Some true)], inl e))
      /\ (forall a fc fs,
            record w game_name a fc fs
            = ([EConstruct (game_class_name_of game_name);
                ELaunch (game_class_name_of game_name) (Some true)], inl e))
      /\ (forall ct i x x2,
            capture w ct game_name i x x2
            = ([EConstruct (game_class_name_of game_name);
                ELaunch (game_class_name_of game_name) (Some true)], inl e)))
  /\ (init_raises p = None -> launch_raises p false = Some e ->
      launch w game_name
      = ([EConstruct (game_class_name_of game_name);
          ELaunch (game_class_name_of game_name) None], inl e)).
Proof.
  intros Hp. split; [|split].
  - intros Hi. split; [|split; [|split]].
    + destruct (launch_cases w game_name)
        as [[H' _]|[(p' & e' & H' & Hi' & H)|(p' & H' & Hi' & _)]].
      * congruence.
      * rewrite Hp in H'. injection H' as <-. rewrite H. congruence.
      * rewrite Hp in H'. injection H' as <-. congruence.
    + intros a fh. rewrite play_prelude. apply (prelude_init_raises _ _ _ p e Hp Hi).
    + intros a fc fs. rewrite record_prelude.
      apply (prelude_init_raises _ _ _ p e Hp Hi).
    + intros ct i x x2. rewrite capture_prelude.
      apply (prelude_init_raises _ _ _ p e Hp Hi).
  - intros Hi Hl. split; [|split].
    + intros a fh. rewrite play_prelude.
      apply (prelude_launch_raises _ _ _ p e Hp Hi Hl).
    + intros a fc fs. rewrite record_prelude.
      apply (prelude_launch_raises _ _ _ p e Hp Hi Hl).
    + intros ct i x x2. rewrite capture_prelude.
      apply (prelude_launch_raises _ _ _ p e Hp Hi Hl).
  - intros Hi Hl.
    destruct (launch_cases w game_name)
      as [[H' _]|[(p' & e' & H' & Hi' & _)|(p' & H' & Hi' & H)]].
    + congruence.
    + rewrite Hp in H'. injection H' as <-. congruence.
    + rewrite Hp in H'. injection H' as <-. rewrite H, Hl. reflexivity.
Qed.

Lemma plugin_failure_stops_command_witness :
  record broken_world "Foo" "Agent" (VInt 4) (VInt 4)
  = ([EConstruct "SerpentFooGame"; ELaunch "SerpentFooGame" (Some true)],
     inl (Raised "window not found")).
Proof.
  assert (Hp : game_classes broken_world !! game_class_name_of "Foo"
               = Some broken_plugin)
    by (vm_compute; reflexivity).
  destruct (plugin_failure_stops_command broken_world "Foo" broken_plugin
              (Raised "window not found") Hp) as (_ & H & _).
  destruct (H eq_refl eq_refl) as (_ & Hr & _).
  exact (Hr "Agent" (VInt 4) (VInt 4)).
Defined.

(** ** The command tables *)

Lemma mem_In x l : PyStr.mem x l = true <-> In x l.
Proof.
  unfold PyStr.mem. rewrite existsb_exists. split.
  - intros (y & Hin & Heq). apply String.eqb_eq in Heq. subst. exact Hin.
  - intros Hin. exists x. split; [exact Hin|apply String.eqb_refl].
Qed.

Lemma dict_get_Some_In {V : Type} (d : list (string * V)) k v :
  dict_get d k = Some v -> In (k, v) d.
Proof.
  induction d as [|[k' v'] d IH]; simpl; [discriminate|].
  destruct (String.eqb_spec k k') as [->|_].
  - intros H. injection H as ->. left. reflexivity.
  - intros H. right. apply IH, H.
Qed.

Lemma dict_get_is_Some {V : Type} (d : list (string * V)) k :
  is_Some (dict_get d k) <-> In k (List.map fst d).
Proof.
  induction d as [|[k' v'] d IH]; simpl.
  - split; [intros [v H]; discriminate|contradiction].
  - destruct (String.eqb_spec k k') as [->|Hne].
    + split; [intros _; left; reflexivity|intros _; eexists; reflexivity].
    + rewrite IH. split; [intros H; right; exact H|].
      intros [H|H]; [congruence|exact H].
Qed.

Lemma valid_command_not_help command :
  PyStr.mem command valid_commands = true ->
  String.eqb command "-h" || String.eqb command "--help" = false.
Proof.
  intros H.
  destruct (String.eqb_spec command "-h") as [->|_]; [discriminate H|].
  destruct (String.eqb_spec command "--help") as [->|_]; [discriminate H|].
  reflexivity.
Qed.

(** X5: the three tables of serpent.py name the same commands: a token is
    a valid command exactly when the function table has a handler for it
    and exactly when the description table describes it. A valid command
    is therefore always dispatched to its handler with the remaining
    arguments (the table lookup of execute cannot fail), and the help has a
    line for it: the name right-justified to 16 columns, a colon and the
    description. *)
Theorem command_tables_agree (command : string) :
  (PyStr.mem command valid_commands = true
   <-> is_Some (dict_get command_function_mapping command))
  /\ (PyStr.mem command valid_commands = true
      <-> is_Some (dict_get command_description_mapping command))
  /\ (PyStr.mem command valid_commands = true ->
      exists f d,
        dict_get command_function_mapping command = Some f
        /\ dict_get command_description_mapping command = Some d
        /\ (forall w prog args, execute w (prog :: command :: args) = f w args)
        /\ (rjust 16 command +:+ ": " +:+ d) ∈ help_lines).
Proof.
  assert (H1 : PyStr.mem command valid_commands = true
               <-> is_Some (dict_get command_function_mapping command)).
  { rewrite mem_In, dict_get_is_Some. simpl.
    split; intros H; repeat (destruct H as [H|H]; [subst; tauto|]); contradiction. }
  assert (H2 : PyStr.mem command valid_commands = true
               <-> is_Some (dict_get command_description_mapping command)).
  { rewrite mem_In, dict_get_is_Some. simpl.
    split; intros H; repeat (destruct H as [H|H]; [subst; tauto|]); contradiction. }
  split; [exact H1|]. split; [exact H2|].
  intros Hm. destruct (proj1 H1 Hm) as [f Hf]. destruct (proj1 H2 Hm) as [d Hd].
  exists f, d. split; [exact Hf|]. split; [exact Hd|]. split.
  - intros w prog args. unfold execute.
    rewrite (valid_command_not_help _ Hm), Hm, Hf. reflexivity.
  - unfold help_lines. apply elem_of_cons. right. apply elem_of_cons. right.
    apply elem_of_app. left. apply list_elem_of_In.
    apply (in_map (fun cd : string * string => rjust 16 cd.1 +:+ ": " +:+ cd.2)
             _ (command, d)).
    apply dict_get_Some_In, Hd.
Qed.

Lemma command_tables_agree_witness :
  (forall w, execute w ["serpent"; "capture"; "frame"; "Foo"]
             = capture_args w ["frame"; "Foo"])
  /\ "         capture: Capture frames, screen regions and contexts from a game"
     ∈ help_lines.
Proof.
  destruct (command_tables_agree "capture") as (_ & _ & H).
  destruct (H eq_refl) as (f & d & Hf & Hd & He & Hh).
  injection Hf as <-. injection Hd as <-.
  split; [|exact Hh].
  intros w. apply He.
Defined.

(** ** The number of arguments of the game commands *)



(** ** Training *)

(** X7: train with a training type other than context and object does
    nothing and does not fail, whatever the other arguments. *)
Theorem train_unknown_type_is_silent
    (w : World) (training_type : string) (args : list string) :
  training_type <> "context" ->
  training_type <> "object" ->
  train w training_type args = ([], inr tt)
  /\ train_args w (training_type :: args) = ([], inr tt)
  /\ (forall prog,
        execute w (prog :: "train" :: training_type :: args) = ([], inr tt)).
Proof.
  intros Hc Ho. apply String.eqb_neq in Hc, Ho.
  assert (H : train w training_type args = ([], inr tt)).
  { unfold train. rewrite Hc, Ho. reflexivity. }
  repeat split; try exact H. intros prog. exact H.
Qed.

Lemma train_unknown_type_is_silent_witness :
  execute foo_world ["serpent"; "train"; "contexts"; "5"] = ([], inr tt).
Proof.
  assert (Hc : "contexts" <> "context") by discriminate.
  assert (Ho : "contexts" <> "object") by discriminate.
  destruct (train_unknown_type_is_silent foo_world "contexts" ["5"] Hc Ho)
    as (_ & _ & H).
  exact (H "serpent").
Defined.

Lemma py_in_bool_words v :
  py_in (VStr v) [VBool true; VStr "True"; VBool false; VStr "False"]
  = String.eqb v "True" || String.eqb v "False".
Proof. unfold py_in. simpl. rewrite orb_false_r. reflexivity. Qed.

Lemma argv_is_true_str v : argv_is_true (VStr v) = String.eqb v "True".
Proof. unfold argv_is_true, py_in. simpl. rewrite orb_false_r. reflexivity. Qed.

(** X8: context training from the command line. A validate word other
    than True and False is refused with a ValueError naming validate,
    whatever the other arguments; then an autosave word other than True and
    False is refused with a ValueError naming autosave; then epochs must
    read as an integer, or the ValueError of int is raised, which for an
    ASCII word is "invalid literal for int() with base 10: " followed by
    the literal. In these three cases nothing is handed off. Otherwise the
    classifier is called once, with the epochs read and with validate and
    autosave true exactly for the word True. *)
Theorem train_context_from_command_line
    (w : World) (epochs validate autosave : string) :
  (validate <> "True" -> validate <> "False" ->
   forall e a,
     train_context w e (VStr validate) a
     = ([], inl (ValueError "'validate' should be True or False")))
  /\ (validate = "True" \/ validate = "False" ->
      autosave <> "True" -> autosave <> "False" ->
      forall e,
        train_context w e (VStr validate) (VStr autosave)
        = ([], inl (ValueError "'autosave' should be True or False")))
  /\ (validate = "True" \/ validate = "False" ->
      autosave = "True" \/ autosave = "False" ->
      PyStr.is_ascii epochs = true ->
      PyStr.int_of_str epochs = None ->
      train_context w (VStr epochs) (VStr validate) (VStr autosave)
      = ([], inl (ValueError ("invalid literal for int() with base 10: "
                                +:+ PyStr.take 200 (PyStr.repr epochs)))))
  /\ (validate = "True" \/ validate = "False" ->
      autosave = "True" \/ autosave = "False" ->
      forall n,
        PyStr.int_of_str epochs = Some n ->
        train_context w (VStr epochs) (VStr validate) (VStr autosave)
        = ([EExecutableTrain n (String.eqb validate "True")
              (String.eqb autosave "True")],
           match executable_train_raises w with
           | Some e => inl e
           | None => inr tt
           end)).
Proof.
  assert (Hbad : forall v, v <> "True" -> v <> "False" ->
                   String.eqb v "True" || String.eqb v "False" = false).
  { intros v H1 H2. apply String.eqb_neq in H1, H2. rewrite H1, H2. reflexivity. }
  assert (Hok : forall v, v = "True" \/ v = "False" ->
                  String.eqb v "True" || String.eqb v "False" = true).
  { intros v [->| ->]; reflexivity. }
  split; [|split; [|split]].
  - intros H1 H2 e a. unfold train_context.
    rewrite py_in_bool_words, (Hbad _ H1 H2). reflexivity.
  - intros Hv H1 H2 e. unfold train_context.
    rewrite !py_in_bool_words, (Hok _ Hv), (Hbad _ H1 H2). reflexivity.
  - intros Hv Ha _ He. unfold train_context.
    rewrite !py_in_bool_words, (Hok _ Hv), (Hok _ Ha). simpl.
    rewrite He. reflexivity.
  - intros Hv Ha n He. unfold train_context.
    rewrite !py_in_bool_words, (Hok _ Hv), (Hok _ Ha). simpl.
    rewrite He. unfold_M. rewrite !argv_is_true_str. reflexivity.
Qed.

Lemma train_context_from_command_line_witness :
  train_context foo_world (VStr "5") (VStr "true") (VStr "False")
  = ([], inl (ValueError "'validate' should be True or False"))
  /\ train_context foo_world (VStr "5") (VStr "True") (VStr "yes")
     = ([], inl (ValueError "'autosave' should be True or False"))
  /\ train_context foo_world (VStr "five") (VStr "False") (VStr "True")
     = ([], inl (ValueError "invalid literal for int() with base 10: 'five'"))
  /\ train_context foo_world (VStr "5") (VStr "False") (VStr "True")
     = ([EExecutableTrain 5 false true], inr tt).
Proof.
  split; [|split; [|split]].
  - destruct (train_context_from_command_line foo_world "5" "true" "False")
      as (H & _).
    apply H; discriminate.
  - destruct (train_context_from_command_line foo_world "5" "True" "yes")
      as (_ & H & _).
    apply (H (or_introl eq_refl)); discriminate.
  - destruct (train_context_from_command_line foo_world "five" "False" "True")
      as (_ & _ & H & _).
    apply (H (or_intror eq_refl) (or_introl eq_refl) eq_refl eq_refl).
  - destruct (train_context_from_command_line foo_world "5" "False" "True")
      as (_ & _ & _ & H).
    apply (H (or_intror eq_refl) (or_introl eq_refl) 5 eq_refl).
Defined.

(** X9: object training. When the construction of the recognizer raises,
    no signal handler is installed and train is not called; otherwise the
    handler is installed, train is called, and the command ends as train
    ends. With fewer than two arguments after the training type the call
    fails before the recognizer is constructed. *)
Theorem train_object_steps
    (w : World) (name algorithm : string) (classes : list string) :
  (forall e,
     recognizer_init_raises w name = Some e ->
     train_object w name algorithm classes
     = ([ENewRecognizer name algorithm classes], inl e))
  /\ (recognizer_init_raises w name = None ->
      train_object w name algorithm classes
      = ([ENewRecognizer name algorithm classes;
          ESignal "SIGINT" (on_interrupt_of name);
          ETrain name],
         match recognizer_train_raises w name with
         | Some e => inl e
         | None => inr tt
         end))
  /\ train w "object" [] = ([], inl (ArityError "train_object" 0))
  /\ train w "object" [name] = ([], inl (ArityError "train_object" 1)).
Proof.
  split; [|split; [|split]]; try reflexivity.
  - intros e H. unfold train_object. unfold_M. rewrite H. reflexivity.
  - intros H. unfold train_object. unfold_M. rewrite H. reflexivity.
Qed.

Lemma train_object_steps_witness :
  train_object broken_world "sprites" "ssd" ["coin"]
  = ([ENewRecognizer "sprites" "ssd" ["coin"]], inl (Raised "no backend")).
Proof.
  destruct (train_object_steps broken_world "sprites" "ssd" ["coin"]) as (H & _).
  apply H. reflexivity.
Defined.

(** * Further properties of the scaffolding *)

(** ** Paths *)

Section Paths.
#[local] Arguments String.append : simpl nomatch.

Lemma length_app_str a b :
  String.length (a +:+ b) = (String.length a + String.length b)%nat.
Proof. induction a as [|x a IH]; simpl; [reflexivity|]. by rewrite IH. Qed.

Lemma startswith_app_same a : forall b c,
  PyStr.startswith (a +:+ b) (a +:+ c) = PyStr.startswith b c.
Proof.
  induction a as [|x a IH]; intros b c; [reflexivity|].
  simpl. rewrite Ascii.eqb_refl. apply IH.
Qed.

Lemma startswith_app_l a b : forall s,
  PyStr.startswith (a +:+ b) s = true -> PyStr.startswith a s = true.
Proof.
  induction a as [|x a IH]; intros s H; [destruct s; reflexivity|].
  destruct s as [|y s]; [discriminate|]. simpl in *.
  apply andb_true_iff in H as [Hx H]. rewrite Hx. simpl. apply IH, H.
Qed.

Lemma drop_app_length a b : PyStr.drop (String.length a) (a +:+ b) = b.
Proof. induction a as [|x a IH]; [destruct b; reflexivity|]. exact IH. Qed.

Lemma below_app d t : PyStr.startswith "/" t = true -> below d (d +:+ t) = true.
Proof.
  intros H. unfold below. rewrite startswith_app_same. exact H.
Qed.

Lemma below_split d k : below d k = true -> k = d +:+ PyStr.drop (String.length d) k.
Proof.
  unfold below. intros H. apply startswith_app_l in H.
  apply startswith_split, H.
Qed.

Lemma length_rev_app s1 : forall s2,
  String.length (String.rev_app s1 s2) = (String.length s1 + String.length s2)%nat.
Proof.
  induction s1 as [|x s1 IH]; intros s2; [reflexivity|].
  simpl. rewrite IH. simpl. lia.
Qed.

Lemma ancestors_go_shorter p : forall seen a,
  a ∈ ancestors_go seen p ->
  (String.length a < String.length seen + String.length p)%nat.
Proof.
  induction p as [|c p IH]; intros seen a H; simpl in H.
  - by apply elem_of_nil in H.
  - apply elem_of_app in H as [H|H].
    + destruct (Ascii.eqb c "/" && negb (String.eqb seen EmptyString));
        [|by apply elem_of_nil in H].
      apply list_elem_of_singleton in H. subst a.
      unfold String.rev. rewrite length_rev_app. simpl. lia.
    + apply IH in H. simpl in *. lia.
Qed.

Lemma ancestors_shorter p a :
  a ∈ ancestors p -> (String.length a < String.length p)%nat.
Proof. intros H. apply ancestors_go_shorter in H. simpl in H. exact H. Qed.

(** A path written below [d] is neither [d] nor one of its ancestors. *)
Lemma below_not_made d t :
  t <> EmptyString -> d +:+ t ∉ ancestors d ++ [d].
Proof.
  intros Ht H. assert (Hlen : (0 < String.length t)%nat).
  { destruct t; [contradiction|simpl; lia]. }
  apply elem_of_app in H as [H|H].
  - apply ancestors_shorter in H. rewrite length_app_str in H. lia.
  - apply list_elem_of_singleton in H.
    apply (f_equal String.length) in H. rewrite length_app_str in H. lia.
Qed.
End Paths.

(** ** What the copy and the move put where *)

Section Copy.
Implicit Types (fs : FS) (p src dst : string).

Lemma write_file_eq p c fs fs' :
  write_file p c fs = (fs', inr tt) -> fs' = <[p := File c]> fs.
Proof.
  unfold write_file.
  destruct (fs !! p) as [[c'|]|]; try discriminate;
    destruct (parent_is_dir fs p); try discriminate;
    intros H; inversion H; reflexivity.
Qed.

Lemma mkdir_all_other ps : forall fs fs' r k,
  k ∉ ps -> mkdir_all ps fs = (fs', r) -> fs' !! k = fs !! k.
Proof.
  induction ps as [|p ps IH]; intros fs fs' r k Hk H; simpl in H.
  - inversion H; reflexivity.
  - apply not_elem_of_cons in Hk as [Hne Hk].
    destruct (fs !! p) as [[c|]|].
    + inversion H; reflexivity.
    + eapply IH; eauto.
    + rewrite (IH _ _ _ _ Hk H). apply lookup_insert_ne. congruence.
Qed.

Lemma reroot_keys_NoDup src dst (l : list (string * Node)) :
  NoDup (l.*1) ->
  NoDup ((omap (fun kn : string * Node =>
                  if below src kn.1
                  then Some (dst +:+ PyStr.drop (String.length src) kn.1, kn.2)
                  else None) l).*1).
Proof.
  induction l as [|[k n] l IH]; intros Hnd; simpl; [constructor|].
  apply NoDup_cons in Hnd as [Hk Hnd]. simpl in Hk.
  destruct (below src k) eqn:Hb; simpl; [|apply IH, Hnd].
  apply NoDup_cons. split; [|apply IH, Hnd].
  intros Hin. apply list_elem_of_fmap in Hin as ([k2 n2] & Heq & Hin).
  apply list_elem_of_omap in Hin as ([k1 n1] & Hin1 & Hf). simpl in *.
  destruct (below src k1) eqn:Hb1; [|discriminate].
  injection Hf as <- <-.
  apply (inj (String.append dst)) in Heq.
  apply Hk. apply list_elem_of_fmap. exists (k1, n1). split; [|exact Hin1].
  simpl. rewrite (below_split _ _ Hb), (below_split _ _ Hb1), Heq. reflexivity.
Qed.

(** What lies below [src] is found at the same place below [dst]. *)
Lemma reroot_lookup src dst fs t n :
  PyStr.startswith "/" t = true ->
  fs !! (src +:+ t) = Some n ->
  reroot src dst fs !! (dst +:+ t) = Some n.
Proof.
  intros Ht Hk. unfold reroot. apply elem_of_list_to_map_1.
  - apply reroot_keys_NoDup, NoDup_fst_map_to_list.
  - apply list_elem_of_omap. exists (src +:+ t, n). split.
    + apply elem_of_map_to_list, Hk.
    + simpl. rewrite (below_app _ _ Ht), drop_app_length. reflexivity.
Qed.

(** After the copy, a file of the template is at the same place of the
    destination, unless something was there already. *)
Lemma copytree_copies src dst fs fs' t n :
  copytree src dst fs = (fs', inr tt) ->
  PyStr.startswith "/" t = true ->
  fs !! (src +:+ t) = Some n ->
  fs !! (dst +:+ t) = None ->
  fs' !! (dst +:+ t) = Some n.
Proof.
  unfold copytree, makedirs. intros H Ht Hs Hd.
  destruct (fs !! src) as [[c|]|]; try discriminate.
  destruct (fs !! dst) as [x|]; [discriminate|].
  destruct (mkdir_all (ancestors dst ++ [dst]) fs) as [fs1 [e|[]]] eqn:Hm;
    [discriminate|].
  inversion H; subst.
  assert (Hne : t <> EmptyString) by (intros ->; discriminate).
  rewrite lookup_union_r.
  - apply reroot_lookup; assumption.
  - rewrite (mkdir_all_other _ _ _ _ _ (below_not_made dst t Hne) Hm). exact Hd.
Qed.

(** A move of a file whose target is then read as a file is a rename. *)
Lemma move_file_then_read src dst fs fs' fs'' c0 c :
  fs !! src = Some (File c0) ->
  move src dst fs = (fs', inr tt) ->
  read_file dst fs' = (fs'', inr c) ->
  fs' = <[dst := File c0]> (delete src fs) /\ c = PyStr.universal_newlines c0.
Proof.
  intros Hs Hm Hr. apply read_file_ok in Hr as [_ (cr & Hr & ->)].
  unfold move in Hm. rewrite Hs in Hm.
  destruct (isdir fs dst) eqn:Hdd; simpl in Hm.
  - apply isdir_true in Hdd.
    destruct (String.eqb_spec src dst) as [->|Heq]; [congruence|].
    set (real := os_path_join dst (basename src)) in *.
    destruct (path_exists fs real) eqn:Hex; [discriminate|].
    assert (Hreal : fs !! real = None).
    { unfold path_exists in Hex. destruct (fs !! real); [discriminate|auto]. }
    assert (Hne : real <> dst) by (intros E; rewrite E in Hreal; congruence).
    destruct (negb (parent_is_dir fs real)); [discriminate|].
    rewrite Hreal in Hm. inversion Hm; subst.
    rewrite lookup_insert_ne in Hr by exact Hne.
    rewrite lookup_delete_ne in Hr by exact Heq. congruence.
  - apply isdir_false in Hdd.
    destruct (negb (parent_is_dir fs dst)); [discriminate|].
    assert (Hfs : fs' = <[dst := File c0]> (delete src fs)).
    { destruct (fs !! dst) as [[c1|]|]; inversion Hm; subst; auto. }
    split; [exact Hfs|]. subst fs'. rewrite lookup_insert_eq in Hr. congruence.
Qed.
End Copy.

(** ** Generating: what is refused, and what is left *)

(** X10: generate refuses a plugin type other than game and game_agent, an
    empty name, and for a game a platform other than steam, executable and
    web_browser (the name is checked first); in each case the exception is
    raised before anything is copied, and the file system is as it was. *)
Theorem generate_rejects_invalid_input
    (i : Install) (plugin_type name game_platform : string) (fs : FS) :
  (plugin_type <> "game" -> plugin_type <> "game_agent" ->
   generate i plugin_type name game_platform fs
   = (fs, inl (Exception ("'" +:+ plugin_type +:+ "' is not a valid plugin type..."))))
  /\ generate i "game" EmptyString game_platform fs
     = (fs, inl (Exception "Invalid game name."))
  /\ (name <> EmptyString ->
      PyStr.mem game_platform ["steam"; "executable"; "web_browser"] = false ->
      generate i "game" name game_platform fs
      = (fs, inl (Exception "Invalid game platform.")))
  /\ generate i "game_agent" EmptyString game_platform fs
     = (fs, inl (Exception "Invalid game agent name.")).
Proof.
  split; [|split; [|split]]; try reflexivity.
  - intros Hg Ha. apply String.eqb_neq in Hg, Ha.
    unfold generate. rewrite Hg, Ha. reflexivity.
  - intros Hn Hp. unfold generate. rewrite String.eqb_refl.
    unfold generate_game_plugin.
    assert (Hm : PyStr.mem name [EmptyString] = false)
      by (destruct name; [contradiction|reflexivity]).
    rewrite Hm, Hp. reflexivity.
Qed.

Lemma generate_rejects_invalid_input_witness :
  generate foo_install "game" "Foo" "Steam" foo_fs
  = (foo_fs, inl (Exception "Invalid game platform.")).
Proof.
  destruct (generate_rejects_invalid_input foo_install "game" "Foo" "Steam" foo_fs)
    as (_ & _ & H & _).
  apply H; [discriminate|reflexivity].
Defined.

(** X11: when the template directory of the package is not there, the
    generation of a game plugin and of a game agent plugin fails with
    FileNotFoundError for the template, also when the destination exists,
    and the file system is as it was. *)
Theorem template_missing (i : Install) (name game_platform : string) (fs : FS) :
  (fs !! game_plugin_template i = None ->
   prepare_game_plugin i name game_platform fs
   = (fs, inl (FileNotFoundError (game_plugin_template i))))
  /\ (fs !! game_agent_plugin_template i = None ->
      prepare_game_agent_plugin i name fs
      = (fs, inl (FileNotFoundError (game_agent_plugin_template i)))).
Proof.
  split; intros H.
  - unfold prepare_game_plugin, mbind, FsM_bind, copytree. rewrite H. reflexivity.
  - unfold prepare_game_agent_plugin, mbind, FsM_bind, copytree. rewrite H.
    reflexivity.
Qed.

Lemma template_missing_witness :
  prepare_game_agent_plugin foo_install "Bot" foo_fs
  = (foo_fs, inl (FileNotFoundError "/opt/serpent/templates/SerpentGameAgentPlugin")).
Proof.
  destruct (template_missing foo_install "Bot" "steam" foo_fs) as (_ & H).
  apply H. vm_compute. reflexivity.
Defined.

Section Generated.
#[local] Arguments String.append : simpl nomatch.

Lemma app_ne d a b : a <> b -> d +:+ a <> d +:+ b.
Proof. intros Hne H. apply Hne. exact (inj (String.append d) _ _ H). Qed.

Lemma renamed_game_file_differs name :
  "/files/serpent_game.py" <> "/files/serpent_" +:+ name +:+ "_game.py".
Proof.
  intros H. apply (f_equal String.length) in H.
  rewrite !length_app_str in H. simpl in H. lia.
Qed.

Lemma renamed_agent_file_differs name :
  "/files/serpent_game_agent.py" <> "/files/serpent_" +:+ name +:+ "_game_agent.py".
Proof.
  intros H. apply (f_equal String.length) in H.
  rewrite !length_app_str in H. simpl in H. lia.
Qed.

(** What a successful [prepare_game_plugin] leaves at the destination,
    from the three files of the template as they are read. *)
Lemma prepare_game_plugin_contents
    (i : Install) (game_name game_platform : string) (fs fs' : FS)
    (c_plugin c_game c_api : string) :
  fs !! (game_plugin_template i +:+ "/plugin.py") = Some (File c_plugin) ->
  fs !! (game_plugin_template i +:+ "/files/serpent_game.py") = Some (File c_game) ->
  fs !! (game_plugin_template i +:+ "/files/api/api.py") = Some (File c_api) ->
  fs !! (game_plugin_destination i game_name +:+ "/plugin.py") = None ->
  fs !! (game_plugin_destination i game_name +:+ "/files/serpent_game.py") = None ->
  fs !! (game_plugin_destination i game_name +:+ "/files/api/api.py") = None ->
  prepare_game_plugin i game_name game_platform fs = (fs', inr tt) ->
  fs' !! (game_plugin_destination i game_name +:+ "/plugin.py")
  = Some (File (PyStr.replace "serpent_game.py" ("serpent_" +:+ game_name +:+ "_game.py")
                  (PyStr.replace "SerpentGamePlugin"
                     ("Serpent" +:+ game_name +:+ "GamePlugin")
                     (PyStr.universal_newlines c_plugin))))
  /\ fs' !! (game_plugin_destination i game_name
               +:+ "/files/serpent_" +:+ game_name +:+ "_game.py")
     = Some (File (rewrite_game_file game_name game_platform
                     (PyStr.universal_newlines c_game)))
  /\ fs' !! (game_plugin_destination i game_name +:+ "/files/serpent_game.py") = None
  /\ fs' !! (game_plugin_destination i game_name +:+ "/files/api/api.py")
     = Some (File (PyStr.replace "MyGameAPI" (game_name +:+ "API")
                     (PyStr.universal_newlines c_api))).
Proof.
  intros Hp Hg Ha Hdp Hdg Hda.
  unfold prepare_game_plugin, mbind, FsM_bind. rewrite !replace_sep.
  set (dst := game_plugin_destination i game_name) in *.
  set (src := game_plugin_template i) in *.
  destruct (copytree src dst fs) as [fs1 [e|[]]] eqn:H1; [discriminate|].
  pose proof (copytree_copies _ _ _ _ "/plugin.py" _ H1 eq_refl Hp Hdp) as Hp1.
  pose proof (copytree_copies _ _ _ _ "/files/serpent_game.py" _ H1 eq_refl Hg Hdg)
    as Hg1.
  pose proof (copytree_copies _ _ _ _ "/files/api/api.py" _ H1 eq_refl Ha Hda) as Ha1.
  unfold read_file at 1. rewrite Hp1.
  match goal with
  | |- context [write_file ?p ?c fs1] =>
      destruct (write_file p c fs1) as [fs2 [e|[]]] eqn:H3; [discriminate|]
  end.
  apply write_file_eq in H3.
  assert (Hg2 : fs2 !! (dst +:+ "/files/serpent_game.py") = Some (File c_game)).
  { subst fs2. rewrite lookup_insert_ne; [exact Hg1|]. apply app_ne. discriminate. }
  match goal with
  | |- context [move ?a ?b fs2] =>
      destruct (move a b fs2) as [fs3 [e|[]]] eqn:H4; [discriminate|]
  end.
  match goal with
  | |- context [read_file ?p fs3] =>
      destruct (read_file p fs3) as [fs3' [e|c2]] eqn:H5; [discriminate|]
  end.
  destruct (move_file_then_read _ _ _ _ _ _ _ Hg2 H4 H5) as [Hfs3 ->].
  apply read_file_ok in H5 as [-> _].
  match goal with
  | |- context [write_file ?p ?c fs3] =>
      destruct (write_file p c fs3) as [fs4 [e|[]]] eqn:H6; [discriminate|]
  end.
  apply write_file_eq in H6.
  match goal with
  | |- context [read_file ?p fs4] =>
      destruct (read_file p fs4) as [fs4' [e|r3]] eqn:H7; [discriminate|]
  end.
  apply read_file_ok in H7 as [-> (c3 & H7 & ->)].
  intros H8. apply write_file_eq in H8.
  assert (Npo : dst +:+ "/plugin.py" <> dst +:+ "/files/serpent_game.py")
    by (apply app_ne; discriminate).
  assert (Npn : dst +:+ "/plugin.py"
                <> dst +:+ "/files/serpent_" +:+ game_name +:+ "_game.py")
    by (apply app_ne; discriminate).
  assert (Npa : dst +:+ "/plugin.py" <> dst +:+ "/files/api/api.py")
    by (apply app_ne; discriminate).
  assert (Non : dst +:+ "/files/serpent_game.py"
                <> dst +:+ "/files/serpent_" +:+ game_name +:+ "_game.py")
    by (apply app_ne, renamed_game_file_differs).
  assert (Noa : dst +:+ "/files/serpent_game.py" <> dst +:+ "/files/api/api.py")
    by (apply app_ne; discriminate).
  assert (Nna : dst +:+ "/files/serpent_" +:+ game_name +:+ "_game.py"
                <> dst +:+ "/files/api/api.py")
    by (apply app_ne; discriminate).
  assert (Hc3 : c3 = c_api).
  { subst fs4 fs3 fs2.
    rewrite lookup_insert_ne in H7 by exact Nna.
    rewrite lookup_insert_ne in H7 by exact Nna.
    rewrite lookup_delete_ne in H7 by exact Noa.
    rewrite lookup_insert_ne in H7 by exact Npa.
    congruence. }
  subst c3 fs' fs4 fs3 fs2.
  split; [|split; [|split]].
  - rewrite lookup_insert_ne by congruence.
    rewrite lookup_insert_ne by congruence.
    rewrite lookup_insert_ne by congruence.
    rewrite lookup_delete_ne by congruence.
    apply lookup_insert_eq.
  - rewrite lookup_insert_ne by congruence.
    apply lookup_insert_eq.
  - rewrite lookup_insert_ne by congruence.
    rewrite lookup_insert_ne by congruence.
    rewrite lookup_insert_ne by congruence.
    apply lookup_delete_eq.
  - apply lookup_insert_eq.
Qed.

(** X12: when the generation of a game plugin succeeds from a template
    holding plugin.py, files/serpent_game.py and files/api/api.py, all in
    ASCII as the game name is, and nothing stood at these places of the
    destination, then the destination holds plugin.py with the plugin and
    file names substituted, the game file under its new name
    files/serpent_<game_name>_game.py with the contents that
    rewrite_game_file gives, no files/serpent_game.py any more, and api.py
    with the API class renamed; each of the three is made from the text of
    the template file as it is read, that is with its line ends read as
    line feeds. *)
Theorem prepare_game_plugin_files
    (i : Install) (game_name game_platform : string) (fs fs' : FS)
    (c_plugin c_game c_api : string) :
  PyStr.is_ascii game_name = true ->
  PyStr.is_ascii c_plugin = true ->
  PyStr.is_ascii c_game = true ->
  PyStr.is_ascii c_api = true ->
  fs !! (game_plugin_template i +:+ "/plugin.py") = Some (File c_plugin) ->
  fs !! (game_plugin_template i +:+ "/files/serpent_game.py") = Some (File c_game) ->
  fs !! (game_plugin_template i +:+ "/files/api/api.py") = Some (File c_api) ->
  fs !! (game_plugin_destination i game_name +:+ "/plugin.py") = None ->
  fs !! (game_plugin_destination i game_name +:+ "/files/serpent_game.py") = None ->
  fs !! (game_plugin_destination i game_name +:+ "/files/api/api.py") = None ->
  prepare_game_plugin i game_name game_platform fs = (fs', inr tt) ->
  fs' !! (game_plugin_destination i game_name +:+ "/plugin.py")
  = Some (File (PyStr.replace "serpent_game.py" ("serpent_" +:+ game_name +:+ "_game.py")
                  (PyStr.replace "SerpentGamePlugin"
                     ("Serpent" +:+ game_name +:+ "GamePlugin")
                     (PyStr.universal_newlines c_plugin))))
  /\ fs' !! (game_plugin_destination i game_name
               +:+ "/files/serpent_" +:+ game_name +:+ "_game.py")
     = Some (File (rewrite_game_file game_name game_platform
                     (PyStr.universal_newlines c_game)))
  /\ fs' !! (game_plugin_destination i game_name +:+ "/files/serpent_game.py") = None
  /\ fs' !! (game_plugin_destination i game_name +:+ "/files/api/api.py")
     = Some (File (PyStr.replace "MyGameAPI" (game_name +:+ "API")
                     (PyStr.universal_newlines c_api))).
Proof.
  intros _ _ _ _. apply prepare_game_plugin_contents.
Qed.
End Generated.

Lemma foo_generation_succeeds :
  prepare_game_plugin foo_install "Foo" "steam" foo_fs = (foo_fs_generated, inr tt).
Proof.
  unfold foo_fs_generated.
  assert (Hr : (prepare_game_plugin foo_install "Foo" "steam" foo_fs).2 = inr tt)
    by (vm_compute; reflexivity).
  destruct (prepare_game_plugin foo_install "Foo" "steam" foo_fs) as [f r].
  simpl in *. rewrite Hr. reflexivity.
Qed.

Lemma prepare_game_plugin_files_witness :
  foo_fs_generated !! "plugins/SerpentFooGamePlugin/files/serpent_Foo_game.py"
  = Some (File (rewrite_game_file "Foo" "steam"
                  (PyStr.universal_newlines foo_game_template)))
  /\ foo_fs_generated !! "plugins/SerpentFooGamePlugin/files/serpent_game.py" = None.
Proof.
  assert (Hp : foo_fs !! (game_plugin_template foo_install +:+ "/plugin.py")
               = Some (File "class SerpentGamePlugin: files = ['serpent_game.py']"))
    by (vm_compute; reflexivity).
  assert (Hg : foo_fs !! (game_plugin_template foo_install
                            +:+ "/files/serpent_game.py")
               = Some (File foo_game_template))
    by (vm_compute; reflexivity).
  assert (Ha : foo_fs !! (game_plugin_template foo_install +:+ "/files/api/api.py")
               = Some (File "class MyGameAPI:"))
    by (vm_compute; reflexivity).
  assert (Hdp : foo_fs !! (game_plugin_destination foo_install "Foo" +:+ "/plugin.py")
                = None)
    by (vm_compute; reflexivity).
  assert (Hdg : foo_fs !! (game_plugin_destination foo_install "Foo"
                             +:+ "/files/serpent_game.py") = None)
    by (vm_compute; reflexivity).
  assert (Hda : foo_fs !! (game_plugin_destination foo_install "Foo"
                             +:+ "/files/api/api.py") = None)
    by (vm_compute; reflexivity).
  destruct (prepare_game_plugin_files foo_install "Foo" "steam" foo_fs
              foo_fs_generated
              "class SerpentGamePlugin: files = ['serpent_game.py']"
              foo_game_template "class MyGameAPI:"
              eq_refl eq_refl eq_refl eq_refl
              Hp Hg Ha Hdp Hdg Hda foo_generation_succeeds)
    as (_ & Hgame & Hold & _).
  split; [exact Hgame|exact Hold].
Defined.

(** ** Game agent plugins *)

Section GeneratedAgent.
#[local] Arguments String.append : simpl nomatch.

Lemma prepare_game_agent_plugin_ok i name fs fs' :
  prepare_game_agent_plugin i name fs = (fs', inr tt) ->
  fs' !! game_agent_plugin_template i = Some Dir
  /\ fs' !! game_agent_plugin_destination i name = Some Dir.
Proof.
  unfold prepare_game_agent_plugin, mbind, FsM_bind.
  set (dst := game_agent_plugin_destination i name).
  set (src := game_agent_plugin_template i).
  destruct (copytree src dst fs) as [fs1 [e|[]]] eqn:H1; [discriminate|].
  apply copytree_ok in H1 as [Hsrc Hdst].
  match goal with
  | |- context [read_file ?p fs1] =>
      destruct (read_file p fs1) as [fs1' [e|c1]] eqn:H2; [discriminate|]
  end.
  apply read_file_ok in H2 as [-> _].
  match goal with
  | |- context [write_file ?p ?c fs1] =>
      destruct (write_file p c fs1) as [fs2 [e|[]]] eqn:H3; [discriminate|]
  end.
  apply write_file_ok in H3.
  match goal with
  | |- context [move ?a ?b fs2] =>
      destruct (move a b fs2) as [fs3 [e|[]]] eqn:H4; [discriminate|]
  end.
  match goal with
  | |- context [read_file ?p fs3] =>
      destruct (read_file p fs3) as [fs3' [e|c2]] eqn:H5; [discriminate|]
  end.
  pose proof (move_then_read _ _ _ _ _ _ H4 H5) as H45.
  apply read_file_ok in H5 as [-> _].
  intros H6. apply write_file_ok in H6.
  split; apply H6, H45, H3; assumption.
Qed.

(** X13: the destination of a generated game agent plugin is the directory
    Serpent<name>GameAgentPlugin under the plugin directory; after a
    generation that succeeded, generating again under the same name fails
    with FileExistsError for that destination and leaves the file system as
    the first generation made it. *)
Theorem generate_game_agent_plugin_twice
    (i : Install) (game_agent_name : string) (fs fs' : FS) :
  prepare_game_agent_plugin i game_agent_name fs = (fs', inr tt) ->
  game_agent_plugin_destination i game_agent_name
  = plugins_path i +:+ "/Serpent" +:+ game_agent_name +:+ "GameAgentPlugin"
  /\ fs' !! game_agent_plugin_destination i game_agent_name = Some Dir
  /\ prepare_game_agent_plugin i game_agent_name fs'
     = (fs', inl (FileExistsError
                    (plugins_path i +:+ "/Serpent" +:+ game_agent_name
                       +:+ "GameAgentPlugin")))
  /\ (game_agent_name <> EmptyString ->
      generate i "game_agent" game_agent_name EmptyString fs'
      = (fs', inl (FileExistsError
                     (plugins_path i +:+ "/Serpent" +:+ game_agent_name
                        +:+ "GameAgentPlugin")))).
Proof.
  intros H. apply prepare_game_agent_plugin_ok in H as [Hsrc Hdst].
  assert (Hd : game_agent_plugin_destination i game_agent_name
               = plugins_path i +:+ "/Serpent" +:+ game_agent_name
                   +:+ "GameAgentPlugin")
    by apply replace_sep.
  assert (H2 : prepare_game_agent_plugin i game_agent_name fs'
               = (fs', inl (FileExistsError
                              (game_agent_plugin_destination i game_agent_name)))).
  { unfold prepare_game_agent_plugin, mbind, FsM_bind.
    rewrite (copytree_exists _ _ _ Dir Hsrc Hdst). reflexivity. }
  split; [exact Hd|]. split; [exact Hdst|]. rewrite <- Hd.
  split; [exact H2|].
  intros Hn.
  assert (Hm : PyStr.mem game_agent_name [EmptyString] = false)
    by (destruct game_agent_name; [contradiction|reflexivity]).
  change (generate i "game_agent" game_agent_name EmptyString)
    with (generate_game_agent_plugin i game_agent_name).
  unfold generate_game_agent_plugin. rewrite Hm. exact H2.
Qed.

Lemma agent_generation_succeeds :
  prepare_game_agent_plugin foo_install "Bot" agent_fs = (agent_fs_generated, inr tt).
Proof.
  unfold agent_fs_generated.
  assert (Hr : (prepare_game_agent_plugin foo_install "Bot" agent_fs).2 = inr tt)
    by (vm_compute; reflexivity).
  destruct (prepare_game_agent_plugin foo_install "Bot" agent_fs) as [f r].
  simpl in *. rewrite Hr. reflexivity.
Qed.

Lemma generate_game_agent_plugin_twice_witness :
  prepare_game_agent_plugin foo_install "Bot" agent_fs_generated
  = (agent_fs_generated, inl (FileExistsError "plugins/SerpentBotGameAgentPlugin")).
Proof.
  destruct (generate_game_agent_plugin_twice foo_install "Bot" agent_fs
              agent_fs_generated agent_generation_succeeds) as (_ & _ & H & _).
  exact H.
Defined.

(** X14: when the generation of a game agent plugin succeeds from a
    template holding plugin.py and files/serpent_game_agent.py, both in
    ASCII as the agent name is, and nothing stood at these places of the
    destination, then the destination holds plugin.py with the plugin and
    file names substituted, the agent file under its new name
    files/serpent_<name>_game_agent.py with the class renamed, and no
    files/serpent_game_agent.py any more; both are made from the text of
    the template file as it is read, that is with its line ends read as
    line feeds. *)
Theorem prepare_game_agent_plugin_files
    (i : Install) (game_agent_name : string) (fs fs' : FS)
    (c_plugin c_agent : string) :
  PyStr.is_ascii game_agent_name = true ->
  PyStr.is_ascii c_plugin = true ->
  PyStr.is_ascii c_agent = true ->
  fs !! (game_agent_plugin_template i +:+ "/plugin.py") = Some (File c_plugin) ->
  fs !! (game_agent_plugin_template i +:+ "/files/serpent_game_agent.py")
  = Some (File c_agent) ->
  fs !! (game_agent_plugin_destination i game_agent_name +:+ "/plugin.py") = None ->
  fs !! (game_agent_plugin_destination i game_agent_name
           +:+ "/files/serpent_game_agent.py") = None ->
  prepare_game_agent_plugin i game_agent_name fs = (fs', inr tt) ->
  fs' !! (game_agent_plugin_destination i game_agent_name +:+ "/plugin.py")
  = Some (File (PyStr.replace "serpent_game_agent.py"
                  ("serpent_" +:+ game_agent_name +:+ "_game_agent.py")
                  (PyStr.replace "SerpentGameAgentPlugin"
                     ("Serpent" +:+ game_agent_name +:+ "GameAgentPlugin")
                     (PyStr.universal_newlines c_plugin))))
  /\ fs' !! (game_agent_plugin_destination i game_agent_name
               +:+ "/files/serpent_" +:+ game_agent_name +:+ "_game_agent.py")
     = Some (File (PyStr.replace "SerpentGameAgent"
                     ("Serpent" +:+ game_agent_name +:+ "GameAgent")
                     (PyStr.universal_newlines c_agent)))
  /\ fs' !! (game_agent_plugin_destination i game_agent_name
               +:+ "/files/serpent_game_agent.py") = None.
Proof.
  intros _ _ _.
  intros Hp Hg Hdp Hdg.
  unfold prepare_game_agent_plugin, mbind, FsM_bind.
  set (dst := game_agent_plugin_destination i game_agent_name) in *.
  set (src := game_agent_plugin_template i) in *.
  destruct (copytree src dst fs) as [fs1 [e|[]]] eqn:H1; [discriminate|].
  pose proof (copytree_copies _ _ _ _ "/plugin.py" _ H1 eq_refl Hp Hdp) as Hp1.
  pose proof (copytree_copies _ _ _ _ "/files/serpent_game_agent.py" _ H1 eq_refl
                Hg Hdg) as Hg1.
  unfold read_file at 1. rewrite Hp1.
  match goal with
  | |- context [write_file ?p ?c fs1] =>
      destruct (write_file p c fs1) as [fs2 [e|[]]] eqn:H3; [discriminate|]
  end.
  apply write_file_eq in H3.
  assert (Hg2 : fs2 !! (dst +:+ "/files/serpent_game_agent.py")
                = Some (File c_agent)).
  { subst fs2. rewrite lookup_insert_ne; [exact Hg1|]. apply app_ne. discriminate. }
  match goal with
  | |- context [move ?a ?b fs2] =>
      destruct (move a b fs2) as [fs3 [e|[]]] eqn:H4; [discriminate|]
  end.
  match goal with
  | |- context [read_file ?p fs3] =>
      destruct (read_file p fs3) as [fs3' [e|c2]] eqn:H5; [discriminate|]
  end.
  destruct (move_file_then_read _ _ _ _ _ _ _ Hg2 H4 H5) as [Hfs3 ->].
  apply read_file_ok in H5 as [-> _].
  intros H6. apply write_file_eq in H6.
  assert (Npo : dst +:+ "/plugin.py" <> dst +:+ "/files/serpent_game_agent.py")
    by (apply app_ne; discriminate).
  assert (Npn : dst +:+ "/plugin.py"
                <> dst +:+ "/files/serpent_" +:+ game_agent_name +:+ "_game_agent.py")
    by (apply app_ne; discriminate).
  assert (Non : dst +:+ "/files/serpent_game_agent.py"
                <> dst +:+ "/files/serpent_" +:+ game_agent_name +:+ "_game_agent.py")
    by (apply app_ne, renamed_agent_file_differs).
  subst fs' fs3 fs2.
  split; [|split].
  - rewrite lookup_insert_ne by congruence.
    rewrite lookup_insert_ne by congruence.
    rewrite lookup_delete_ne by congruence.
    apply lookup_insert_eq.
  - apply lookup_insert_eq.
  - rewrite lookup_insert_ne by congruence.
    rewrite lookup_insert_ne by congruence.
    apply lookup_delete_eq.
Qed.
End GeneratedAgent.

Lemma prepare_game_agent_plugin_files_witness :
  agent_fs_generated
    !! "plugins/SerpentBotGameAgentPlugin/files/serpent_Bot_game_agent.py"
  = Some (File "class SerpentBotGameAgent(GameAgent):").
Proof.
  assert (Hp : agent_fs !! (game_agent_plugin_template foo_install +:+ "/plugin.py")
               = Some (File "class SerpentGameAgentPlugin: files = ['serpent_game_agent.py']"))
    by (vm_compute; reflexivity).
  assert (Hg : agent_fs !! (game_agent_plugin_template foo_install
                              +:+ "/files/serpent_game_agent.py")
               = Some (File "class SerpentGameAgent(GameAgent):"))
    by (vm_compute; reflexivity).
  assert (Hdp : agent_fs !! (game_agent_plugin_destination foo_install "Bot"
                               +:+ "/plugin.py") = None)
    by (vm_compute; reflexivity).
  assert (Hdg : agent_fs !! (game_agent_plugin_destination foo_install "Bot"
                               +:+ "/files/serpent_game_agent.py") = None)
    by (vm_compute; reflexivity).
  destruct (prepare_game_agent_plugin_files foo_install "Bot" agent_fs
              agent_fs_generated
              "class SerpentGameAgentPlugin: files = ['serpent_game_agent.py']"
              "class SerpentGameAgent(GameAgent):"
              eq_refl eq_refl eq_refl
              Hp Hg Hdp Hdg agent_generation_succeeds)
    as (_ & Hagent & _).
  exact Hagent.
Defined.

(** ** The game file for each platform *)

Section Platforms.
#[local] Arguments String.append : simpl nomatch.

Lemma replace_absent old new : forall s,
  old <> EmptyString ->
  PyStr.contains old s = false ->
  PyStr.replace old new s = s.
Proof.
  intros s Hne. destruct old as [|c old]; [contradiction|].
  unfold PyStr.replace. induction s as [|x s IH]; intros H; [reflexivity|].
  rewrite replace_scan_step.
  change (PyStr.contains (String c old) (String x s))
    with (PyStr.startswith (String c old) (String x s)
          || PyStr.contains (String c old) s) in H.
  apply orb_false_iff in H as [Hs Hc]. rewrite Hs, (IH Hc). reflexivity.
Qed.

Lemma game_file_newline game_name game_platform a b :
  rewrite_game_file game_name game_platform (a +:+ String "010" b)
  = rewrite_game_file game_name game_platform a
      +:+ String "010" (rewrite_game_file game_name game_platform b).
Proof.
  unfold rewrite_game_file, rewrite_platform.
  destruct (String.eqb game_platform "steam");
    [|destruct (String.eqb game_platform "executable");
      [|destruct (String.eqb game_platform "web_browser")]];
    repeat (rewrite replace_newline; [|solve_old|solve_old]); reflexivity.
Qed.

Lemma game_file_indent game_name game_platform indent s :
  only_spaces indent = true ->
  rewrite_game_file game_name game_platform (indent +:+ s)
  = indent +:+ rewrite_game_file game_name game_platform s.
Proof.
  intros Hi. unfold rewrite_game_file, rewrite_platform.
  destruct (String.eqb game_platform "steam");
    [|destruct (String.eqb game_platform "executable");
      [|destruct (String.eqb game_platform "web_browser")]];
    repeat (rewrite replace_indent; [|solve_old|solve_old|solve_old]);
    reflexivity.
Qed.

Ltac solve_member :=
  solve [ vm_compute;
          repeat first [ apply list_elem_of_here | apply list_elem_of_further ] ].

(** X15: for each of the three platforms the game file is rewritten line
    by line; a line of the template that serves another platform, written
    after its indentation, is left holding the indentation alone, a line
    that serves the chosen platform is left as it is, and the PLATFORM
    placeholder line is rewritten with the name of the platform: steam
    keeps app_id and app_args, executable keeps executable_path, and
    web_browser keeps the import of WebBrowser, url and browser. *)
Theorem platform_lines_kept_or_blanked
    (game_name game_platform indent : string) :
  PyStr.mem game_platform ["steam"; "executable"; "web_browser"] = true ->
  only_spaces indent = true ->
  (forall a b,
     rewrite_game_file game_name game_platform (a +:+ newline +:+ b)
     = rewrite_game_file game_name game_platform a
         +:+ newline +:+ rewrite_game_file game_name game_platform b)
  /\ (forall line,
        line ∈ other_platform_lines game_platform ->
        rewrite_game_file game_name game_platform (indent +:+ line) = indent)
  /\ (forall line,
        line ∈ platform_lines ->
        line ∉ other_platform_lines game_platform ->
        rewrite_game_file game_name game_platform (indent +:+ line)
        = indent +:+ line)
  /\ rewrite_game_file game_name game_platform
       (indent +:+ PyStr.dq "kwargs['platform'] = 'PLATFORM'")
     = indent +:+ PyStr.dq "kwargs['platform'] = '" +:+ game_platform
         +:+ PyStr.dq "'".
Proof.
  intros Hm Hi.
  split; [intros a b; apply game_file_newline|].
  assert (Hcases : game_platform = "steam" \/ game_platform = "executable"
                   \/ game_platform = "web_browser").
  { apply mem_In in Hm. simpl in Hm. intuition. }
  split; [|split].
  - intros line Hl. rewrite (game_file_indent _ _ _ _ Hi).
    rewrite <- (app_empty_r indent) at 2. f_equal.
    destruct Hcases as [->|[->| ->]]; vm_compute in Hl;
      repeat (apply elem_of_cons in Hl as [->|Hl]; [vm_compute; reflexivity|]);
      by apply elem_of_nil in Hl.
  - intros line Hl Hn. rewrite (game_file_indent _ _ _ _ Hi). f_equal.
    destruct Hcases as [->|[->| ->]]; vm_compute in Hl;
      repeat (apply elem_of_cons in Hl as [->|Hl];
              [first [ solve [vm_compute; reflexivity]
                     | exfalso; apply Hn; solve_member ]|]);
      by apply elem_of_nil in Hl.
  - rewrite (game_file_indent _ _ _ _ Hi).
    destruct Hcases as [->|[->| ->]]; reflexivity.
Qed.

Lemma platform_lines_kept_or_blanked_witness :
  rewrite_game_file "Foo" "web_browser" ("        " +:+ line_app_id) = "        "
  /\ rewrite_game_file "Foo" "web_browser" ("        " +:+ line_url)
     = "        " +:+ line_url.
Proof.
  destruct (platform_lines_kept_or_blanked "Foo" "web_browser" "        "
              eq_refl eq_refl) as (_ & Hb & Hk & _).
  split.
  - apply Hb. vm_compute. apply list_elem_of_here.
  - apply Hk.
    + vm_compute. do 4 apply list_elem_of_further. apply list_elem_of_here.
    + vm_compute. intros H.
      repeat (apply elem_of_cons in H as [H|H]; [discriminate|]).
      by apply elem_of_nil in H.
Defined.

(** X16: a game file that holds none of the tokens the generator looks
    for (the names SerpentGame and MyGameAPI, PLATFORM, and the lines of
    the platforms) is written back unchanged, for every game name and
    platform: the replacements leave its text as it is, and a generation
    that succeeds from a template with such a game file, in ASCII as the
    game name is, leaves at files/serpent_<game_name>_game.py of the
    destination the text that was read. *)
Theorem game_file_without_tokens_unchanged
    (game_name game_platform contents : string) :
  (forall token, token ∈ game_file_tokens -> PyStr.contains token contents = false) ->
  rewrite_game_file game_name game_platform contents = contents
  /\ (forall (i : Install) (fs fs' : FS) (c_plugin c_game c_api : string),
        PyStr.is_ascii game_name = true ->
        PyStr.is_ascii c_game = true ->
        PyStr.universal_newlines c_game = contents ->
        fs !! (game_plugin_template i +:+ "/plugin.py") = Some (File c_plugin) ->
        fs !! (game_plugin_template i +:+ "/files/serpent_game.py")
        = Some (File c_game) ->
        fs !! (game_plugin_template i +:+ "/files/api/api.py") = Some (File c_api) ->
        fs !! (game_plugin_destination i game_name +:+ "/plugin.py") = None ->
        fs !! (game_plugin_destination i game_name +:+ "/files/serpent_game.py")
        = None ->
        fs !! (game_plugin_destination i game_name +:+ "/files/api/api.py") = None ->
        prepare_game_plugin i game_name game_platform fs = (fs', inr tt) ->
        fs' !! (game_plugin_destination i game_name
                  +:+ "/files/serpent_" +:+ game_name +:+ "_game.py")
        = Some (File contents)
        /\ fs' !! (game_plugin_destination i game_name +:+ "/files/serpent_game.py")
           = None).
Proof.
  intros H.
  assert (Hsame : rewrite_game_file game_name game_platform contents = contents).
  { assert (Ht : Forall (fun token => PyStr.contains token contents = false)
                   game_file_tokens)
      by (apply Forall_forall; exact H).
    unfold game_file_tokens, platform_lines in Ht. simpl in Ht.
    repeat match type of Ht with
           | Forall _ (_ :: _) =>
               let Hx := fresh "Hx" in
               apply Forall_cons in Ht as [Hx Ht]
           end.
    unfold rewrite_game_file, rewrite_platform.
    destruct (String.eqb game_platform "steam");
      [|destruct (String.eqb game_platform "executable");
        [|destruct (String.eqb game_platform "web_browser")]];
      repeat (rewrite (replace_absent _ _ contents); [|solve_old|assumption]);
      reflexivity. }
  split; [exact Hsame|].
  intros i fs fs' c_plugin c_game c_api _ _ Hc Hp Hg Ha Hdp Hdg Hda Hrun.
  destruct (prepare_game_plugin_contents i game_name game_platform fs fs'
              c_plugin c_game c_api Hp Hg Ha Hdp Hdg Hda Hrun)
    as (_ & Hnew & Hold & _).
  rewrite Hc, Hsame in Hnew. split; [exact Hnew|exact Hold].
Qed.

Lemma plain_generation_succeeds :
  prepare_game_plugin foo_install "Foo" "steam" plain_fs = (plain_fs_generated, inr tt).
Proof.
  unfold plain_fs_generated.
  assert (Hr : (prepare_game_plugin foo_install "Foo" "steam" plain_fs).2 = inr tt)
    by (vm_compute; reflexivity).
  destruct (prepare_game_plugin foo_install "Foo" "steam" plain_fs) as [f r].
  simpl in *. rewrite Hr. reflexivity.
Qed.

Lemma game_file_without_tokens_unchanged_witness :
  rewrite_game_file "Foo" "steam" "import os" = "import os"
  /\ plain_fs_generated !! "plugins/SerpentFooGamePlugin/files/serpent_Foo_game.py"
     = Some (File "import os")
  /\ plain_fs_generated !! "plugins/SerpentFooGamePlugin/files/serpent_game.py" = None.
Proof.
  assert (Ht : forall token, token ∈ game_file_tokens ->
                 PyStr.contains token "import os" = false).
  { intros token H. vm_compute in H.
    repeat (apply elem_of_cons in H as [->|H]; [vm_compute; reflexivity|]).
    by apply elem_of_nil in H. }
  destruct (game_file_without_tokens_unchanged "Foo" "steam" "import os" Ht)
    as [Hs Hf].
  split; [exact Hs|].
  apply (Hf foo_install plain_fs plain_fs_generated
           "class SerpentGamePlugin: files = ['serpent_game.py']"
           "import os" "class MyGameAPI:" eq_refl eq_refl eq_refl).
  - vm_compute; reflexivity.
  - vm_compute; reflexivity.
  - vm_compute; reflexivity.
  - vm_compute; reflexivity.
  - vm_compute; reflexivity.
  - vm_compute; reflexivity.
  - exact plain_generation_succeeds.
Defined.
End Platforms.

(** * Further properties: update and plugins *)

(** ** The configuration merge of update *)

Section UpdateConfig.
Context {V : Type}.
Implicit Types (serpent_config user_config : gmap string V).

Lemma update_config_spec serpent_config user_config :
  (update_config serpent_config user_config).1 = user_config ∪ serpent_config
  /\ ((update_config serpent_config user_config).2 = true
      <-> exists key, is_Some (serpent_config !! key) /\ user_config !! key = None).
Proof.
  unfold update_config.
  apply (map_fold_weak_ind
           (fun (r : gmap string V * bool) (m : gmap string V) =>
              r.1 = user_config ∪ m
              /\ (r.2 = true
                  <-> exists key, is_Some (m !! key) /\ user_config !! key = None))).
  - simpl. split.
    + by rewrite (right_id_L ∅ (∪)).
    + split; [discriminate|]. intros (key & [v Hv] & _).
      rewrite lookup_empty in Hv. discriminate.
  - intros key value m [u changed] Hm [Hu Hc]. simpl in *. subst u.
    rewrite lookup_union_l by exact Hm.
    destruct (user_config !! key) as [v|] eqn:Hk; simpl.
    + split.
      * apply map_eq. intros k. rewrite !lookup_union.
        destruct (decide (k = key)) as [->|Hne].
        -- rewrite lookup_insert_eq, Hk, Hm. reflexivity.
        -- rewrite lookup_insert_ne by congruence. reflexivity.
      * rewrite Hc. split; intros (k & Hs & Hn); exists k.
        -- split; [|exact Hn].
           rewrite lookup_insert_ne; [exact Hs|]. intros ->. congruence.
        -- split; [|exact Hn].
           rewrite lookup_insert_ne in Hs; [exact Hs|]. intros ->. congruence.
    + split.
      * apply insert_union_r, Hk.
      * split; [|reflexivity]. intros _. exists key. split; [|exact Hk].
        rewrite lookup_insert_eq. eauto.
Qed.

(** X17: the merge of update gives the user's configuration every key of
    the packaged configuration that it lacks, with the packaged value, and
    changes no value the user has; the configuration is marked as changed
    (and written back) exactly when some packaged key was missing; merging
    a second time changes nothing and marks nothing. *)
Theorem update_config_merge serpent_config user_config :
  (forall key value,
     user_config !! key = Some value ->
     (update_config serpent_config user_config).1 !! key = Some value)
  /\ (forall key,
        user_config !! key = None ->
        (update_config serpent_config user_config).1 !! key = serpent_config !! key)
  /\ ((update_config serpent_config user_config).2 = true
      <-> exists key, is_Some (serpent_config !! key) /\ user_config !! key = None)
  /\ update_config serpent_config (update_config serpent_config user_config).1
     = ((update_config serpent_config user_config).1, false).
Proof.
  destruct (update_config_spec serpent_config user_config) as [H1 H2].
  split; [|split; [|split]].
  - intros key value Hk. rewrite H1. apply lookup_union_Some_l, Hk.
  - intros key Hk. rewrite H1. apply lookup_union_r, Hk.
  - exact H2.
  - destruct (update_config_spec serpent_config
                (update_config serpent_config user_config).1) as [H3 H4].
    destruct (update_config serpent_config
                (update_config serpent_config user_config).1) as [u c].
    simpl in *. f_equal.
    + rewrite H3, H1. rewrite <- (assoc_L (∪)). by rewrite (idemp_L (∪)).
    + destruct c; [|reflexivity].
      destruct (proj1 H4 eq_refl) as (key & [v Hv] & Hn).
      rewrite H1 in Hn. apply lookup_union_None in Hn as [_ Hn]. congruence.
Qed.
End UpdateConfig.

Lemma update_config_merge_witness :
  (update_config (V := string)
     {[ "frame_grabber" := "30"; "redis" := "6379" ]}
     {[ "redis" := "7000" ]}).1 !! "redis" = Some "7000".
Proof.
  destruct (update_config_merge (V := string)
              {[ "frame_grabber" := "30"; "redis" := "6379" ]}
              {[ "redis" := "7000" ]}) as (H & _).
  apply H. vm_compute. reflexivity.
Defined.

(** ** The listing of plugins *)

Section Plugins.
#[local] Arguments String.append : simpl nomatch.

Lemma contains_slash_app a : forall b,
  PyStr.contains "/" (a +:+ b) = PyStr.contains "/" a || PyStr.contains "/" b.
Proof.
  induction a as [|x a IH]; intros b.
  - simpl. destruct b; reflexivity.
  - change (PyStr.contains "/" (String x a +:+ b))
      with (Ascii.eqb "/" x && true || PyStr.contains "/" (a +:+ b)).
    change (PyStr.contains "/" (String x a))
      with (Ascii.eqb "/" x && true || PyStr.contains "/" a).
    rewrite IH. apply orb_assoc.
Qed.

Lemma rev_app_app s1 : forall s2,
  String.rev_app s1 s2 = String.rev_app s1 EmptyString +:+ s2.
Proof.
  induction s1 as [|x s1 IH]; intros s2; [reflexivity|].
  simpl. rewrite (IH (String x s2)), (IH (String x EmptyString)).
  rewrite app_assoc_str. reflexivity.
Qed.

Lemma ancestors_go_prefix a rest : forall seen,
  a <> EmptyString \/ seen <> EmptyString ->
  String.rev seen +:+ a ∈ ancestors_go seen (a +:+ String "/" rest).
Proof.
  induction a as [|c a IH]; intros seen H.
  - destruct H as [H|H]; [contradiction|].
    change (EmptyString +:+ String "/" rest) with (String "/" rest).
    simpl. apply String.eqb_neq in H. rewrite H. simpl.
    rewrite app_empty_r. apply list_elem_of_here.
  - change (String c a +:+ String "/" rest)
      with (String c (a +:+ String "/" rest)).
    simpl. apply elem_of_app. right.
    assert (Hs : String c seen <> EmptyString) by discriminate.
    pose proof (IH (String c seen) (or_intror Hs)) as Hin.
    unfold String.rev in *. simpl in Hin.
    rewrite (rev_app_app seen (String c EmptyString)), app_assoc_str in Hin.
    exact Hin.
Qed.

(** A directory written before a separator of a path is one of the
    ancestors of the path. *)
Lemma ancestors_parent a rest :
  a <> EmptyString -> a ∈ ancestors (a +:+ "/" +:+ rest).
Proof.
  intros H. exact (ancestors_go_prefix a rest EmptyString (or_introl H)).
Qed.

Lemma copytree_made src dst fs fs' :
  copytree src dst fs = (fs', inr tt) ->
  forall a, a ∈ ancestors dst ++ [dst] -> fs' !! a = Some Dir.
Proof.
  unfold copytree, makedirs.
  destruct (fs !! src) as [[c|]|] eqn:Hs; try discriminate.
  destruct (fs !! dst) as [n|] eqn:Hd; [discriminate|].
  destruct (mkdir_all (ancestors dst ++ [dst]) fs) as [fs1 [e|[]]] eqn:Hm;
    [discriminate|].
  intros H a Ha. inversion H; subst.
  apply lookup_union_Some_l. eapply mkdir_all_made; eauto.
Qed.

(** A generation that succeeds keeps the directories that the copy of the
    template has made. *)
Lemma prepare_game_plugin_made i game_name game_platform fs fs' :
  prepare_game_plugin i game_name game_platform fs = (fs', inr tt) ->
  forall a,
    a ∈ ancestors (game_plugin_destination i game_name)
          ++ [game_plugin_destination i game_name] ->
    fs' !! a = Some Dir.
Proof.
  unfold prepare_game_plugin, mbind, FsM_bind.
  set (dst := game_plugin_destination i game_name).
  set (src := game_plugin_template i).
  destruct (copytree src dst fs) as [fs1 [e|[]]] eqn:H1; [discriminate|].
  pose proof (copytree_made _ _ _ _ H1) as Hmade.
  match goal with
  | |- context [read_file ?p fs1] =>
      destruct (read_file p fs1) as [fs1' [e|c1]] eqn:H2; [discriminate|]
  end.
  apply read_file_ok in H2 as [-> _].
  match goal with
  | |- context [write_file ?p ?c fs1] =>
      destruct (write_file p c fs1) as [fs2 [e|[]]] eqn:H3; [discriminate|]
  end.
  apply write_file_ok in H3.
  match goal with
  | |- context [move ?a ?b fs2] =>
      destruct (move a b fs2) as [fs3 [e|[]]] eqn:H4; [discriminate|]
  end.
  match goal with
  | |- context [read_file ?p fs3] =>
      destruct (read_file p fs3) as [fs3' [e|c2]] eqn:H5; [discriminate|]
  end.
  pose proof (move_then_read _ _ _ _ _ _ H4 H5) as H45.
  apply read_file_ok in H5 as [-> _].
  match goal with
  | |- context [write_file ?p ?c fs3] =>
      destruct (write_file p c fs3) as [fs4 [e|[]]] eqn:H6; [discriminate|]
  end.
  apply write_file_ok in H6.
  match goal with
  | |- context [read_file ?p fs4] =>
      destruct (read_file p fs4) as [fs4' [e|c3]] eqn:H7; [discriminate|]
  end.
  apply read_file_ok in H7 as [-> _].
  intros H8 a Ha. apply write_file_ok in H8.
  apply H8, H6, H45, H3, Hmade, Ha.
Qed.

(** What [subdirectories] lists: with [top] a directory, the names, not
    empty and without a separator, that are directories right under
    [top]. *)
Lemma subdirectories_spec fs top name :
  name ∈ subdirectories fs top
  <-> fs !! top = Some Dir
      /\ name <> EmptyString
      /\ PyStr.contains "/" name = false
      /\ fs !! (top +:+ "/" +:+ name) = Some Dir.
Proof.
  unfold subdirectories. destruct (isdir fs top) eqn:Ht.
  - apply isdir_true in Ht.
    rewrite elem_of_list_to_set, list_elem_of_omap. split.
    + intros ([k n] & Hin & Hf). cbn [fst snd] in Hf.
      destruct n as [c|]; [discriminate|].
      destruct (below top k
                && negb (PyStr.contains "/" (PyStr.drop (S (String.length top)) k))
                && negb (String.eqb (PyStr.drop (S (String.length top)) k)
                           EmptyString)) eqn:E; [|discriminate].
      injection Hf as <-.
      apply andb_true_iff in E as [E He]. apply andb_true_iff in E as [Hb Hc].
      apply negb_true_iff in Hc, He. apply String.eqb_neq in He.
      apply elem_of_map_to_list in Hin.
      split; [exact Ht|]. split; [exact He|]. split; [exact Hc|].
      unfold below in Hb. apply startswith_split in Hb.
      rewrite length_app_str in Hb. simpl in Hb. rewrite Nat.add_1_r in Hb.
      rewrite app_assoc_str in Hb.
      match goal with
      | |- fs !! ?x = _ =>
          assert (Hx : x = k) by (symmetry; exact Hb); rewrite Hx; exact Hin
      end.
    + intros (_ & Hne & Hc & Hk). exists (top +:+ "/" +:+ name, Dir). split.
      * apply elem_of_map_to_list, Hk.
      * cbn [fst snd]. rewrite (below_app top ("/" +:+ name) eq_refl).
        assert (Hd : PyStr.drop (S (String.length top)) (top +:+ "/" +:+ name)
                     = name).
        { clear. induction top as [|x top IH]; [destruct name; reflexivity|].
          exact IH. }
        rewrite Hd, Hc. apply String.eqb_neq in Hne. rewrite Hne. reflexivity.
  - apply isdir_false in Ht. split.
    + intros H. by apply not_elem_of_empty in H.
    + intros (Ht' & _). contradiction.
Qed.

(** X18: with the plugin directory there, plugins lists as active the
    names, not empty and without a separator, that are directories right
    under the plugin directory and that the manifest names, and as
    inactive those that the manifest does not name; it lists nothing else:
    no plain file, nothing deeper, no name of the manifest without its
    directory, and no name twice. A game plugin that has just been
    generated under a name without a slash is therefore listed, as
    inactive until the manifest names it. *)
Theorem plugins_listing
    (fs : FS) (plugins_dir : string) (manifest_plugin_names : gset string) :
  (forall name,
     name ∈ (plugins fs plugins_dir manifest_plugin_names).1
     <-> (fs !! plugins_dir = Some Dir
          /\ name <> EmptyString
          /\ PyStr.contains "/" name = false
          /\ fs !! (plugins_dir +:+ "/" +:+ name) = Some Dir)
         /\ name ∈ manifest_plugin_names)
  /\ (forall name,
        name ∈ (plugins fs plugins_dir manifest_plugin_names).2
        <-> (fs !! plugins_dir = Some Dir
             /\ name <> EmptyString
             /\ PyStr.contains "/" name = false
             /\ fs !! (plugins_dir +:+ "/" +:+ name) = Some Dir)
            /\ name ∉ manifest_plugin_names)
  /\ (forall name,
        ~ (name ∈ (plugins fs plugins_dir manifest_plugin_names).1
           /\ name ∈ (plugins fs plugins_dir manifest_plugin_names).2))
  /\ (forall i game_name game_platform fs0,
        prepare_game_plugin i game_name game_platform fs0 = (fs, inr tt) ->
        plugins_path i = plugins_dir ->
        plugins_dir <> EmptyString ->
        PyStr.contains "/" game_name = false ->
        ("Serpent" +:+ game_name +:+ "GamePlugin") ∉ manifest_plugin_names ->
        ("Serpent" +:+ game_name +:+ "GamePlugin")
          ∈ (plugins fs plugins_dir manifest_plugin_names).2).
Proof.
  unfold plugins. cbn [fst snd]. split; [|split; [|split]].
  - intros name. rewrite elem_of_intersection, subdirectories_spec. reflexivity.
  - intros name. rewrite elem_of_difference, subdirectories_spec. reflexivity.
  - intros name [H1 H2]. apply elem_of_intersection in H1 as [_ H1].
    apply elem_of_difference in H2 as [_ H2]. contradiction.
  - intros i game_name game_platform fs0 H Hd Hne Hs Hm.
    apply elem_of_difference. split; [|exact Hm].
    pose proof (prepare_game_plugin_made _ _ _ _ _ H) as Hmade.
    unfold game_plugin_destination in Hmade. rewrite replace_sep, Hd in Hmade.
    apply subdirectories_spec. split; [|split; [|split]].
    + apply Hmade, elem_of_app. left.
      apply (ancestors_parent plugins_dir
               ("Serpent" +:+ game_name +:+ "GamePlugin") Hne).
    + discriminate.
    + rewrite !contains_slash_app, Hs. reflexivity.
    + apply Hmade, elem_of_app. right. apply list_elem_of_here.
Qed.

Lemma plugins_listing_witness :
  "SerpentFooGamePlugin" ∈ (plugins foo_fs_generated "plugins" ∅).2.
Proof.
  destruct (plugins_listing foo_fs_generated "plugins" ∅) as (_ & _ & _ & H).
  assert (Hne : "plugins" <> EmptyString) by discriminate.
  apply (H foo_install "Foo" "steam" foo_fs foo_generation_succeeds eq_refl
           Hne eq_refl).
  apply not_elem_of_empty.
Defined.
End Plugins.

(** * Further properties: what a generation touches *)

Section Frame.
#[local] Arguments String.append : simpl nomatch.
Implicit Types (fs : FS) (p src dst : string).

Lemma startswith_length p : forall s,
  PyStr.startswith p s = true -> (String.length p <= String.length s)%nat.
Proof.
  induction p as [|x p IH]; intros s H; [simpl; lia|].
  destruct s as [|y s]; [discriminate|]. simpl in H.
  apply andb_true_iff in H as [_ H]. apply IH in H. simpl. lia.
Qed.

Lemma not_below_longer d t : below (d +:+ t) d = false.
Proof.
  destruct (below (d +:+ t) d) eqn:H; [|reflexivity].
  apply startswith_length in H. rewrite !length_app_str in H. simpl in H. lia.
Qed.

Lemma app_ne_self d t : t <> EmptyString -> d <> d +:+ t.
Proof.
  intros Ht H. apply (f_equal String.length) in H.
  rewrite length_app_str in H. destruct t; [contradiction|]. simpl in H. lia.
Qed.

Lemma below_drop src k :
  below src k = true ->
  PyStr.startswith "/" (PyStr.drop (String.length src) k) = true.
Proof.
  unfold below. revert k. induction src as [|x src IH]; intros k H.
  - destruct k as [|y k]; [discriminate|]. simpl in *.
    rewrite andb_true_iff in H. destruct H as [-> _]. reflexivity.
  - destruct k as [|y k]; [discriminate|]. simpl in H.
    apply andb_true_iff in H as [_ H]. exact (IH k H).
Qed.

Lemma reroot_outside src dst fs k :
  below dst k = false -> reroot src dst fs !! k = None.
Proof.
  intros Hk. unfold reroot. apply not_elem_of_list_to_map_1.
  intros Hin. apply list_elem_of_fmap in Hin as ([k2 n2] & Heq & Hin).
  apply list_elem_of_omap in Hin as ([k1 n1] & _ & Hf). simpl in *.
  destruct (below src k1) eqn:Hb; [|discriminate].
  injection Hf as <- <-. subst k.
  rewrite (below_app dst _ (below_drop _ _ Hb)) in Hk. discriminate.
Qed.

(** The copy touches the destination, what lies below it, and the
    ancestors it has to make; nothing else. *)
Lemma copytree_outside src dst fs fs' r k :
  copytree src dst fs = (fs', r) ->
  below dst k = false -> k ∉ ancestors dst ++ [dst] ->
  fs' !! k = fs !! k.
Proof.
  unfold copytree, makedirs. intros H Hb Hk.
  destruct (fs !! src) as [[c|]|]; try (inversion H; reflexivity).
  destruct (fs !! dst) as [x|]; [inversion H; reflexivity|].
  destruct (mkdir_all (ancestors dst ++ [dst]) fs) as [fs1 [e|[]]] eqn:Hm;
    inversion H; subst.
  - apply (mkdir_all_other _ _ _ _ _ Hk Hm).
  - rewrite lookup_union_l by (apply reroot_outside, Hb).
    apply (mkdir_all_other _ _ _ _ _ Hk Hm).
Qed.

(** A successful move whose target is then read as a file was the rename
    of a file. *)
Lemma move_then_read_rename src dst fs fs' fs'' c :
  move src dst fs = (fs', inr tt) ->
  read_file dst fs' = (fs'', inr c) ->
  exists c0,
    fs !! src = Some (File c0) /\ fs' = <[dst := File c0]> (delete src fs).
Proof.
  intros Hm Hr.
  destruct (fs !! src) as [[c0|]|] eqn:Hs.
  - destruct (move_file_then_read _ _ _ _ _ _ _ Hs Hm Hr) as [-> _]. eauto.
  - exfalso. pose proof (move_then_read _ _ _ _ _ _ Hm Hr) as Hkeep.
    apply read_file_ok in Hr as [_ (cr & Hr & _)].
    unfold move in Hm. rewrite Hs in Hm.
    destruct (isdir fs dst) eqn:Hdd; simpl in Hm.
    + apply isdir_true in Hdd. apply Hkeep in Hdd. congruence.
    + destruct (negb (parent_is_dir fs dst)); [discriminate|].
      destruct (below src dst); [discriminate|].
      destruct (fs !! dst) as [[c1|]|]; inversion Hm; subst;
        rewrite lookup_insert_eq in Hr; discriminate.
  - unfold move in Hm. rewrite Hs in Hm. discriminate.
Qed.

(** What a move keeps: a directory that is neither the source nor below
    it. *)
Lemma move_keeps_dir src dst fs fs' r k :
  move src dst fs = (fs', r) ->
  fs !! k = Some Dir -> k <> src -> below src k = false ->
  fs' !! k = Some Dir.
Proof.
  intros Hm Hk Hne Hb. unfold move in Hm.
  destruct (fs !! src) as [n|] eqn:Hs; [|inversion Hm; subst; exact Hk].
  destruct (isdir fs dst && String.eqb src dst);
    [inversion Hm; subst; exact Hk|].
  set (real := if isdir fs dst then os_path_join dst (basename src) else dst) in *.
  destruct (isdir fs dst && path_exists fs real) eqn:Hex;
    [inversion Hm; subst; exact Hk|].
  destruct (negb (parent_is_dir fs real)); [inversion Hm; subst; exact Hk|].
  destruct n as [c0|].
  - destruct (fs !! real) as [[c1|]|] eqn:Hreal; inversion Hm; subst;
      try exact Hk;
      (rewrite lookup_insert_ne by congruence;
       rewrite lookup_delete_ne by congruence; exact Hk).
  - destruct (below src dst); [inversion Hm; subst; exact Hk|].
    assert (Hin : (filter (fun kn : string * Node => below src kn.1 = false)
                     (delete src fs) ∪ reroot src real fs) !! k = Some Dir).
    { apply lookup_union_Some_l, map_lookup_filter_Some. split; [|exact Hb].
      rewrite lookup_delete_ne by congruence. exact Hk. }
    destruct (fs !! real) as [[c1|]|] eqn:Hreal; inversion Hm; subst;
      try exact Hk;
      (destruct (decide (real = k)) as [->|Hrk];
       [apply lookup_insert_eq|rewrite lookup_insert_ne by exact Hrk; exact Hin]).
Qed.

Lemma read_file_state p fs fs' r : read_file p fs = (fs', r) -> fs' = fs.
Proof.
  unfold read_file. destruct (fs !! p) as [[c|]|]; intros H; inversion H;
    reflexivity.
Qed.

Lemma write_file_keeps p c fs fs' r :
  write_file p c fs = (fs', r) -> keeps_dirs fs fs'.
Proof.
  destruct r as [e|[]]; [|apply write_file_ok].
  unfold write_file. intros H.
  assert (fs' = fs) as ->; [|apply keeps_dirs_refl].
  destruct (fs !! p) as [[c'|]|]; try (inversion H; reflexivity);
    destruct (parent_is_dir fs p); inversion H; reflexivity.
Qed.

(** X19: a generation of a game plugin that got past the copy of the
    template and then failed leaves the destination directory in place;
    generating again under the same name then fails as well and changes
    nothing, with FileExistsError for the destination when the template is
    still there. *)
Theorem failed_generation_blocks_retry
    (i : Install) (game_name game_platform game_platform' : string)
    (fs fs1 fs' : FS) (e : PyExc) :
  copytree (game_plugin_template i) (game_plugin_destination i game_name) fs
  = (fs1, inr tt) ->
  prepare_game_plugin i game_name game_platform fs = (fs', inl e) ->
  fs' !! game_plugin_destination i game_name = Some Dir
  /\ (exists e',
        prepare_game_plugin i game_name game_platform' fs' = (fs', inl e'))
  /\ (fs' !! game_plugin_template i = Some Dir ->
      prepare_game_plugin i game_name game_platform' fs'
      = (fs', inl (FileExistsError (game_plugin_destination i game_name)))).
Proof.
  intros H1 H.
  assert (Hdst : fs' !! game_plugin_destination i game_name = Some Dir).
  { revert H. unfold prepare_game_plugin, mbind, FsM_bind. rewrite !replace_sep.
    set (dst := game_plugin_destination i game_name) in *.
    rewrite H1. apply copytree_ok in H1 as [_ Hd].
    match goal with
    | |- context [read_file ?p fs1] =>
        destruct (read_file p fs1) as [fs1' [e1|c1]] eqn:H2;
          apply read_file_state in H2; subst fs1'
    end.
    { intros H; inversion H; subst. exact Hd. }
    match goal with
    | |- context [write_file ?p ?c fs1] =>
        destruct (write_file p c fs1) as [fs2 [e1|[]]] eqn:H3;
          apply write_file_keeps in H3; apply H3 in Hd
    end.
    { intros H; inversion H; subst. exact Hd. }
    match goal with
    | |- context [move ?a ?b fs2] =>
        destruct (move a b fs2) as [fs3 [e1|[]]] eqn:H4;
          apply (move_keeps_dir _ _ _ _ _ dst) in H4;
          try exact Hd;
          try (apply app_ne_self; discriminate);
          try apply not_below_longer
    end.
    { intros H; inversion H; subst. exact H4. }
    match goal with
    | |- context [read_file ?p fs3] =>
        destruct (read_file p fs3) as [fs3' [e1|c2]] eqn:H5;
          apply read_file_state in H5; subst fs3'
    end.
    { intros H; inversion H; subst. exact H4. }
    match goal with
    | |- context [write_file ?p ?c fs3] =>
        destruct (write_file p c fs3) as [fs4 [e1|[]]] eqn:H6;
          apply write_file_keeps in H6; apply H6 in H4
    end.
    { intros H; inversion H; subst. exact H4. }
    match goal with
    | |- context [read_file ?p fs4] =>
        destruct (read_file p fs4) as [fs4' [e1|c3]] eqn:H7;
          apply read_file_state in H7; subst fs4'
    end.
    { intros H; inversion H; subst. exact H4. }
    intros H8. apply write_file_keeps in H8. apply H8, H4. }
  split; [exact Hdst|].
  assert (Hretry : fs' !! game_plugin_template i = Some Dir ->
                   prepare_game_plugin i game_name game_platform' fs'
                   = (fs', inl (FileExistsError (game_plugin_destination i game_name)))).
  { intros Hsrc. unfold prepare_game_plugin, mbind, FsM_bind.
    rewrite (copytree_exists _ _ _ Dir Hsrc Hdst). reflexivity. }
  split; [|exact Hretry].
  destruct (fs' !! game_plugin_template i) as [[c|]|] eqn:Hsrc.
  - eexists. unfold prepare_game_plugin, mbind, FsM_bind, copytree.
    rewrite Hsrc. reflexivity.
  - eexists. apply Hretry. reflexivity.
  - eexists. unfold prepare_game_plugin, mbind, FsM_bind, copytree.
    rewrite Hsrc. reflexivity.
Qed.
End Frame.

Lemma failed_generation_blocks_retry_witness :
  prepare_game_plugin foo_install "Foo" "steam" bare_fs
  = (bare_fs_failed,
     inl (FileNotFoundError "plugins/SerpentFooGamePlugin/plugin.py"))
  /\ prepare_game_plugin foo_install "Foo" "steam" bare_fs_failed
     = (bare_fs_failed, inl (FileExistsError "plugins/SerpentFooGamePlugin")).
Proof.
  assert (H1 : copytree (game_plugin_template foo_install)
                 (game_plugin_destination foo_install "Foo") bare_fs
               = (bare_fs_copied, inr tt)).
  { unfold bare_fs_copied.
    assert (Hr : (copytree (game_plugin_template foo_install)
                    (game_plugin_destination foo_install "Foo") bare_fs).2 = inr tt)
      by (vm_compute; reflexivity).
    destruct (copytree _ _ bare_fs) as [f r]. simpl in *. rewrite Hr. reflexivity. }
  assert (H2 : prepare_game_plugin foo_install "Foo" "steam" bare_fs
               = (bare_fs_failed,
                  inl (FileNotFoundError "plugins/SerpentFooGamePlugin/plugin.py"))).
  { unfold bare_fs_failed.
    assert (Hr : (prepare_game_plugin foo_install "Foo" "steam" bare_fs).2
                 = inl (FileNotFoundError "plugins/SerpentFooGamePlugin/plugin.py"))
      by (vm_compute; reflexivity).
    destruct (prepare_game_plugin foo_install "Foo" "steam" bare_fs) as [f r].
    simpl in *. rewrite Hr. reflexivity. }
  split; [exact H2|].
  destruct (failed_generation_blocks_retry foo_install "Foo" "steam" "steam"
              bare_fs bare_fs_copied bare_fs_failed _ H1 H2) as (_ & _ & H).
  apply H. vm_compute. reflexivity.
Defined.

Section Untouched.
#[local] Arguments String.append : simpl nomatch.

Lemma outside_ne dst k t :
  below dst k = false -> PyStr.startswith "/" t = true -> dst +:+ t <> k.
Proof.
  intros Hk Ht <-. rewrite (below_app _ _ Ht) in Hk. discriminate.
Qed.

(** X20: when something, file or directory, already stands at the
    destination, the generation of a game plugin and of a game agent plugin
    fails with FileExistsError for the destination and writes nothing. *)
Theorem generation_conflict
    (i : Install) (name game_platform : string) (fs : FS) (n n' : Node) :
  (fs !! game_plugin_template i = Some Dir ->
   fs !! (plugins_path i +:+ "/Serpent" +:+ name +:+ "GamePlugin") = Some n ->
   prepare_game_plugin i name game_platform fs
   = (fs, inl (FileExistsError
                 (plugins_path i +:+ "/Serpent" +:+ name +:+ "GamePlugin"))))
  /\ (fs !! game_agent_plugin_template i = Some Dir ->
      fs !! (plugins_path i +:+ "/Serpent" +:+ name +:+ "GameAgentPlugin") = Some n' ->
      prepare_game_agent_plugin i name fs
      = (fs, inl (FileExistsError
                    (plugins_path i +:+ "/Serpent" +:+ name +:+ "GameAgentPlugin")))).
Proof.
  split; intros Hs Hd.
  - unfold prepare_game_plugin, mbind, FsM_bind, game_plugin_destination.
    rewrite replace_sep. rewrite (copytree_exists _ _ _ n Hs Hd). reflexivity.
  - unfold prepare_game_agent_plugin, mbind, FsM_bind,
      game_agent_plugin_destination.
    rewrite replace_sep. rewrite (copytree_exists _ _ _ n' Hs Hd). reflexivity.
Qed.

Lemma generation_conflict_witness :
  prepare_game_plugin foo_install "Foo" "executable"
    (<["plugins/SerpentFooGamePlugin" := File "notes"]> foo_fs)
  = (<["plugins/SerpentFooGamePlugin" := File "notes"]> foo_fs,
     inl (FileExistsError "plugins/SerpentFooGamePlugin")).
Proof.
  destruct (generation_conflict foo_install "Foo" "executable"
              (<["plugins/SerpentFooGamePlugin" := File "notes"]> foo_fs)
              (File "notes") Dir) as (H & _).
  apply H; vm_compute; reflexivity.
Defined.

(** X21: a generation that succeeds changes nothing outside the
    destination: every path that is not the destination, does not lie
    below it and is not one of its ancestors holds after the generation
    what it held before. This is so for a game plugin and for a game agent
    plugin. *)
Theorem generation_touches_destination_only
    (i : Install) (name game_platform : string) (fs fs' : FS) (k : string) :
  (prepare_game_plugin i name game_platform fs = (fs', inr tt) ->
   below (game_plugin_destination i name) k = false ->
   k ∉ ancestors (game_plugin_destination i name)
         ++ [game_plugin_destination i name] ->
   fs' !! k = fs !! k)
  /\ (prepare_game_agent_plugin i name fs = (fs', inr tt) ->
      below (game_agent_plugin_destination i name) k = false ->
      k ∉ ancestors (game_agent_plugin_destination i name)
            ++ [game_agent_plugin_destination i name] ->
      fs' !! k = fs !! k).
Proof.
  split.
  - unfold prepare_game_plugin, mbind, FsM_bind. rewrite !replace_sep.
    set (dst := game_plugin_destination i name) in *.
    destruct (copytree (game_plugin_template i) dst fs) as [fs1 [e|[]]] eqn:H1;
      [discriminate|].
    match goal with
    | |- context [read_file ?p fs1] =>
        destruct (read_file p fs1) as [fs1' [e|c1]] eqn:H2; [discriminate|]
    end.
    apply read_file_state in H2. subst fs1'.
    match goal with
    | |- context [write_file ?p ?c fs1] =>
        destruct (write_file p c fs1) as [fs2 [e|[]]] eqn:H3; [discriminate|]
    end.
    apply write_file_eq in H3.
    match goal with
    | |- context [move ?a ?b fs2] =>
        destruct (move a b fs2) as [fs3 [e|[]]] eqn:H4; [discriminate|]
    end.
    match goal with
    | |- context [read_file ?p fs3] =>
        destruct (read_file p fs3) as [fs3' [e|c2]] eqn:H5; [discriminate|]
    end.
    destruct (move_then_read_rename _ _ _ _ _ _ H4 H5) as (c0 & _ & Hfs3).
    apply read_file_state in H5. subst fs3'.
    match goal with
    | |- context [write_file ?p ?c fs3] =>
        destruct (write_file p c fs3) as [fs4 [e|[]]] eqn:H6; [discriminate|]
    end.
    apply write_file_eq in H6.
    match goal with
    | |- context [read_file ?p fs4] =>
        destruct (read_file p fs4) as [fs4' [e|c3]] eqn:H7; [discriminate|]
    end.
    apply read_file_state in H7. subst fs4'.
    intros H8 Hb Hk. apply write_file_eq in H8.
    subst fs' fs4 fs3 fs2.
    rewrite lookup_insert_ne by (apply outside_ne; [exact Hb|reflexivity]).
    rewrite lookup_insert_ne by (apply outside_ne; [exact Hb|reflexivity]).
    rewrite lookup_insert_ne by (apply outside_ne; [exact Hb|reflexivity]).
    rewrite lookup_delete_ne by (apply outside_ne; [exact Hb|reflexivity]).
    rewrite lookup_insert_ne by (apply outside_ne; [exact Hb|reflexivity]).
    apply (copytree_outside _ _ _ _ _ _ H1 Hb Hk).
  - unfold prepare_game_agent_plugin, mbind, FsM_bind.
    set (dst := game_agent_plugin_destination i name) in *.
    destruct (copytree (game_agent_plugin_template i) dst fs)
      as [fs1 [e|[]]] eqn:H1; [discriminate|].
    match goal with
    | |- context [read_file ?p fs1] =>
        destruct (read_file p fs1) as [fs1' [e|c1]] eqn:H2; [discriminate|]
    end.
    apply read_file_state in H2. subst fs1'.
    match goal with
    | |- context [write_file ?p ?c fs1] =>
        destruct (write_file p c fs1) as [fs2 [e|[]]] eqn:H3; [discriminate|]
    end.
    apply write_file_eq in H3.
    match goal with
    | |- context [move ?a ?b fs2] =>
        destruct (move a b fs2) as [fs3 [e|[]]] eqn:H4; [discriminate|]
    end.
    match goal with
    | |- context [read_file ?p fs3] =>
        destruct (read_file p fs3) as [fs3' [e|c2]] eqn:H5; [discriminate|]
    end.
    destruct (move_then_read_rename _ _ _ _ _ _ H4 H5) as (c0 & _ & Hfs3).
    apply read_file_state in H5. subst fs3'.
    intros H6 Hb Hk. apply write_file_eq in H6.
    subst fs' fs3 fs2.
    rewrite lookup_insert_ne by (apply outside_ne; [exact Hb|reflexivity]).
    rewrite lookup_insert_ne by (apply outside_ne; [exact Hb|reflexivity]).
    rewrite lookup_delete_ne by (apply outside_ne; [exact Hb|reflexivity]).
    rewrite lookup_insert_ne by (apply outside_ne; [exact Hb|reflexivity]).
    apply (copytree_outside _ _ _ _ _ _ H1 Hb Hk).
Qed.
End Untouched.

Lemma generation_touches_destination_only_witness :
  foo_fs_generated
    !! "/opt/serpent/templates/SerpentGamePlugin/files/serpent_game.py"
  = Some (File foo_game_template).
Proof.
  destruct (generation_touches_destination_only foo_install "Foo" "steam"
              foo_fs foo_fs_generated
              "/opt/serpent/templates/SerpentGamePlugin/files/serpent_game.py")
    as (H & _).
  rewrite H.
  - vm_compute. reflexivity.
  - exact foo_generation_succeeds.
  - vm_compute. reflexivity.
  - vm_compute. intros Hin.
    repeat (apply elem_of_cons in Hin as [Hin|Hin]; [discriminate|]).
    by apply elem_of_nil in Hin.
Defined.
